(** * Diagnostic ChatWise UI: the request handlers of the admin console

    The console is a set of React widgets.  Every widget is a form that
    validates its input, issues one [fetch], and maps the outcome to its
    local display state.  This development embeds the handlers as functions
    on the component state:

    - a handler that awaits a request is split at the [await]: the part
      that runs before the request is issued (suffix [_start]) and the
      continuation that runs when the request settles (suffix [_finish]);
    - what the platform returns ([fetch], [response.json()],
      [response.text()], [Date.now()], [window.confirm]) is an argument;
    - calls that leave the component (a request, a timer, a callback prop)
      are returned as a list of effects, in program order. *)

From Stdlib Require Import String Ascii List ZArith QArith Bool Lia DecimalNat DecimalString.
From stdpp Require Import base decidable option list strings gmap.
Set Warnings "-register-all".
Close Scope Q_scope.
Open Scope string_scope.
Open Scope list_scope.
Import ListNotations.

(* ================================================================== *)
(** * JavaScript values and platform calls *)
(* ================================================================== *)

Module Js.

(** Strings are sequences of code units; [+:+] is concatenation. *)

(** White space removed by [String.prototype.trim] among the code units
    below 256: TAB, LF, VT, FF, CR, SP and NBSP. *)
Definition is_white_space (c : ascii) : bool :=
  let n := nat_of_ascii c in
  (n =? 9)%nat || (n =? 10)%nat || (n =? 11)%nat || (n =? 12)%nat
  || (n =? 13)%nat || (n =? 32)%nat || (n =? 160)%nat.

Fixpoint trimStart (s : string) : string :=
  match s with
  | EmptyString => EmptyString
  | String c rest => if is_white_space c then trimStart rest else s
  end.

Definition trimEnd (s : string) : string :=
  String.rev (trimStart (String.rev s)).

Definition trim (s : string) : string := trimEnd (trimStart s).

Definition startsWith (s p : string) : bool := String.prefix p s.

Definition endsWith (s p : string) : bool :=
  String.prefix (String.rev p) (String.rev s).

(** [s.includes(p)] *)
Fixpoint includes (s p : string) : bool :=
  String.prefix p s ||
  match s with
  | EmptyString => false
  | String _ rest => includes rest p
  end.

(** [s.slice(0, -1)] *)
Definition dropLast (s : string) : string :=
  String.rev (match String.rev s with
              | EmptyString => EmptyString
              | String _ rest => rest
              end).

(** A non-negative integer in a template literal, e.g. [response.status]
    and [Date.now()]. *)
Definition nat_to_string (n : nat) : string :=
  NilZero.string_of_uint (Nat.to_uint n).

(** The empty string is the only falsy string. *)
Definition nonempty (s : string) : bool :=
  match s with EmptyString => false | _ => true end.

(** [s || fallback] on strings. *)
Definition str_or (s fallback : string) : string :=
  if nonempty s then s else fallback.

(** ** Numbers

    A value of TypeScript type [number]: a finite number or NaN.
    Comparisons with NaN are false. *)
Inductive Number := Fin (q : Q) | NaN.

Definition lt (a b : Number) : bool :=
  match a, b with
  | Fin x, Fin y => negb (Qle_bool y x)
  | _, _ => false
  end.

Definition ge (a b : Number) : bool :=
  match a, b with
  | Fin x, Fin y => Qle_bool y x
  | _, _ => false
  end.

(** [a === b] on numbers. *)
Definition num_eq (a b : Number) : bool :=
  match a, b with
  | Fin x, Fin y => Qeq_bool x y
  | _, _ => false
  end.

Definition one : Number := Fin 1%Q.

Definition finite (n : Number) : Prop := exists q, n = Fin q.

(** The [value] of an [<input type="number">]: the HTML value sanitisation
    leaves either the empty string or a valid floating-point literal. *)
Inductive NumberInputValue := InputEmpty | InputNumber (q : Q).

(** [Number(e.target.value)] on such a value. *)
Definition Number_of_input (v : NumberInputValue) : Number :=
  match v with
  | InputEmpty => Fin 0%Q
  | InputNumber q => Fin q
  end.

(** ** Parsed JSON: what [response.json()] resolves to, typed [any] *)
Inductive Json :=
| JNull
| JBool (b : bool)
| JNum (q : Q)
| JStr (s : string)
| JArr (items : list Json)
| JObj (fields : list (string * Json)).

(** A JavaScript value read from such data; [None] is [undefined]. *)
Definition Value := option Json.

Definition truthy (v : Value) : bool :=
  match v with
  | None => false
  | Some JNull => false
  | Some (JBool b) => b
  | Some (JNum q) => negb (Qeq_bool q 0)
  | Some (JStr s) => nonempty s
  | Some (JArr _) => true
  | Some (JObj _) => true
  end.

(** [a || b] *)
Definition or_else (a b : Value) : Value := if truthy a then a else b.

(** [a ?? b] *)
Definition nullish (a b : Value) : Value :=
  match a with
  | None | Some JNull => b
  | _ => a
  end.

Fixpoint assoc (k : string) (fields : list (string * Json)) : Value :=
  match fields with
  | [] => None
  | (k', v) :: rest => if String.eqb k k' then Some v else assoc k rest
  end.

(** ** Errors and abrupt completion *)
Record Error := mkError { name : string; message : string }.

Inductive Completion (A : Type) :=
| Return (a : A)
| Throw (e : Error).
Arguments Return {A} a.
Arguments Throw {A} e.

Definition bind {A B} (c : Completion A) (k : A -> Completion B) : Completion B :=
  match c with
  | Return a => k a
  | Throw e => Throw e
  end.

(** [p.catch(() => d)] *)
Definition catch_default {A} (c : Completion A) (d : A) : A :=
  match c with
  | Return a => a
  | Throw _ => d
  end.

(** What the JavaScript engine and the browser decide. *)
Class Platform := {
  (** [Number.prototype.toString] *)
  number_to_string : Q -> string;
  (** [JSON.parse(s)]: the value, or the [SyntaxError] it throws *)
  json_parse : string -> Completion Json;
  (** [new URL(s)] does not throw *)
  url_parses : string -> bool;
  (** message of the [TypeError] raised by reading property [k] of
      [null] or [undefined] *)
  type_error_message : string -> string;
}.

Section WithPlatform.
Context {P : Platform}.

(** [String(v)], as the [Error] constructor and template literals apply it. *)
Fixpoint toString (j : Json) : string :=
  match j with
  | JNull => "null"
  | JBool true => "true"
  | JBool false => "false"
  | JNum q => number_to_string q
  | JStr s => s
  | JArr items =>
      let fix join (l : list Json) : string :=
        match l with
        | [] => ""
        | [x] => match x with JNull => "" | _ => toString x end
        | x :: rest =>
            (match x with JNull => "" | _ => toString x end) +:+ "," +:+ join rest
        end in
      join items
  | JObj _ => "[object Object]"
  end.

Definition value_to_string (v : Value) : string :=
  match v with
  | None => "undefined"
  | Some j => toString j
  end.

(** [new Error(v)] for a defined [v]. *)
Definition new_Error (v : Json) : Error := mkError "Error" (toString v).

(** [data.k] for a property name [k] that is not a built-in member:
    reading from [null] or [undefined] throws, a primitive or an array has
    no such property. *)
Definition get (data : Value) (k : string) : Completion Value :=
  match data with
  | None | Some JNull => Throw (mkError "TypeError" (type_error_message k))
  | Some (JObj fields) => Return (assoc k fields)
  | Some _ => Return None
  end.

(** [data?.k] *)
Definition get_opt (data : Value) (k : string) : Completion Value :=
  match data with
  | None | Some JNull => Return None
  | _ => get data k
  end.

(** [v === "lit"] *)
Definition is_string (v : Value) (lit : string) : bool :=
  match v with
  | Some (JStr s) => String.eqb s lit
  | _ => false
  end.

(** [v || d] where [d] is a defined value. *)
Definition or_default (v : Value) (d : Json) : Json :=
  match v with
  | Some j => if truthy v then j else d
  | None => d
  end.

(** [data.message || data.detail || fallback], the argument of the
    [Error] thrown for a response that is not ok. *)
Definition message_or_detail (data : Json) (fallback : string) : Completion Json :=
  bind (get (Some data) "message") (fun m =>
  if truthy m then Return (or_default m (JStr fallback)) else
  bind (get (Some data) "detail") (fun d =>
  Return (or_default d (JStr fallback)))).

(** [data.message || fallback] *)
Definition message_or (data : Json) (fallback : string) : Completion Json :=
  bind (get (Some data) "message") (fun m => Return (or_default m (JStr fallback))).

(** [const errorData = await response.json().catch(() => ({}));
     throw new Error(errorData.message || fallback)]: the error thrown. *)
Definition statusError {A} (errorBody : Completion Json) (fallback : string) : Completion A :=
  let errorData := catch_default errorBody (JObj []) in
  bind (message_or errorData fallback) (fun v => Throw (mkError "Error" (toString v))).

(** An object literal with spread, [{ ...o, k: v }]: the own enumerable
    properties of [o], then [k]. *)
Definition spread (o : Json) : list (string * Json) :=
  match o with
  | JObj fields => fields
  | JArr items => imap (fun i x => (nat_to_string i, x)) items
  | JStr s =>
      imap (fun i c => (nat_to_string i, JStr (String c EmptyString)))
           (list_ascii_of_string s)
  | _ => []
  end.

Fixpoint set_field (k : string) (v : Json) (fields : list (string * Json))
  : list (string * Json) :=
  match fields with
  | [] => [(k, v)]
  | (k', v') :: rest =>
      if String.eqb k k' then (k, v) :: rest else (k', v') :: set_field k v rest
  end.

End WithPlatform.

(** ** fetch *)

(** A settled response: the status line, and what reading the body as
    text or as JSON settles to (reading can reject: a body that is not
    JSON, a connection lost or a signal aborted while reading). *)
Record Response (A : Type) := {
  status : nat;
  text : Completion string;
  json : Completion A;
}.
Arguments status {A} r.
Arguments text {A} r.
Arguments json {A} r.

(** [response.ok] *)
Definition ok {A} (r : Response A) : bool :=
  (200 <=? status r)%nat && (status r <=? 299)%nat.

(** What [await fetch(...)] gives: a rejection (a network failure is a
    [TypeError], an aborted signal an [AbortError]) or a response.  [A] is
    the type the handler declares for the parsed body, [Json] for [any]. *)
Inductive FetchResult (A : Type) :=
| Rejected (e : Error)
| Resolved (r : Response A).
Arguments Rejected {A} e.
Arguments Resolved {A} r.

Definition AbortError (msg : string) : Error := mkError "AbortError" msg.

Definition isAbortError (e : Error) : bool := String.eqb (name e) "AbortError".

(** ** Requests *)
Inductive Method := GET | POST | PUT | DELETE.

Inductive BodyKind := NoBody | JsonBody | FormDataBody.

(** An [AbortController]; the natural number is its identity. *)
Definition Controller := nat.

Record Request := {
  method : Method;
  target : string;
  body : BodyKind;
  signal : option Controller;
}.

Definition request (m : Method) (u : string) (b : BodyKind) : Request :=
  {| method := m; target := u; body := b; signal := None |}.

End Js.

(* ================================================================== *)
(** * UrlScraper: the scrape form and the status polling loop *)
(* ================================================================== *)

Module UrlScraper.
Import Js.

Record State := {
  url : string;
  maxPages : Number;
  isSubmitting : bool;
  error : option string;
  successMessage : option Json;
  scrapeStatus : option Json;
  isPolling : bool;
}.

Definition initial : State :=
  {| url := ""; maxPages := one; isSubmitting := false; error := None;
     successMessage := None; scrapeStatus := None; isPolling := false |}.

Definition setUrl (v : string) (st : State) : State :=
  {| url := v; maxPages := maxPages st; isSubmitting := isSubmitting st;
     error := error st; successMessage := successMessage st;
     scrapeStatus := scrapeStatus st; isPolling := isPolling st |}.

Definition setMaxPages (v : Number) (st : State) : State :=
  {| url := url st; maxPages := v; isSubmitting := isSubmitting st;
     error := error st; successMessage := successMessage st;
     scrapeStatus := scrapeStatus st; isPolling := isPolling st |}.

Definition setIsSubmitting (v : bool) (st : State) : State :=
  {| url := url st; maxPages := maxPages st; isSubmitting := v;
     error := error st; successMessage := successMessage st;
     scrapeStatus := scrapeStatus st; isPolling := isPolling st |}.

Definition setError (v : option string) (st : State) : State :=
  {| url := url st; maxPages := maxPages st; isSubmitting := isSubmitting st;
     error := v; successMessage := successMessage st;
     scrapeStatus := scrapeStatus st; isPolling := isPolling st |}.

Definition setSuccessMessage (v : option Json) (st : State) : State :=
  {| url := url st; maxPages := maxPages st; isSubmitting := isSubmitting st;
     error := error st; successMessage := v;
     scrapeStatus := scrapeStatus st; isPolling := isPolling st |}.

Definition setScrapeStatus (v : option Json) (st : State) : State :=
  {| url := url st; maxPages := maxPages st; isSubmitting := isSubmitting st;
     error := error st; successMessage := successMessage st;
     scrapeStatus := v; isPolling := isPolling st |}.

Definition setIsPolling (v : bool) (st : State) : State :=
  {| url := url st; maxPages := maxPages st; isSubmitting := isSubmitting st;
     error := error st; successMessage := successMessage st;
     scrapeStatus := scrapeStatus st; isPolling := v |}.

(** The callbacks handed to [setTimeout]. *)
Inductive Callback :=
| ClearSuccessAndStatus   (* setSuccessMessage(null); setScrapeStatus(null) *)
| ClearStatus.            (* setScrapeStatus(null) *)

Inductive Effect :=
| Fetch (r : Request)
| SetTimeout (cb : Callback) (ms : nat).

Section Component.
Context {P : Platform}.
Variables (kbId backendUrl : string).

Definition statusRequest : Request :=
  request GET (backendUrl +:+ "/agents/" +:+ kbId +:+ "/scrape-status") NoBody.

Definition scrapeRequest : Request :=
  request POST (backendUrl +:+ "/agents/" +:+ kbId +:+ "/scrape-url") JsonBody.

(** The [catch] block of [fetchScrapeStatus]. *)
Definition statusFailed (e : Error) (st : State) : State * list Effect * bool :=
  (setIsPolling false (setError (Some (message e)) st), [], false).

(** The [try] block of [fetchScrapeStatus] from the point where its
    [fetch] settles up to the status check: the parsed body, or the error
    that reaches the [catch].  The body is parsed before the status is
    looked at. *)
Definition fetchScrapeStatus_try (res : FetchResult Json) : Completion Json :=
  match res with
  | Rejected e => Throw e
  | Resolved response =>
    bind (json response) (fun data =>
      if negb (ok response) then
        bind (message_or_detail data
                ("Failed to fetch status: " +:+ nat_to_string (status response)))
             (fun v => Throw (new_Error v))
      else Return data)
  end.

(** [fetchScrapeStatus] from the point where its [fetch] settles; the
    boolean is the value it returns. *)
Definition fetchScrapeStatus_finish (res : FetchResult Json) (st : State)
  : State * list Effect * bool :=
  match fetchScrapeStatus_try res with
  | Throw e => statusFailed e st
  | Return data =>
    let st1 := setScrapeStatus (Some data) st in
    match get (Some data) "status" with
    | Throw e => statusFailed e st1
    | Return s =>
      if is_string s "processing" then (st1, [], true)
      else
        let st2 := setIsPolling false st1 in
        if is_string s "completed" then
          match bind (get (Some data) "progress")
                     (fun p => get_opt p "chars_added") with
          | Throw e => statusFailed e st2
          | Return c =>
            (setSuccessMessage
               (Some (JStr ("Scraping completed! Added "
                              +:+ value_to_string (or_else c (Some (JNum 0)))
                              +:+ " characters of content."))) st2,
             [SetTimeout ClearSuccessAndStatus 5000], false)
          end
        else if is_string s "failed" then
          (setError (Some "Scraping failed. Please try again.") st2,
           [SetTimeout ClearStatus 5000], false)
        else (st2, [], false)
    end
  end.

(** ** The polling effect

    [pollStatus] as one effect instance runs it.  The responses the
    backend gives to the successive status requests are the list
    [results]; when it is exhausted the last request is still in flight.
    [polling] is the [isPolling] of the render that created the effect. *)
Inductive PollEvent :=
| Issued (r : Request)                 (* fetch(.../scrape-status) *)
| Settled (res : FetchResult Json)     (* await fetchScrapeStatus() returned *)
| Scheduled (ms : nat).                (* setTimeout(pollStatus, ms) *)

Fixpoint pollStatus (polling : bool) (results : list (FetchResult Json))
  (st : State) : list PollEvent * State :=
  if polling then
    match results with
    | [] => ([Issued statusRequest], st)
    | res :: rest =>
      let '(st', _, shouldContinue) := fetchScrapeStatus_finish res st in
      if shouldContinue then
        let '(tr, st'') := pollStatus polling rest st' in
        (Issued statusRequest :: Settled res :: Scheduled 2000 :: tr, st'')
      else ([Issued statusRequest; Settled res], st')
    end
  else ([], st).

(** The effect body: [if (isPolling) pollStatus()]. *)
Definition pollingEffect (results : list (FetchResult Json)) (st : State)
  : list PollEvent * State :=
  pollStatus (isPolling st) results st.

(** ** The scrape form *)

Definition isValidUrl (urlString : string) : bool :=
  if url_parses urlString
  then startsWith urlString "http://" || startsWith urlString "https://"
  else false.

Definition invalidInputMessage : string :=
  "Please enter a valid URL (starting with http:// or https://) and set max pages to at least 1.".

(** [handleSubmit] up to the [fetch]. *)
Definition handleSubmit_start (st : State) : State * list Effect :=
  if negb (nonempty kbId) || negb (nonempty (url st))
     || negb (isValidUrl (url st)) || lt (maxPages st) one
  then (setSuccessMessage None (setError (Some invalidInputMessage) st), [])
  else
    (setScrapeStatus None
       (setSuccessMessage None (setError None (setIsSubmitting true st))),
     [Fetch scrapeRequest]).

(** The [catch] and [finally] blocks of [handleSubmit]. *)
Definition submitFailed (e : Error) (st : State) : State :=
  setIsSubmitting false
    (setError (Some (str_or (message e)
                       "An unknown error occurred while submitting the URL.")) st).

(** The [try] block of [handleSubmit] from the point where its [fetch]
    settles up to the status check. *)
Definition handleSubmit_try (res : FetchResult Json) : Completion Json :=
  match res with
  | Rejected e => Throw e
  | Resolved response =>
    bind (json response) (fun responseData =>
      if negb (ok response) then
        bind (message_or_detail responseData
                ("Scraping request failed: status " +:+ nat_to_string (status response)))
             (fun v => Throw (new_Error v))
      else Return responseData)
  end.

(** [handleSubmit] from the point where its [fetch] settles. *)
Definition handleSubmit_finish (res : FetchResult Json) (st : State) : State :=
  match bind (handleSubmit_try res) (fun successData =>
          bind (get (Some successData) "message") (fun m =>
          bind (get (Some successData) "submitted_url") (fun u =>
          Return (or_default m (JStr ("Starting scrape for " +:+ value_to_string u))))))
  with
  | Throw e => submitFailed e st
  | Return shown =>
    setIsSubmitting false
      (setIsPolling true
         (setMaxPages one (setUrl "" (setSuccessMessage (Some shown) st))))
  end.

(** ** The component as a transition system *)
Inductive Event :=
| ChangeUrl (v : string)                     (* onChange of the url input *)
| ChangeMaxPages (v : NumberInputValue)      (* onChange of the number input *)
| Submit                                     (* onSubmit *)
| SubmitSettled (res : FetchResult Json)
| StatusSettled (res : FetchResult Json)
| TimerFired (cb : Callback).

Definition step (ev : Event) (st : State) : State :=
  match ev with
  | ChangeUrl v => setUrl v st
  | ChangeMaxPages v => setMaxPages (Number_of_input v) st
  | Submit => fst (handleSubmit_start st)
  | SubmitSettled res => handleSubmit_finish res st
  | StatusSettled res => fst (fst (fetchScrapeStatus_finish res st))
  | TimerFired ClearSuccessAndStatus => setScrapeStatus None (setSuccessMessage None st)
  | TimerFired ClearStatus => setScrapeStatus None st
  end.

Inductive reachable : State -> Prop :=
| reachable_initial : reachable initial
| reachable_step ev st : reachable st -> reachable (step ev st).

(** ** Vocabulary of the polling properties *)

(** The status request came back ok with a body whose [status] field is
    the string "processing". *)
Definition reportsProcessing (res : FetchResult Json) : Prop :=
  exists response data,
    res = Resolved response /\ ok response = true /\
    json response = Return data /\
    get (Some data) "status" = Return (Some (JStr "processing")).

(** The scrape request was accepted: an ok response whose body parses to
    something other than [null]. *)
Definition accepted (res : FetchResult Json) : Prop :=
  exists response data,
    res = Resolved response /\ ok response = true /\
    json response = Return data /\ data <> JNull.

(** One request at a time: a request, then its settlement, then either
    nothing or a 2000 ms timer followed by the next round. *)
Inductive Sequenced : list PollEvent -> Prop :=
| Sequenced_idle : Sequenced []
| Sequenced_in_flight r : Sequenced [Issued r]
| Sequenced_stopped r res : Sequenced [Issued r; Settled res]
| Sequenced_next r res tr :
    tr <> [] -> Sequenced tr ->
    Sequenced (Issued r :: Settled res :: Scheduled 2000 :: tr).

Fixpoint requestsIssued (tr : list PollEvent) : nat :=
  match tr with
  | [] => 0
  | Issued _ :: rest => S (requestsIssued rest)
  | _ :: rest => requestsIssued rest
  end.

(** The [disabled] attribute of the submit button. *)
Definition submitDisabled (st : State) : bool :=
  isSubmitting st || isPolling st || negb (nonempty (url st))
  || negb (isValidUrl (url st)) || lt (maxPages st) one.

End Component.

(** ** The polling effect across renders

    [useEffect(..., [isPolling, fetchScrapeStatus])]: the effect runs
    again when [isPolling] changes or when [fetchScrapeStatus] does, which
    [useCallback] renews when [kbId] or [backendUrl] change.  Every run has
    a [timeoutId] and a [pollStatus] of its own, and [pollStatus] closes
    over the [isPolling] and the [fetchScrapeStatus] of its render. *)
Record Run := {
  runKbId : string;
  runBackendUrl : string;
  runIsPolling : bool;
  timeoutId : option nat;      (* [let timeoutId], set by [setTimeout] *)
}.

(** The mounted component: its props and cells, the runs of the effect
    so far (the live one last), the runs whose [pollStatus] awaits
    [fetchScrapeStatus], the pending timers of [setTimeout(pollStatus,
    2000)] with the run that set each, and what the runs did, in order. *)
Record Instance := {
  kbIdProp : string;
  backendUrlProp : string;
  cells : State;
  runs : list Run;
  awaiting : list nat;
  timers : list (nat * nat);
  nextTimer : nat;
  trace : list PollEvent;
}.

Fixpoint removeTimer (t : nat) (l : list (nat * nat)) : list (nat * nat) :=
  match l with
  | [] => []
  | (t', i) :: rest =>
    if (t' =? t)%nat then removeTimer t rest else (t', i) :: removeTimer t rest
  end.

Fixpoint timerOwner (t : nat) (l : list (nat * nat)) : option nat :=
  match l with
  | [] => None
  | (t', i) :: rest => if (t' =? t)%nat then Some i else timerOwner t rest
  end.

Fixpoint removeFirst (i : nat) (l : list nat) : list nat :=
  match l with
  | [] => []
  | j :: rest => if (j =? i)%nat then rest else j :: removeFirst i rest
  end.

Section Renders.
Context {P : Platform}.

(** [pollStatus()] of run [i] up to its [await]. *)
Definition callPollStatus (i : nat) (c : Instance) : Instance :=
  match runs c !! i with
  | Some r =>
    if runIsPolling r then
      {| kbIdProp := kbIdProp c; backendUrlProp := backendUrlProp c;
         cells := cells c; runs := runs c; awaiting := awaiting c ++ [i];
         timers := timers c; nextTimer := nextTimer c;
         trace := trace c ++ [Issued (statusRequest (runKbId r) (runBackendUrl r))] |}
    else c
  | None => c
  end.

(** The cleanup the live run returned:
    [if (timeoutId) clearTimeout(timeoutId)].  Timer ids are positive. *)
Definition effectCleanup (c : Instance) : Instance :=
  match last (runs c) with
  | Some r =>
    match timeoutId r with
    | Some t =>
      {| kbIdProp := kbIdProp c; backendUrlProp := backendUrlProp c;
         cells := cells c; runs := runs c; awaiting := awaiting c;
         timers := removeTimer t (timers c); nextTimer := nextTimer c;
         trace := trace c |}
    | None => c
    end
  | None => c
  end.

(** The effect body: a new run, and [if (isPolling) pollStatus()]. *)
Definition effectBody (c : Instance) : Instance :=
  let r := {| runKbId := kbIdProp c; runBackendUrl := backendUrlProp c;
              runIsPolling := isPolling (cells c); timeoutId := None |} in
  let c1 :=
    {| kbIdProp := kbIdProp c; backendUrlProp := backendUrlProp c;
       cells := cells c; runs := runs c ++ [r]; awaiting := awaiting c;
       timers := timers c; nextTimer := nextTimer c; trace := trace c |} in
  if isPolling (cells c) then callPollStatus (length (runs c)) c1 else c1.

(** No dependency of the effect changed between two renders. *)
Definition sameDeps (before after : Instance) : bool :=
  Bool.eqb (isPolling (cells before)) (isPolling (cells after))
  && String.eqb (kbIdProp before) (kbIdProp after)
  && String.eqb (backendUrlProp before) (backendUrlProp after).

(** What React does after the render that follows an event. *)
Definition commit (before after : Instance) : Instance :=
  if sameDeps before after then after else effectBody (effectCleanup after).

Definition mount (kbId backendUrl : string) (st : State) : Instance :=
  effectBody
    {| kbIdProp := kbId; backendUrlProp := backendUrl; cells := st; runs := [];
       awaiting := []; timers := []; nextTimer := 1; trace := [] |}.

(** [timeoutId = setTimeout(pollStatus, 2000)] in run [i]. *)
Definition schedulePoll (i : nat) (c : Instance) : Instance :=
  {| kbIdProp := kbIdProp c; backendUrlProp := backendUrlProp c;
     cells := cells c;
     runs := alter (fun r => {| runKbId := runKbId r; runBackendUrl := runBackendUrl r;
                                runIsPolling := runIsPolling r;
                                timeoutId := Some (nextTimer c) |}) i (runs c);
     awaiting := awaiting c;
     timers := timers c ++ [(nextTimer c, i)];
     nextTimer := S (nextTimer c);
     trace := trace c ++ [Scheduled 2000] |}.

Inductive RenderEvent :=
| NewProps (kbId backendUrl : string)        (* the parent renders with other props *)
| Form (ev : Event)                          (* typing, submit and its settlement, the 5 s timers *)
| Answered (i : nat) (res : FetchResult Json)  (* the request of run [i] settles *)
| Fired (t : nat).                           (* timer [t] of setTimeout(pollStatus, 2000) fires *)

Definition render (ev : RenderEvent) (c : Instance) : Instance :=
  match ev with
  | NewProps kbId backendUrl =>
    commit c
      {| kbIdProp := kbId; backendUrlProp := backendUrl; cells := cells c;
         runs := runs c; awaiting := awaiting c; timers := timers c;
         nextTimer := nextTimer c; trace := trace c |}
  | Form (StatusSettled _) => c
  | Form ev =>
    commit c
      {| kbIdProp := kbIdProp c; backendUrlProp := backendUrlProp c;
         cells := step (kbIdProp c) (backendUrlProp c) ev (cells c);
         runs := runs c; awaiting := awaiting c; timers := timers c;
         nextTimer := nextTimer c; trace := trace c |}
  | Answered i res =>
    if existsb (Nat.eqb i) (awaiting c) then
      let '(st', _, shouldContinue) := fetchScrapeStatus_finish res (cells c) in
      let c1 :=
        {| kbIdProp := kbIdProp c; backendUrlProp := backendUrlProp c;
           cells := st'; runs := runs c; awaiting := removeFirst i (awaiting c);
           timers := timers c; nextTimer := nextTimer c;
           trace := trace c ++ [Settled res] |} in
      commit c (if shouldContinue then schedulePoll i c1 else c1)
    else c
  | Fired t =>
    match timerOwner t (timers c) with
    | Some i =>
      callPollStatus i
        {| kbIdProp := kbIdProp c; backendUrlProp := backendUrlProp c;
           cells := cells c; runs := runs c; awaiting := awaiting c;
           timers := removeTimer t (timers c); nextTimer := nextTimer c;
           trace := trace c |}
    | None => c
    end
  end.

(** The events of [evs] in order. *)
Definition renders (evs : list RenderEvent) (c : Instance) : Instance :=
  fold_left (fun c ev => render ev c) evs c.

End Renders.

End UrlScraper.

(* ================================================================== *)
(** * ChatInterface: history loading, chat requests, clear history *)
(* ================================================================== *)

Module ChatInterface.
Import Js.

Inductive Sender := user | ai.

Inductive MessageType := mt_answer | mt_handoff | mt_error | mt_ai | mt_user.

Module Message.
Record t := {
  id : string;
  sender : Sender;
  text : string;
  isLoading : option bool;      (* isLoading?: boolean *)
  messageType : MessageType;
}.
End Message.

(** [type] of a backend history item. *)
Inductive HistoryType := h_human | h_ai | h_handoff | h_answer.

Module HistoryItem.
Record t := { type : HistoryType; content : string }.
End HistoryItem.

(** The body of GET /history: [{ history: HistoryItem[] }]. *)
Record HistoryData := { history : list HistoryItem.t }.

(** [type] of a chat response; the handler falls back to 'ai' when the
    field is falsy, which [None] stands for. *)
Inductive ResponseType := r_handoff | r_answer.

Module ChatResponse.
Record t := { type : option ResponseType; content : string }.
End ChatResponse.

(** The [useState] cells of the component. *)
Record State := {
  messages : list Message.t;
  userInput : string;
  isLoading : bool;
  isHistoryLoading : bool;
  historyError : option string;
  isClearingHistory : bool;
  clearHistoryError : option string;
}.

Definition initial : State :=
  {| messages := []; userInput := ""; isLoading := false;
     isHistoryLoading := false; historyError := None;
     isClearingHistory := false; clearHistoryError := None |}.

Definition setMessages (v : list Message.t) (st : State) : State :=
  {| messages := v; userInput := userInput st; isLoading := isLoading st;
     isHistoryLoading := isHistoryLoading st;
     historyError := historyError st;
     isClearingHistory := isClearingHistory st;
     clearHistoryError := clearHistoryError st |}.

Definition setUserInput (v : string) (st : State) : State :=
  {| messages := messages st; userInput := v; isLoading := isLoading st;
     isHistoryLoading := isHistoryLoading st;
     historyError := historyError st;
     isClearingHistory := isClearingHistory st;
     clearHistoryError := clearHistoryError st |}.

Definition setIsLoading (v : bool) (st : State) : State :=
  {| messages := messages st; userInput := userInput st; isLoading := v;
     isHistoryLoading := isHistoryLoading st;
     historyError := historyError st;
     isClearingHistory := isClearingHistory st;
     clearHistoryError := clearHistoryError st |}.

Definition setIsHistoryLoading (v : bool) (st : State) : State :=
  {| messages := messages st; userInput := userInput st;
     isLoading := isLoading st; isHistoryLoading := v;
     historyError := historyError st;
     isClearingHistory := isClearingHistory st;
     clearHistoryError := clearHistoryError st |}.

Definition setHistoryError (v : option string) (st : State) : State :=
  {| messages := messages st; userInput := userInput st;
     isLoading := isLoading st; isHistoryLoading := isHistoryLoading st;
     historyError := v; isClearingHistory := isClearingHistory st;
     clearHistoryError := clearHistoryError st |}.

Definition setIsClearingHistory (v : bool) (st : State) : State :=
  {| messages := messages st; userInput := userInput st;
     isLoading := isLoading st; isHistoryLoading := isHistoryLoading st;
     historyError := historyError st; isClearingHistory := v;
     clearHistoryError := clearHistoryError st |}.

Definition setClearHistoryError (v : option string) (st : State) : State :=
  {| messages := messages st; userInput := userInput st;
     isLoading := isLoading st; isHistoryLoading := isHistoryLoading st;
     historyError := historyError st;
     isClearingHistory := isClearingHistory st; clearHistoryError := v |}.


(** The component instance: its props, its state, the [useRef] cell
    [abortControllerRef], the controller the live history effect created,
    and the abort controllers allocated so far with the set of those whose
    signal has been aborted. *)
Record World := {
  kbId : string;
  backendUrl : string;
  view : State;
  abortControllerRef : option Controller;
  historyAbortController : Controller;
  aborted : gset Controller;
  nextController : Controller;
}.

Definition withView (f : State -> State) (w : World) : World :=
  {| kbId := kbId w; backendUrl := backendUrl w; view := f (view w);
     abortControllerRef := abortControllerRef w;
     historyAbortController := historyAbortController w;
     aborted := aborted w; nextController := nextController w |}.

Definition setRef (v : option Controller) (w : World) : World :=
  {| kbId := kbId w; backendUrl := backendUrl w; view := view w;
     abortControllerRef := v;
     historyAbortController := historyAbortController w;
     aborted := aborted w; nextController := nextController w |}.

(** [c.abort()] *)
Definition abort (c : Controller) (w : World) : World :=
  {| kbId := kbId w; backendUrl := backendUrl w; view := view w;
     abortControllerRef := abortControllerRef w;
     historyAbortController := historyAbortController w;
     aborted := {[ c ]} ∪ aborted w; nextController := nextController w |}.

Inductive Effect :=
| AbortCall (c : Controller)
| Fetch (r : Request).

Definition cleanBackendUrl (backendUrl : string) : string :=
  if endsWith backendUrl "/" then dropLast backendUrl else backendUrl.

Definition historyUrl (backendUrl kbId : string) : string :=
  cleanBackendUrl backendUrl +:+ "/agents/" +:+ kbId +:+ "/history".

Definition chatUrl (backendUrl kbId : string) : string :=
  cleanBackendUrl backendUrl +:+ "/agents/" +:+ kbId +:+ "/chat".

Definition welcomeText : string :=
  "Hello! I'm your AI assistant. How can I help you today?".

Definition welcomeMessage (now : nat) : Message.t :=
  {| Message.id := "ai-welcome-" +:+ nat_to_string now;
     Message.sender := ai;
     Message.text := welcomeText;
     Message.isLoading := None;
     Message.messageType := mt_ai |}.

(** ** Loading the history when [kbId] or [backendUrl] changes *)

(** "Cancel any ongoing message fetch request" *)
Definition abortOngoing (w : World) : World * list Effect :=
  match abortControllerRef w with
  | Some c => (setRef None (abort c w), [AbortCall c])
  | None => (w, [])
  end.

(** The effect body: a fresh controller, then [loadHistory()] up to its
    [fetch]. *)
Definition historyEffect (w : World) : World * list Effect :=
  let c := nextController w in
  let w0 :=
    {| kbId := kbId w; backendUrl := backendUrl w; view := view w;
       abortControllerRef := abortControllerRef w;
       historyAbortController := c;
       aborted := aborted w; nextController := S c |} in
  if negb (nonempty (kbId w)) then (w0, [])
  else
    let w1 :=
      withView (fun st =>
        setIsLoading false (setUserInput "" (setMessages []
          (setHistoryError None (setIsHistoryLoading true st))))) w0 in
    let '(w2, aborts) := abortOngoing w1 in
    (w2, aborts ++
         [Fetch {| method := GET; target := historyUrl (backendUrl w) (kbId w);
                   body := NoBody; signal := Some c |}]).

(** The cleanup the effect returned. *)
Definition historyCleanup (w : World) : World * list Effect :=
  (abort (historyAbortController w) w, [AbortCall (historyAbortController w)]).

(** A render with new [kbId] or [backendUrl]: the cleanup of the previous
    effect, then the effect again. *)
Definition propsChanged (kbId' backendUrl' : string) (w : World)
  : World * list Effect :=
  let '(w1, e1) := historyCleanup w in
  let w2 :=
    {| kbId := kbId'; backendUrl := backendUrl'; view := view w1;
       abortControllerRef := abortControllerRef w1;
       historyAbortController := historyAbortController w1;
       aborted := aborted w1; nextController := nextController w1 |} in
  let '(w3, e2) := historyEffect w2 in
  (w3, e1 ++ e2).

Definition formatHistoryItem (kbId : string) (index : nat) (item : HistoryItem.t)
  : Message.t :=
  {| Message.id := "hist-" +:+ kbId +:+ "-" +:+ nat_to_string index;
     Message.sender :=
       match HistoryItem.type item with h_human => user | _ => ai end;
     Message.text := HistoryItem.content item;
     Message.isLoading := None;
     Message.messageType :=
       match HistoryItem.type item with
       | h_human => mt_user
       | h_handoff => mt_handoff
       | h_answer => mt_answer
       | h_ai => mt_ai
       end |}.

(** The [try] block of [loadHistory] from the point where [fetch]
    settles: the parsed body, or the error that reaches the [catch]. *)
Definition loadHistory_try {A} (res : FetchResult A) : Completion A :=
  match res with
  | Rejected e => Throw e
  | Resolved response =>
    if negb (ok response) then
      bind (text response) (fun errorText =>
        Throw (mkError "Error"
                 ("HTTP error! status: " +:+ nat_to_string (status response)
                    +:+ ", details: " +:+ str_or errorText "Failed to fetch history")))
    else json response
  end.

Definition historyErrorMessage (now : nat) (e : Error) : Message.t :=
  {| Message.id := "err-hist-" +:+ nat_to_string now;
     Message.sender := ai;
     Message.text := "Error loading history: " +:+ str_or (message e) "Unknown error";
     Message.isLoading := None;
     Message.messageType := mt_error |}.

(** [loadHistory] for agent [kbId] from the point where [fetch] settles. *)
Definition loadHistory_finish (kbId : string) (now : nat)
  (res : FetchResult HistoryData) (st : State) : State :=
  let st' :=
    match loadHistory_try res with
    | Return data =>
      let formattedHistory := imap (formatHistoryItem kbId) (history data) in
      match formattedHistory with
      | [] => setMessages [welcomeMessage now] st
      | _ => setMessages formattedHistory st
      end
    | Throw e =>
      if isAbortError e then st
      else setMessages [historyErrorMessage now e]
             (setHistoryError (Some (str_or (message e) "Failed to load chat history.")) st)
    end in
  setIsHistoryLoading false st'.

(** ** Sending a message *)

Definition placeholderId (now : nat) : string := "ai-loading-" +:+ nat_to_string now.

(** [handleSendMessage] up to its [fetch].  [userInput] and [isLoading]
    are the values the callback closed over, [now] and [now'] the two
    readings of [Date.now()]. *)
Definition handleSendMessage_start (userInput : string) (isLoading : bool)
  (now now' : nat) (w : World) : World * list Effect :=
  let trimmedInput := trim userInput in
  if negb (nonempty trimmedInput) || isLoading then (w, [])
  else
    let '(w1, aborts) := abortOngoing w in
    let userMessage :=
      {| Message.id := "user-" +:+ nat_to_string now;
         Message.sender := user;
         Message.text := trimmedInput;
         Message.isLoading := None;
         Message.messageType := mt_user |} in
    let aiPlaceholderMessage :=
      {| Message.id := placeholderId now';
         Message.sender := ai;
         Message.text := "";
         Message.isLoading := Some true;
         Message.messageType := mt_ai |} in
    let w2 :=
      withView (fun st =>
        setIsLoading true (setUserInput ""
          (setMessages (messages st ++ [userMessage; aiPlaceholderMessage]) st))) w1 in
    let controller := nextController w2 in
    let w3 :=
      {| kbId := kbId w2; backendUrl := backendUrl w2; view := view w2;
         abortControllerRef := Some controller;
         historyAbortController := historyAbortController w2;
         aborted := aborted w2; nextController := S controller |} in
    (w3, aborts ++
         [Fetch {| method := POST; target := chatUrl (backendUrl w) (kbId w);
                   body := JsonBody; signal := Some controller |}]).

(** The first two links of the promise chain: the parsed body, or the
    error that reaches [.catch]. *)
Definition handleSendMessage_try {A} (res : FetchResult A) : Completion A :=
  match res with
  | Rejected e => Throw e
  | Resolved response =>
    if negb (ok response) then
      bind (text response) (fun t =>
        Throw (mkError "Error"
                 ("HTTP error! status: " +:+ nat_to_string (status response)
                    +:+ ", details: " +:+ str_or t "No details")))
    else json response
  end.

(** [prev.map(msg => msg.id === id ? f(msg) : msg)] *)
Definition updateMessage (id : string) (f : Message.t -> Message.t)
  (prev : list Message.t) : list Message.t :=
  map (fun msg => if String.eqb (Message.id msg) id then f msg else msg) prev.

Definition answered (data : ChatResponse.t) (msg : Message.t) : Message.t :=
  {| Message.id := Message.id msg;
     Message.sender := Message.sender msg;
     Message.text := str_or (ChatResponse.content data) "No answer provided";
     Message.isLoading := Some false;
     Message.messageType :=
       match ChatResponse.type data with
       | Some r_handoff => mt_handoff
       | Some r_answer => mt_answer
       | None => mt_ai
       end |}.

Definition errored (e : Error) (msg : Message.t) : Message.t :=
  {| Message.id := Message.id msg;
     Message.sender := Message.sender msg;
     Message.text := "Error: " +:+ str_or (message e) "Failed to get response";
     Message.isLoading := Some false;
     Message.messageType := mt_error |}.

(** The rest of the chain of the request whose placeholder is
    [aiPlaceholderMessageId]: [.then], [.catch] and [.finally]. *)
Definition handleSendMessage_finish (aiPlaceholderMessageId : string)
  (res : FetchResult ChatResponse.t) (w : World) : World :=
  let w' :=
    match handleSendMessage_try res with
    | Return data =>
      withView (fun st =>
        setMessages (updateMessage aiPlaceholderMessageId (answered data) (messages st)) st) w
    | Throw e =>
      if negb (isAbortError e) then
        withView (fun st =>
          setMessages (updateMessage aiPlaceholderMessageId (errored e) (messages st)) st) w
      else w
    end in
  setRef None (withView (setIsLoading false) w').

(** ** Clearing the history *)

(** [handleClearHistory] up to its [fetch]; [userConfirmed] is the answer
    to [window.confirm]. *)
Definition handleClearHistory_start (kbId backendUrl : string)
  (userConfirmed : bool) (st : State) : State * list Effect :=
  if negb (nonempty kbId) || isClearingHistory st then (st, [])
  else
    let st1 := setClearHistoryError None (setIsClearingHistory true st) in
    if negb userConfirmed then (setIsClearingHistory false st1, [])
    else (st1, [Fetch (request DELETE (historyUrl backendUrl kbId) NoBody)]).

(** The [try] block from the point where [fetch] settles. *)
Definition handleClearHistory_try {A} (res : FetchResult A) : Completion unit :=
  match res with
  | Rejected e => Throw e
  | Resolved response =>
    if negb (ok response) then
      bind (text response) (fun errorText =>
        Throw (mkError "Error"
                 ("HTTP error! status: " +:+ nat_to_string (status response)
                    +:+ ", details: " +:+ str_or errorText "Failed to clear history")))
    else Return tt
  end.

Definition handleClearHistory_finish {A} (now : nat) (res : FetchResult A)
  (st : State) : State :=
  let st' :=
    match handleClearHistory_try res with
    | Return _ => setHistoryError None (setMessages [welcomeMessage now] st)
    | Throw e =>
      setClearHistoryError (Some (str_or (message e) "Failed to clear history.")) st
    end in
  setIsClearingHistory false st'.

(** ** The component as a transition system

    A settlement event names the controller whose signal the request
    carried; a request whose signal has been aborted settles with an
    [AbortError] whatever the network did.  [step] takes the events in any
    order.  The browser delivers the rejection of an aborted request right
    after the handler that aborted it, before any later event, so a
    scenario of the component keeps that order. *)
Definition abortReason : string := "signal is aborted without reason".

Definition settled {A} (w : World) (c : Controller) (res : FetchResult A)
  : FetchResult A :=
  if decide (c ∈ aborted w) then Rejected (AbortError abortReason) else res.

Inductive Event :=
| PropsChanged (kbId backendUrl : string)
| Typed (v : string)                                  (* setUserInput *)
| Send (userInput : string) (isLoading : bool) (now now' : nat)
| HistorySettled (c : Controller) (kbId : string) (now : nat)
                 (res : FetchResult HistoryData)
| ChatSettled (c : Controller) (aiPlaceholderMessageId : string)
              (res : FetchResult ChatResponse.t)
| ClearHistory (userConfirmed : bool)
| ClearSettled (now : nat) (res : FetchResult Json).

Definition step (ev : Event) (w : World) : World :=
  match ev with
  | PropsChanged kbId' backendUrl' => fst (propsChanged kbId' backendUrl' w)
  | Typed v => withView (setUserInput v) w
  | Send userInput isLoading now now' =>
      fst (handleSendMessage_start userInput isLoading now now' w)
  | HistorySettled c kbId now res =>
      withView (loadHistory_finish kbId now (settled w c res)) w
  | ChatSettled c pid res =>
      handleSendMessage_finish pid (settled w c res) w
  | ClearHistory userConfirmed =>
      withView (fun st =>
        fst (handleClearHistory_start (kbId w) (backendUrl w) userConfirmed st)) w
  | ClearSettled now res => withView (handleClearHistory_finish now res) w
  end.

(** The events of [evs] in order. *)
Definition run (evs : list Event) (w : World) : World :=
  fold_left (fun w ev => step ev w) evs w.

(** The component right after it was mounted for agent [kbId]: the
    history effect has run once. *)
Definition mounted (kbId backendUrl : string) : World :=
  fst (historyEffect
         {| kbId := kbId; backendUrl := backendUrl; view := initial;
            abortControllerRef := None; historyAbortController := 0;
            aborted := ∅; nextController := 0 |}).

(** Every controller in use was allocated before [nextController]. *)
Definition allocated (w : World) : Prop :=
  (forall c, c ∈ aborted w -> c < nextController w) /\
  historyAbortController w < nextController w /\
  (forall c, abortControllerRef w = Some c -> c < nextController w).

(** ** Regenerate and the send button *)

(** [l.findIndex(p)]; [None] is -1. *)
Fixpoint findIndex {A} (p : A -> bool) (l : list A) : option nat :=
  match l with
  | [] => None
  | x :: rest => if p x then Some 0 else option_map S (findIndex p rest)
  end.

Definition isUserMessage (msg : Message.t) : bool :=
  match Message.sender msg with user => true | ai => false end.

(** [setTimeout(() => handleSendMessage(), 0)]: the callback is the
    [handleSendMessage] of the render in which the button was clicked,
    with the [userInput] and [isLoading] of that render. *)
Inductive Scheduled := SendLater (userInput : string) (isLoading : bool).

(** [handleRegenerateResponse], created anew on every render. *)
Definition handleRegenerateResponse (st : State) : State * list Scheduled :=
  if isLoading st then (st, [])
  else
    match findIndex isUserMessage (rev (messages st)) with
    | None => (st, [])
    | Some lastUserMessageIndex =>
      match messages st !! (length (messages st) - 1 - lastUserMessageIndex) with
      | Some lastUserMessage =>
        (setUserInput (Message.text lastUserMessage) st,
         [SendLater (userInput st) (isLoading st)])
      | None => (st, [])
      end
    end.

(** The [disabled] attribute of the send button. *)
Definition sendDisabled (st : State) : bool :=
  isLoading st || negb (nonempty (trim (userInput st))) || isClearingHistory st.

(** The [disabled] attribute of the clear-history button. *)
Definition clearDisabled (kbId : string) (st : State) : bool :=
  negb (nonempty kbId) || isClearingHistory st || isHistoryLoading st.

End ChatInterface.

(* ================================================================== *)
(** * JSONUpload: the JSON textarea and the list of stored JSON *)
(* ================================================================== *)

Module JSONUpload.
Import Js.

Inductive UploadStatus := idle | uploading | success | error.

Inductive MessageKind := msg_success | msg_error.

(** [{ type: 'success' | 'error'; text: string } | null]; the text of a
    success message is [result.message] when the backend sends one. *)
Definition StatusMessage := option (MessageKind * Json).

(** The [useState] cells; the clipboard cell [copiedIndex] is used by
    the copy button only. *)
Record State := {
  jsonData : string;
  isValidJson : bool;
  uploadStatus : UploadStatus;
  uploadMessage : StatusMessage;
  existingJsonContent : list Json;
  isFetchingJson : bool;
  fetchJsonError : option string;
}.

Definition initial : State :=
  {| jsonData := ""; isValidJson := true; uploadStatus := idle;
     uploadMessage := None; existingJsonContent := [];
     isFetchingJson := false; fetchJsonError := None |}.

Definition setJsonData (v : string) (st : State) : State :=
  {| jsonData := v; isValidJson := isValidJson st;
     uploadStatus := uploadStatus st; uploadMessage := uploadMessage st;
     existingJsonContent := existingJsonContent st;
     isFetchingJson := isFetchingJson st;
     fetchJsonError := fetchJsonError st |}.

Definition setIsValidJson (v : bool) (st : State) : State :=
  {| jsonData := jsonData st; isValidJson := v;
     uploadStatus := uploadStatus st; uploadMessage := uploadMessage st;
     existingJsonContent := existingJsonContent st;
     isFetchingJson := isFetchingJson st;
     fetchJsonError := fetchJsonError st |}.

Definition setUploadStatus (v : UploadStatus) (st : State) : State :=
  {| jsonData := jsonData st; isValidJson := isValidJson st;
     uploadStatus := v; uploadMessage := uploadMessage st;
     existingJsonContent := existingJsonContent st;
     isFetchingJson := isFetchingJson st;
     fetchJsonError := fetchJsonError st |}.

Definition setUploadMessage (v : StatusMessage) (st : State) : State :=
  {| jsonData := jsonData st; isValidJson := isValidJson st;
     uploadStatus := uploadStatus st; uploadMessage := v;
     existingJsonContent := existingJsonContent st;
     isFetchingJson := isFetchingJson st;
     fetchJsonError := fetchJsonError st |}.

Definition setExistingJsonContent (v : list Json) (st : State) : State :=
  {| jsonData := jsonData st; isValidJson := isValidJson st;
     uploadStatus := uploadStatus st; uploadMessage := uploadMessage st;
     existingJsonContent := v; isFetchingJson := isFetchingJson st;
     fetchJsonError := fetchJsonError st |}.

Definition setIsFetchingJson (v : bool) (st : State) : State :=
  {| jsonData := jsonData st; isValidJson := isValidJson st;
     uploadStatus := uploadStatus st; uploadMessage := uploadMessage st;
     existingJsonContent := existingJsonContent st; isFetchingJson := v;
     fetchJsonError := fetchJsonError st |}.

Definition setFetchJsonError (v : option string) (st : State) : State :=
  {| jsonData := jsonData st; isValidJson := isValidJson st;
     uploadStatus := uploadStatus st; uploadMessage := uploadMessage st;
     existingJsonContent := existingJsonContent st;
     isFetchingJson := isFetchingJson st; fetchJsonError := v |}.


Inductive Effect := Fetch (r : Request).

Definition isUploading (s : UploadStatus) : bool :=
  match s with uploading => true | _ => false end.

Definition isEmpty (s : string) : bool := negb (nonempty s).

Section Component.
Context {P : Platform}.
Variables (kbId backendUrl : string).

Definition jsonUrl : string := backendUrl +:+ "/agents/" +:+ kbId +:+ "/json".

(** ** fetchExistingJson *)

Definition fetchExistingJson_start (st : State) : State * list Effect :=
  if negb (nonempty kbId) then (st, [])
  else (setFetchJsonError None (setIsFetchingJson true st),
        [Fetch (request GET jsonUrl NoBody)]).

Definition fetchExistingJson_try (res : FetchResult Json) : Completion Json :=
  match res with
  | Rejected e => Throw e
  | Resolved response =>
    if negb (ok response) then
      statusError (json response)
        ("HTTP error! status: " +:+ nat_to_string (status response))
    else json response
  end.

Definition fetchExistingJson_finish (res : FetchResult Json) (st : State) : State :=
  let st' :=
    match fetchExistingJson_try res with
    | Return data =>
      setExistingJsonContent (match data with JArr items => items | _ => [] end) st
    | Throw err =>
      setExistingJsonContent []
        (setFetchJsonError (Some ("Failed to fetch existing JSON: " +:+ message err)) st)
    end in
  setIsFetchingJson false st'.

(** ** The textarea *)

Definition handleJsonChange (data : string) (st : State) : State :=
  let st1 := setUploadStatus idle (setUploadMessage None (setJsonData data st)) in
  if isEmpty (trim data) then setIsValidJson true st1
  else match json_parse data with
       | Return _ => setIsValidJson true st1
       | Throw _ => setIsValidJson false st1
       end.

(** The [disabled] attribute of the Upload button. *)
Definition uploadDisabled (st : State) : bool :=
  negb (isValidJson st) || isEmpty (trim (jsonData st))
  || isUploading (uploadStatus st).

(** ** handleUpload *)

(** The [catch] and [finally] blocks.  [closedStatus] is the
    [uploadStatus] the handler closed over when it was created. *)
Definition uploadFailed (closedStatus : UploadStatus) (e : Error) (st : State) : State :=
  let message := str_or (Js.message e) "An unexpected error occurred." in
  let st1 := setUploadStatus error st in
  let st2 :=
    if includes message "valid JSON"
    then setUploadMessage (Some (msg_error, JStr "Failed to upload: Invalid JSON format.")) st1
    else setUploadMessage (Some (msg_error, JStr ("Failed to upload: " +:+ message))) st1 in
  match closedStatus with
  | success | error => st2
  | _ => setUploadStatus idle st2
  end.

(** [handleUpload] up to its [fetch]. *)
Definition handleUpload_start (st : State) : State * list Effect :=
  if negb (isValidJson st) || isEmpty (trim (jsonData st))
     || isUploading (uploadStatus st)
  then
    if negb (isValidJson st)
    then (setUploadMessage (Some (msg_error, JStr "Input is not valid JSON.")) st, [])
    else if isEmpty (trim (jsonData st))
    then (setUploadMessage (Some (msg_error, JStr "JSON input cannot be empty.")) st, [])
    else (st, [])
  else
    let st1 := setUploadMessage None (setUploadStatus uploading st) in
    match json_parse (jsonData st) with
    | Throw e => (uploadFailed (uploadStatus st) e st1, [])
    | Return parsedJson => (st1, [Fetch (request POST jsonUrl JsonBody)])
    end.

(** The [try] block from the point where [fetch] settles, up to the
    text of the success message; [result.message] is read on both
    paths and throws when [result] is null. *)
Definition handleUpload_try (res : FetchResult Json) : Completion Json :=
  match res with
  | Rejected e => Throw e
  | Resolved response =>
    bind (json response) (fun result =>
      if negb (ok response) then
        bind (message_or result "Failed to upload JSON data.")
             (fun v => Throw (new_Error v))
      else message_or result "JSON data uploaded successfully.")
  end.

Definition handleUpload_finish (closedStatus : UploadStatus)
  (res : FetchResult Json) (st : State) : State * list Effect :=
  match handleUpload_try res with
  | Return shown =>
    let st1 :=
      setJsonData ""
        (setUploadMessage (Some (msg_success, shown)) (setUploadStatus success st)) in
    let '(st2, effects) := fetchExistingJson_start st1 in
    (match closedStatus with
     | success | error => st2
     | _ => setUploadStatus idle st2
     end, effects)
  | Throw e => (uploadFailed closedStatus e st, [])
  end.

(** ** The component as a transition system *)
Inductive Event :=
| JsonChange (data : string)
| Upload
| UploadSettled (closedStatus : UploadStatus) (res : FetchResult Json)
| Refresh
| ExistingJsonSettled (res : FetchResult Json).

Definition step (ev : Event) (st : State) : State :=
  match ev with
  | JsonChange data => handleJsonChange data st
  | Upload => fst (handleUpload_start st)
  | UploadSettled closedStatus res => fst (handleUpload_finish closedStatus res st)
  | Refresh => fst (fetchExistingJson_start st)
  | ExistingJsonSettled res => fetchExistingJson_finish res st
  end.

Inductive reachable : State -> Prop :=
| reachable_initial : reachable initial
| reachable_step ev st : reachable st -> reachable (step ev st).

(** [JSON.parse] rejects the text of the textarea. *)
Definition doesNotParse (s : string) : Prop := exists e, json_parse s = Throw e.

(** A text that is marked valid is blank or parses. *)
Definition consistent (st : State) : Prop :=
  isValidJson st = true ->
  isEmpty (trim (jsonData st)) = true \/ exists v, json_parse (jsonData st) = Return v.

End Component.
End JSONUpload.

(* ================================================================== *)
(** * AgentManager and the agent list of the main view *)
(* ================================================================== *)

Module AgentManager.
Import Js.

(** An agent record, an object with [kb_id], [name] and [summary]. *)
Definition KBInfo := list (string * Json).

Record State := {
  newKbName : string;
  creatingAgent : bool;
  createLoading : bool;
  error : option string;
  deletingKbId : option string;
}.

Definition initial : State :=
  {| newKbName := ""; creatingAgent := false; createLoading := false;
     error := None; deletingKbId := None |}.

Definition setNewKbName (v : string) (st : State) : State :=
  {| newKbName := v; creatingAgent := creatingAgent st;
     createLoading := createLoading st; error := error st;
     deletingKbId := deletingKbId st |}.

Definition setCreatingAgent (v : bool) (st : State) : State :=
  {| newKbName := newKbName st; creatingAgent := v;
     createLoading := createLoading st; error := error st;
     deletingKbId := deletingKbId st |}.

Definition setCreateLoading (v : bool) (st : State) : State :=
  {| newKbName := newKbName st; creatingAgent := creatingAgent st;
     createLoading := v; error := error st;
     deletingKbId := deletingKbId st |}.

Definition setError (v : option string) (st : State) : State :=
  {| newKbName := newKbName st; creatingAgent := creatingAgent st;
     createLoading := createLoading st; error := v;
     deletingKbId := deletingKbId st |}.

Definition setDeletingKbId (v : option string) (st : State) : State :=
  {| newKbName := newKbName st; creatingAgent := creatingAgent st;
     createLoading := createLoading st; error := error st;
     deletingKbId := v |}.


(** A request, or a call of one of the callback props. *)
Inductive Effect :=
| Fetch (r : Request)
| onKbSelected (kbId : Value)
| onKbCreated (newKb : KBInfo)
| refreshKbs.

Section Component.
Context {P : Platform}.
Variable backendUrl : string.

(** ** handleCreateKb *)

Definition handleCreateKb_start (st : State) : State * list Effect :=
  if negb (nonempty (trim (newKbName st)))
  then (setError (Some "Please enter a name for the agent") st, [])
  else (setError None (setCreateLoading true st),
        [Fetch (request POST (backendUrl +:+ "/agents") JsonBody)]).

(** The [try] block from the point where [fetch] settles: the record
    handed to [onKbCreated], or the error that reaches the [catch]. *)
Definition handleCreateKb_try (res : FetchResult Json) : Completion KBInfo :=
  match res with
  | Rejected e => Throw e
  | Resolved response =>
    if negb (ok response) then
      statusError (json response)
        ("HTTP error! status: " +:+ nat_to_string (status response))
    else
      bind (json response) (fun createdKb =>
      bind (get (Some createdKb) "message") (fun m =>
      Return (set_field "summary" (or_default m (JStr "(Agent created)"))
                (spread createdKb))))
  end.

Definition handleCreateKb_finish (res : FetchResult Json) (st : State)
  : State * list Effect :=
  match handleCreateKb_try res with
  | Return newKb =>
    (setCreateLoading false (setCreatingAgent false (setNewKbName "" st)),
     [onKbCreated newKb])
  | Throw e =>
    (setCreateLoading false
       (setError (Some (str_or (message e) "Failed to create agent")) st), [])
  end.

(** The [disabled] attribute of the Create Agent button. *)
Definition createDisabled (st : State) : bool :=
  createLoading st || negb (nonempty (trim (newKbName st))).

(** ** handleDeleteKb *)

Definition handleDeleteKb_start (kbIdToDelete : string) (st : State)
  : State * list Effect :=
  (setError None (setDeletingKbId (Some kbIdToDelete) st),
   [Fetch (request DELETE (backendUrl +:+ "/agents/" +:+ kbIdToDelete) NoBody)]).

Definition handleDeleteKb_try (res : FetchResult Json) : Completion unit :=
  match res with
  | Rejected e => Throw e
  | Resolved response =>
    if negb (ok response) then
      statusError (json response)
        ("HTTP error! status: " +:+ nat_to_string (status response))
    else Return tt
  end.

(** From the point where [fetch] settles up to [await refreshKbs()];
    [selectedKbId] is the prop the handler closed over. *)
Definition handleDeleteKb_finish (selectedKbId : Value) (kbIdToDelete : string)
  (res : FetchResult Json) (st : State) : State * list Effect :=
  match handleDeleteKb_try res with
  | Return _ =>
    (st, (if is_string selectedKbId kbIdToDelete then [onKbSelected (Some JNull)] else [])
         ++ [refreshKbs])
  | Throw e =>
    (setDeletingKbId None
       (setError (Some (str_or (message e) "Failed to delete agent")) st), [])
  end.


End Component.
End AgentManager.

Module App.
Import Js.

Definition KBInfo := AgentManager.KBInfo.

(** [process.env.REACT_APP_BACKEND_URL || 'http://localhost:8000'] *)
Definition BACKEND_URL (REACT_APP_BACKEND_URL : option string) : string :=
  match REACT_APP_BACKEND_URL with
  | Some v => str_or v "http://localhost:8000"
  | None => "http://localhost:8000"
  end.

(** The body of GET /agents; the handler reads [data.kbs || []]. *)
Module AgentList.
Record t := { kbs : option (list KBInfo) }.
End AgentList.

(** The cells of [MainApp] that the agent list uses. *)
Record State := {
  kbs : list KBInfo;
  selectedKbId : Value;
  isLoading : bool;
  error : option string;
}.

Definition initial : State :=
  {| kbs := []; selectedKbId := Some JNull; isLoading := false; error := None |}.

Definition setKbs (v : list KBInfo) (st : State) : State :=
  {| kbs := v; selectedKbId := selectedKbId st; isLoading := isLoading st;
     error := error st |}.

Definition setSelectedKbId (v : Value) (st : State) : State :=
  {| kbs := kbs st; selectedKbId := v; isLoading := isLoading st;
     error := error st |}.

Definition setIsLoading (v : bool) (st : State) : State :=
  {| kbs := kbs st; selectedKbId := selectedKbId st; isLoading := v;
     error := error st |}.

Definition setError (v : option string) (st : State) : State :=
  {| kbs := kbs st; selectedKbId := selectedKbId st;
     isLoading := isLoading st; error := v |}.


Section Component.
Context {P : Platform}.
Variable backendUrl : string.     (* BACKEND_URL *)

Definition fetchKbs_start (st : State) : State * list Request :=
  (setError None (setIsLoading true st),
   [request GET (backendUrl +:+ "/agents") NoBody]).

Definition fetchKbs_try {A} (res : FetchResult A) : Completion A :=
  match res with
  | Rejected e => Throw e
  | Resolved response =>
    if negb (ok response) then
      Throw (mkError "Error" ("HTTP error! status: " +:+ nat_to_string (status response)))
    else json response
  end.

Definition fetchKbs_finish (res : FetchResult AgentList.t) (st : State) : State :=
  let st' :=
    match fetchKbs_try res with
    | Return data =>
      setKbs (match AgentList.kbs data with Some l => l | None => [] end) st
    | Throw err => setError (Some ("Failed to fetch agents: " +:+ message err)) st
    end in
  setIsLoading false st'.

Definition handleKbCreated (newKb : KBInfo) (st : State) : State :=
  setSelectedKbId (assoc "kb_id" newKb) (setKbs (kbs st ++ [newKb]) st).

Definition handleKbSelected (kbId : Value) (st : State) : State :=
  setSelectedKbId kbId st.

(** The props [MainApp] passes to [AgentManager]: what each callback
    does to the list state, and the requests it issues. *)
Definition callback (eff : AgentManager.Effect) (st : State) : State * list Request :=
  match eff with
  | AgentManager.Fetch r => (st, [r])
  | AgentManager.onKbSelected kbId => (handleKbSelected kbId st, [])
  | AgentManager.onKbCreated newKb => (handleKbCreated newKb st, [])
  | AgentManager.refreshKbs => fetchKbs_start st
  end.

Fixpoint callbacks (effs : list AgentManager.Effect) (st : State)
  : State * list Request :=
  match effs with
  | [] => (st, [])
  | eff :: rest =>
    let '(st1, r1) := callback eff st in
    let '(st2, r2) := callbacks rest st1 in
    (st2, r1 ++ r2)
  end.

End Component.
End App.

(* ================================================================== *)
(** * AgentConfig: the configuration editor *)
(* ================================================================== *)

Module AgentConfig.
Import Js.

(** An optional, nullable property [k?: T | null] of an object:
    [Absent] when the object has no own property [k]. *)
Inductive Field (T : Type) := Absent | Null | Val (v : T).
Arguments Absent {T}.
Arguments Null {T}.
Arguments Val {T} v.

Definition hasOwnProperty {T} (f : Field T) : bool :=
  match f with Absent => false | _ => true end.

(** [f ?? null] *)
Definition orNull {T} (f : Field T) : Field T :=
  match f with Absent => Null | _ => f end.

(** [a !== b] on values of type [string | null | undefined]. *)
Definition differsString (a b : Field string) : bool :=
  match a, b with
  | Absent, Absent => false
  | Null, Null => false
  | Val x, Val y => negb (String.eqb x y)
  | _, _ => true
  end.

(** [a !== b] on values of type [number | null]. *)
Definition differsNumber (a b : Field Number) : bool :=
  match a, b with
  | Absent, Absent => false
  | Null, Null => false
  | Val x, Val y => negb (num_eq x y)
  | _, _ => true
  end.

(** [AgentConfigData] and [AgentConfigPayload] have the same shape. *)
Record AgentConfigData := {
  system_prompt : Field string;
  max_iterations : Field Number;
}.

Definition AgentConfigPayload := AgentConfigData.

(** [{}] *)
Definition empty : AgentConfigData :=
  {| system_prompt := Absent; max_iterations := Absent |}.

(** [Object.keys(payload).length === 0] *)
Definition noKeys (payload : AgentConfigPayload) : bool :=
  negb (hasOwnProperty (system_prompt payload))
  && negb (hasOwnProperty (max_iterations payload)).

(** The [useState] cells; [viewMode] only switches the rendering. *)
Record State := {
  config : AgentConfigData;
  initialConfig : AgentConfigData;
  isLoading : bool;
  isSaving : bool;
  error : option string;
  saveSuccess : bool;
}.

Definition initial : State :=
  {| config := empty; initialConfig := empty; isLoading := false;
     isSaving := false; error := None; saveSuccess := false |}.

Definition setConfig (v : AgentConfigData) (st : State) : State :=
  {| config := v; initialConfig := initialConfig st;
     isLoading := isLoading st; isSaving := isSaving st; error := error st;
     saveSuccess := saveSuccess st |}.

Definition setInitialConfig (v : AgentConfigData) (st : State) : State :=
  {| config := config st; initialConfig := v; isLoading := isLoading st;
     isSaving := isSaving st; error := error st;
     saveSuccess := saveSuccess st |}.

Definition setIsLoading (v : bool) (st : State) : State :=
  {| config := config st; initialConfig := initialConfig st;
     isLoading := v; isSaving := isSaving st; error := error st;
     saveSuccess := saveSuccess st |}.

Definition setIsSaving (v : bool) (st : State) : State :=
  {| config := config st; initialConfig := initialConfig st;
     isLoading := isLoading st; isSaving := v; error := error st;
     saveSuccess := saveSuccess st |}.

Definition setError (v : option string) (st : State) : State :=
  {| config := config st; initialConfig := initialConfig st;
     isLoading := isLoading st; isSaving := isSaving st; error := v;
     saveSuccess := saveSuccess st |}.

Definition setSaveSuccess (v : bool) (st : State) : State :=
  {| config := config st; initialConfig := initialConfig st;
     isLoading := isLoading st; isSaving := isSaving st; error := error st;
     saveSuccess := v |}.


Inductive Effect :=
| Fetch (r : Request)
| FetchWith (r : Request) (payload : AgentConfigPayload)   (* body: JSON.stringify(payload) *)
| SetTimeout (ms : nat).                                   (* setSaveSuccess(false) *)

(** The two inputs wired to [handleInputChange]: the textarea named
    system_prompt and the number input named max_iterations. *)
Inductive InputChange :=
| SystemPromptInput (value : string)
| MaxIterationsInput (value : NumberInputValue).

Section Component.
Context {P : Platform}.
Variables (kbId backendUrl : string).

Definition configUrl : string := backendUrl +:+ "/agents/" +:+ kbId +:+ "/config".

(** ** fetchConfig *)

Definition fetchConfig_start (st : State) : State * list Effect :=
  if negb (nonempty kbId) then (st, [])
  else (setSaveSuccess false (setError None (setIsLoading true st)),
        [Fetch (request GET configUrl NoBody)]).

Definition fetchConfig_try (res : FetchResult Json) : Completion Json :=
  match res with
  | Rejected e => Throw e
  | Resolved response =>
    if negb (ok response) then
      statusError (json response)
        ("Failed to fetch config (status: " +:+ nat_to_string (status response) +:+ ")")
    else json response
  end.

(** [data.system_prompt ?? null] and [data.max_iterations ?? null], read
    at the types [AgentConfigData] declares; a value of another type is
    outside the backend contract and is read as null. *)
Definition fullConfig (data : Json) : Completion AgentConfigData :=
  bind (get (Some data) "system_prompt") (fun p =>
  bind (get (Some data) "max_iterations") (fun n =>
  Return {| system_prompt := match p with Some (JStr s) => Val s | _ => Null end;
            max_iterations := match n with Some (JNum q) => Val (Fin q) | _ => Null end |})).

Definition fetchConfig_finish (res : FetchResult Json) (st : State) : State :=
  let st' :=
    match bind (fetchConfig_try res) fullConfig with
    | Return c => setInitialConfig c (setConfig c st)
    | Throw err =>
      setInitialConfig empty
        (setConfig empty
           (setError (Some ("Failed to fetch agent configuration: " +:+ message err)) st))
    end in
  setIsLoading false st'.

(** ** Editing *)

Definition handleInputChange (e : InputChange) (st : State) : State :=
  match e with
  | SystemPromptInput value =>
    setConfig {| system_prompt := Val value;
                 max_iterations := max_iterations (config st) |} st
  | MaxIterationsInput value =>
    setConfig {| system_prompt := system_prompt (config st);
                 max_iterations :=
                   match value with
                   | InputEmpty => Null
                   | InputNumber q => Val (Fin q)
                   end |} st
  end.

(** ** handleSaveChanges *)

(** The payload built from [config] and [initialConfig]. *)
Definition changes (config initialConfig : AgentConfigData) : AgentConfigPayload :=
  let currentMaxIter := orNull (max_iterations config) in
  let initialMaxIter := orNull (max_iterations initialConfig) in
  {| system_prompt :=
       if hasOwnProperty (system_prompt config)
          && differsString (system_prompt config) (system_prompt initialConfig)
       then system_prompt config else Absent;
     max_iterations :=
       if hasOwnProperty (max_iterations config)
          && differsNumber currentMaxIter initialMaxIter
       then match currentMaxIter with
            | Val n => if ge n one then Val n else Null
            | _ => Null
            end
       else Absent |}.

Definition handleSaveChanges_start (st : State) : State * list Effect :=
  if negb (nonempty kbId) then (st, [])
  else
    let st1 := setSaveSuccess false (setError None (setIsSaving true st)) in
    let payload := changes (config st) (initialConfig st) in
    if noKeys payload then (setIsSaving false st1, [])
    else (st1, [FetchWith (request PUT configUrl JsonBody) payload]).

Definition handleSaveChanges_try (res : FetchResult Json) : Completion unit :=
  match res with
  | Rejected e => Throw e
  | Resolved response =>
    if negb (ok response) then
      statusError (json response)
        ("Failed to save config (status: " +:+ nat_to_string (status response) +:+ ")")
    else Return tt
  end.

(** [config] is the value the handler closed over. *)
Definition handleSaveChanges_finish (config : AgentConfigData)
  (res : FetchResult Json) (st : State) : State * list Effect :=
  match handleSaveChanges_try res with
  | Return _ =>
    (setIsSaving false (setSaveSuccess true (setInitialConfig config st)),
     [SetTimeout 3000])
  | Throw err =>
    (setIsSaving false
       (setError (Some ("Failed to save configuration: " +:+ message err)) st), [])
  end.

End Component.
End AgentConfig.

(* ================================================================== *)
(** * The other widgets: how each maps a settled request to an error *)
(* ================================================================== *)

(** For the remaining handlers the embedding keeps the [try] block from
    the point where [fetch] settles up to the parsed body, and the text
    the [catch] block stores in the error cell of the component. *)

Module KnowledgeBaseViewer.
Import Js.
Section Component.
Context {P : Platform}.

Definition fetchContent_try (res : FetchResult Json) : Completion Json :=
  match res with
  | Rejected e => Throw e
  | Resolved response =>
    if negb (ok response) then
      statusError (json response)
        ("HTTP error! status: " +:+ nat_to_string (status response))
    else json response
  end.

(** [setError(...)] in the [catch] of [fetchContent]. *)
Definition fetchContent_error (err : Error) : string :=
  "Failed to fetch knowledge base content: " +:+ message err.

Definition handleCleanupKb_try (res : FetchResult Json) : Completion unit :=
  match res with
  | Rejected e => Throw e
  | Resolved response =>
    if negb (ok response) then
      statusError (json response)
        ("Cleanup failed: status " +:+ nat_to_string (status response))
    else Return tt
  end.

(** [setCleanupError(...)] *)
Definition handleCleanupKb_error (err : Error) : string :=
  str_or (message err) "An unknown error occurred during cleanup.".

End Component.
(** ** The widget: content list, cleanup and the knowledge drawer *)

(** The [useState] cells; [content] and [totalCount] hold what the
    backend sent, typed [any]. *)
Record State := {
  content : Json;
  isLoading : bool;
  error : option string;
  totalCount : Json;
  isKbDrawerOpen : bool;
  isCleaning : bool;
  cleanupError : option string;
  showCleanupSuccess : bool;
}.

Definition initial : State :=
  {| content := JArr []; isLoading := false; error := None;
     totalCount := JNum 0%Q; isKbDrawerOpen := false; isCleaning := false;
     cleanupError := None; showCleanupSuccess := false |}.

Definition setContent (v : Json) (st : State) : State :=
  {| content := v; isLoading := isLoading st; error := error st;
     totalCount := totalCount st; isKbDrawerOpen := isKbDrawerOpen st;
     isCleaning := isCleaning st; cleanupError := cleanupError st;
     showCleanupSuccess := showCleanupSuccess st |}.

Definition setIsLoading (v : bool) (st : State) : State :=
  {| content := content st; isLoading := v; error := error st;
     totalCount := totalCount st; isKbDrawerOpen := isKbDrawerOpen st;
     isCleaning := isCleaning st; cleanupError := cleanupError st;
     showCleanupSuccess := showCleanupSuccess st |}.

Definition setError (v : option string) (st : State) : State :=
  {| content := content st; isLoading := isLoading st; error := v;
     totalCount := totalCount st; isKbDrawerOpen := isKbDrawerOpen st;
     isCleaning := isCleaning st; cleanupError := cleanupError st;
     showCleanupSuccess := showCleanupSuccess st |}.

Definition setTotalCount (v : Json) (st : State) : State :=
  {| content := content st; isLoading := isLoading st; error := error st;
     totalCount := v; isKbDrawerOpen := isKbDrawerOpen st;
     isCleaning := isCleaning st; cleanupError := cleanupError st;
     showCleanupSuccess := showCleanupSuccess st |}.

Definition setIsKbDrawerOpen (v : bool) (st : State) : State :=
  {| content := content st; isLoading := isLoading st; error := error st;
     totalCount := totalCount st; isKbDrawerOpen := v;
     isCleaning := isCleaning st; cleanupError := cleanupError st;
     showCleanupSuccess := showCleanupSuccess st |}.

Definition setIsCleaning (v : bool) (st : State) : State :=
  {| content := content st; isLoading := isLoading st; error := error st;
     totalCount := totalCount st; isKbDrawerOpen := isKbDrawerOpen st;
     isCleaning := v; cleanupError := cleanupError st;
     showCleanupSuccess := showCleanupSuccess st |}.

Definition setCleanupError (v : option string) (st : State) : State :=
  {| content := content st; isLoading := isLoading st; error := error st;
     totalCount := totalCount st; isKbDrawerOpen := isKbDrawerOpen st;
     isCleaning := isCleaning st; cleanupError := v;
     showCleanupSuccess := showCleanupSuccess st |}.

Definition setShowCleanupSuccess (v : bool) (st : State) : State :=
  {| content := content st; isLoading := isLoading st; error := error st;
     totalCount := totalCount st; isKbDrawerOpen := isKbDrawerOpen st;
     isCleaning := isCleaning st; cleanupError := cleanupError st;
     showCleanupSuccess := v |}.

Inductive Effect :=
| Fetch (r : Request)
| SetTimeout (ms : nat).          (* setShowCleanupSuccess(false) *)

Section Widget.
Context {P : Platform}.
Variables (kbId backendUrl : string).

Definition contentRequest : Request :=
  request GET (backendUrl +:+ "/agents/" +:+ kbId +:+ "/content") NoBody.

Definition cleanupRequest : Request :=
  request POST (backendUrl +:+ "/agents/" +:+ kbId +:+ "/cleanup") NoBody.

(** [fetchContent] up to its [fetch]. *)
Definition fetchContent_start (st : State) : State * list Effect :=
  if negb (nonempty kbId) then (st, [])
  else (setError None (setIsLoading true st), [Fetch contentRequest]).

(** [fetchContent] from the point where its [fetch] settles;
    [data.content] is read before anything is set, and throws when the
    body is [null]. *)
Definition fetchContent_finish (res : FetchResult Json) (st : State) : State :=
  let st' :=
    match bind (fetchContent_try res) (fun data =>
          bind (get (Some data) "content") (fun c =>
          bind (get (Some data) "total_count") (fun n =>
          Return (or_default c (JArr []), or_default n (JNum 0%Q)))))
    with
    | Return (c, n) => setTotalCount n (setContent c st)
    | Throw err => setError (Some (fetchContent_error err)) st
    end in
  setIsLoading false st'.

Definition handleOpenKbDrawer (st : State) : State := setIsKbDrawerOpen true st.

(** Also the [onClose] of the drawer. *)
Definition handleCloseKbDrawer (st : State) : State * list Effect :=
  fetchContent_start (setIsKbDrawerOpen false st).

(** [handleCleanupKb] up to its [fetch]; [userConfirmed] is the answer to
    [window.confirm], asked only when an agent is selected. *)
Definition handleCleanupKb_start (userConfirmed : bool) (st : State)
  : State * list Effect :=
  if negb (nonempty kbId) || negb userConfirmed then (st, [])
  else (setShowCleanupSuccess false (setCleanupError None (setIsCleaning true st)),
        [Fetch cleanupRequest]).

(** [handleCleanupKb] from the point where its [fetch] settles. *)
Definition handleCleanupKb_finish (res : FetchResult Json) (st : State)
  : State * list Effect :=
  match handleCleanupKb_try res with
  | Return _ =>
    let '(st1, effects) := fetchContent_start (setShowCleanupSuccess true st) in
    (setIsCleaning false st1, effects ++ [SetTimeout 3000])
  | Throw err =>
    (setIsCleaning false (setCleanupError (Some (handleCleanupKb_error err)) st), [])
  end.

(** The [disabled] attribute of the Cleanup button. *)
Definition cleanupDisabled (st : State) : bool :=
  negb (nonempty kbId) || isCleaning st || isLoading st.

End Widget.

End KnowledgeBaseViewer.

Module FileUpload.
Import Js.
Section Component.
Context {P : Platform}.

(** [const errorData = await response.json().catch(() =>
      ({ detail: 'Upload failed with status: ' + response.status }));
     throw new Error(errorData.detail || 'Upload failed')] *)
Definition handleUpload_try (res : FetchResult Json) : Completion Json :=
  match res with
  | Rejected e => Throw e
  | Resolved response =>
    if negb (ok response) then
      let errorData :=
        catch_default (json response)
          (JObj [("detail",
                  JStr ("Upload failed with status: " +:+ nat_to_string (status response)))]) in
      bind (get (Some errorData) "detail") (fun d =>
        Throw (new_Error (or_default d (JStr "Upload failed"))))
    else json response
  end.

(** The [message] of [setUploadStatus({ type: 'error', message })]. *)
Definition handleUpload_error (error : Error) : string :=
  "Upload failed: " +:+ message error.

End Component.
(** ** The widget: the selection and the upload *)

Inductive StatusType := st_success | st_error | st_none.

(** A [File] of the picker or of a drop, by its name. *)
Definition File := string.

(** The [useState] cells that the handlers below read; [selectedFiles]
    is a [FileList] or [null], the message of [uploadStatus] is
    [result.message] when the backend sends one. *)
Record State := {
  selectedFiles : option (list File);
  uploading : bool;
  uploadStatus : StatusType * Json;
}.

Definition initial : State :=
  {| selectedFiles := None; uploading := false; uploadStatus := (st_none, JStr "") |}.

Definition setSelectedFiles (v : option (list File)) (st : State) : State :=
  {| selectedFiles := v; uploading := uploading st;
     uploadStatus := uploadStatus st |}.

Definition setUploading (v : bool) (st : State) : State :=
  {| selectedFiles := selectedFiles st; uploading := v;
     uploadStatus := uploadStatus st |}.

Definition setUploadStatus (v : StatusType * Json) (st : State) : State :=
  {| selectedFiles := selectedFiles st; uploading := uploading st;
     uploadStatus := v |}.

(** The request with the parts appended to its [FormData]. *)
Inductive Effect := FetchForm (r : Request) (formData : list (string * File)).

Section Widget.
Context {P : Platform}.
Variables (kbId backendUrl : string).

Definition handleFileChange (files : option (list File)) (st : State) : State :=
  setUploadStatus (st_none, JStr "") (setSelectedFiles files st).

(** [files] is [e.dataTransfer.files]. *)
Definition handleDrop (files : option (list File)) (st : State) : State :=
  match files with
  | Some (_ :: _) => setUploadStatus (st_none, JStr "") (setSelectedFiles files st)
  | _ => st
  end.

Definition clearSelectedFiles (st : State) : State :=
  setUploadStatus (st_none, JStr "") (setSelectedFiles None st).

(** [handleUpload] up to its [fetch]. *)
Definition handleUpload_start (st : State) : State * list Effect :=
  match selectedFiles st with
  | None | Some [] =>
    (setUploadStatus (st_error, JStr "Please select files first.") st, [])
  | Some files =>
    (setUploadStatus (st_none, JStr "") (setUploading true st),
     [FetchForm (request POST (backendUrl +:+ "/agents/" +:+ kbId +:+ "/upload") FormDataBody)
                (map (fun file => ("file", file)) files)])
  end.

(** [handleUpload] from the point where its [fetch] settles. *)
Definition handleUpload_finish (res : FetchResult Json) (st : State) : State :=
  let st' :=
    match bind (handleUpload_try res) (fun result =>
          message_or result "Files uploaded successfully.")
    with
    | Return shown => setSelectedFiles None (setUploadStatus (st_success, shown) st)
    | Throw error => setUploadStatus (st_error, JStr (handleUpload_error error)) st
    end in
  setUploading false st'.

(** The [disabled] attribute of the Upload button. *)
Definition uploadDisabled (st : State) : bool := uploading st.

End Widget.

End FileUpload.

Module AddKbDrawer.
Import Js.

Definition handleSaveToKb_try {A} (res : FetchResult A) : Completion unit :=
  match res with
  | Rejected e => Throw e
  | Resolved response =>
    if negb (ok response) then
      bind (text response) (fun errorText =>
        Throw (mkError "Error"
                 ("HTTP error! status: " +:+ nat_to_string (status response)
                    +:+ ". " +:+ str_or errorText "Failed to save to KB")))
    else Return tt
  end.

(** [setKbSaveError(...)] *)
Definition handleSaveToKb_error (err : Error) : string :=
  str_or (message err) "An unknown error occurred while saving.".

(** ** The drawer *)

Record State := {
  kbEditText : string;
  isSavingToKb : bool;
  kbSaveError : option string;
  showKbSaveSuccess : bool;
}.

Definition initial : State :=
  {| kbEditText := ""; isSavingToKb := false; kbSaveError := None;
     showKbSaveSuccess := false |}.

Definition setKbEditText (v : string) (st : State) : State :=
  {| kbEditText := v; isSavingToKb := isSavingToKb st;
     kbSaveError := kbSaveError st;
     showKbSaveSuccess := showKbSaveSuccess st |}.

Definition setIsSavingToKb (v : bool) (st : State) : State :=
  {| kbEditText := kbEditText st; isSavingToKb := v;
     kbSaveError := kbSaveError st;
     showKbSaveSuccess := showKbSaveSuccess st |}.

Definition setKbSaveError (v : option string) (st : State) : State :=
  {| kbEditText := kbEditText st; isSavingToKb := isSavingToKb st;
     kbSaveError := v; showKbSaveSuccess := showKbSaveSuccess st |}.

Definition setShowKbSaveSuccess (v : bool) (st : State) : State :=
  {| kbEditText := kbEditText st; isSavingToKb := isSavingToKb st;
     kbSaveError := kbSaveError st; showKbSaveSuccess := v |}.

(** The request with the [knowledge_text] of its body, or the timer. *)
Inductive Effect :=
| Fetch (r : Request) (knowledge_text : string)
| SetTimeout (ms : nat).

(** A call of the [onClose] prop. *)
Inductive Callback := onClose.

(** The prop [kbId: string | null] is truthy. *)
Definition hasKbId (kbId : option string) : bool :=
  match kbId with Some s => nonempty s | None => false end.

(** The prop in a template literal. *)
Definition kbIdText (kbId : option string) : string :=
  match kbId with Some s => s | None => "null" end.

(** The effect on [initialText] and [isOpen]. *)
Definition resetEffect (initialText : option string) (st : State) : State :=
  setShowKbSaveSuccess false
    (setKbSaveError None
       (setKbEditText (match initialText with Some s => s | None => "" end) st)).

(** [handleSaveToKb] up to its [fetch]. *)
Definition handleSaveToKb_start (kbId : option string) (backendUrl : string)
  (st : State) : State * list Effect :=
  if negb (hasKbId kbId) || negb (nonempty (trim (kbEditText st)))
  then (setKbSaveError (Some "KB ID is missing or text cannot be empty.") st, [])
  else
    (setShowKbSaveSuccess false (setKbSaveError None (setIsSavingToKb true st)),
     [Fetch (request POST (backendUrl +:+ "/agents/" +:+ kbIdText kbId +:+ "/human-knowledge")
               JsonBody)
            (trim (kbEditText st))]).

(** [handleSaveToKb] from the point where its [fetch] settles. *)
Definition handleSaveToKb_finish {A} (res : FetchResult A) (st : State)
  : State * list Effect :=
  match handleSaveToKb_try res with
  | Return _ => (setIsSavingToKb false (setShowKbSaveSuccess true st), [SetTimeout 1500])
  | Throw err =>
    (setIsSavingToKb false (setKbSaveError (Some (handleSaveToKb_error err)) st), [])
  end.

(** The callback of the timer: [setShowKbSaveSuccess(false); onClose()]. *)
Definition timerFired (st : State) : State * list Callback :=
  (setShowKbSaveSuccess false st, [onClose]).

(** The [disabled] attribute of the Save button. *)
Definition saveDisabled (kbId : option string) (st : State) : bool :=
  negb (nonempty (trim (kbEditText st))) || isSavingToKb st || negb (hasKbId kbId).

End AddKbDrawer.

Module HumanAgentDesk.
Import Js.

(** [fetchConversations] and [fetchConversationHistory] share this
    block: the body of a response that is not ok is never read. *)
Definition fetch_try {A} (res : FetchResult A) : Completion A :=
  match res with
  | Rejected e => Throw e
  | Resolved response =>
    if negb (ok response) then
      Throw (mkError "Error" ("HTTP error! status: " +:+ nat_to_string (status response)))
    else json response
  end.

Definition fetchConversations_error (err : Error) : string :=
  "Failed to fetch conversations: " +:+ message err.

Definition fetchConversationHistory_error (err : Error) : string :=
  "Failed to fetch conversation history: " +:+ message err.

Definition handleSendResponse_try {A} (res : FetchResult A) : Completion unit :=
  match res with
  | Rejected e => Throw e
  | Resolved response =>
    if negb (ok response) then
      if (status response =? 400)%nat
      then Throw (mkError "Error" "Message cannot be empty")
      else Throw (mkError "Error"
                    ("HTTP error! status: " +:+ nat_to_string (status response)))
    else Return tt
  end.

Definition handleSendResponse_error (err : Error) : string :=
  str_or (message err) "Failed to send response".

(** ** The desk: conversation list, history and the response form *)

(** The internal [Message]: its fields are what the history item held. *)
Record Message := {
  sender : Value;
  text : Value;
  timestamp : Value;
}.

(** The [useState] cells that the handlers below use; the list filter and
    the cells of the knowledge drawer only switch the rendering. *)
Record State := {
  conversations : list Json;
  selectedConversationId : option string;
  conversationHistory : list Message;
  isLoadingConversations : bool;
  isLoadingHistory : bool;
  error : option string;
  responseText : string;
  isSending : bool;
  showSuccess : bool;
}.

Definition initial : State :=
  {| conversations := []; selectedConversationId := None;
     conversationHistory := []; isLoadingConversations := false;
     isLoadingHistory := false; error := None; responseText := "";
     isSending := false; showSuccess := false |}.

Definition setConversations (v : list Json) (st : State) : State :=
  {| conversations := v;
     selectedConversationId := selectedConversationId st;
     conversationHistory := conversationHistory st;
     isLoadingConversations := isLoadingConversations st;
     isLoadingHistory := isLoadingHistory st; error := error st;
     responseText := responseText st; isSending := isSending st;
     showSuccess := showSuccess st |}.

Definition setSelectedConversationId (v : option string) (st : State) : State :=
  {| conversations := conversations st; selectedConversationId := v;
     conversationHistory := conversationHistory st;
     isLoadingConversations := isLoadingConversations st;
     isLoadingHistory := isLoadingHistory st; error := error st;
     responseText := responseText st; isSending := isSending st;
     showSuccess := showSuccess st |}.

Definition setConversationHistory (v : list Message) (st : State) : State :=
  {| conversations := conversations st;
     selectedConversationId := selectedConversationId st;
     conversationHistory := v;
     isLoadingConversations := isLoadingConversations st;
     isLoadingHistory := isLoadingHistory st; error := error st;
     responseText := responseText st; isSending := isSending st;
     showSuccess := showSuccess st |}.

Definition setIsLoadingConversations (v : bool) (st : State) : State :=
  {| conversations := conversations st;
     selectedConversationId := selectedConversationId st;
     conversationHistory := conversationHistory st;
     isLoadingConversations := v; isLoadingHistory := isLoadingHistory st;
     error := error st; responseText := responseText st;
     isSending := isSending st; showSuccess := showSuccess st |}.

Definition setIsLoadingHistory (v : bool) (st : State) : State :=
  {| conversations := conversations st;
     selectedConversationId := selectedConversationId st;
     conversationHistory := conversationHistory st;
     isLoadingConversations := isLoadingConversations st;
     isLoadingHistory := v; error := error st;
     responseText := responseText st; isSending := isSending st;
     showSuccess := showSuccess st |}.

Definition setError (v : option string) (st : State) : State :=
  {| conversations := conversations st;
     selectedConversationId := selectedConversationId st;
     conversationHistory := conversationHistory st;
     isLoadingConversations := isLoadingConversations st;
     isLoadingHistory := isLoadingHistory st; error := v;
     responseText := responseText st; isSending := isSending st;
     showSuccess := showSuccess st |}.

Definition setResponseText (v : string) (st : State) : State :=
  {| conversations := conversations st;
     selectedConversationId := selectedConversationId st;
     conversationHistory := conversationHistory st;
     isLoadingConversations := isLoadingConversations st;
     isLoadingHistory := isLoadingHistory st; error := error st;
     responseText := v; isSending := isSending st;
     showSuccess := showSuccess st |}.

Definition setIsSending (v : bool) (st : State) : State :=
  {| conversations := conversations st;
     selectedConversationId := selectedConversationId st;
     conversationHistory := conversationHistory st;
     isLoadingConversations := isLoadingConversations st;
     isLoadingHistory := isLoadingHistory st; error := error st;
     responseText := responseText st; isSending := v;
     showSuccess := showSuccess st |}.

Definition setShowSuccess (v : bool) (st : State) : State :=
  {| conversations := conversations st;
     selectedConversationId := selectedConversationId st;
     conversationHistory := conversationHistory st;
     isLoadingConversations := isLoadingConversations st;
     isLoadingHistory := isLoadingHistory st; error := error st;
     responseText := responseText st; isSending := isSending st;
     showSuccess := v |}.

Inductive Effect :=
| Fetch (r : Request)
| SetTimeout (ms : nat)           (* setShowSuccess(false) *)
| SetInterval (ms : nat).         (* fetchConversations *)

Section Desk.
Context {P : Platform}.
Variable backendUrl : string.

(** [fetchedConversations.sort(...)] with the comparator on the dates of
    [conversation.last_message_timestamp]: the sorted array, or the
    [TypeError] of an element without [conversation]. *)
Variable sortNewestFirst : list Json -> Completion (list Json).

(** Message of the [TypeError] raised by calling method [k] on a value
    that has none. *)
Variable not_a_function_message : string -> string.

Definition conversationsRequest : Request :=
  request GET (backendUrl +:+ "/conversations") NoBody.

Definition historyRequest (kbId : string) : Request :=
  request GET (backendUrl +:+ "/agents/" +:+ kbId +:+ "/history") NoBody.

Definition responseRequest (kbId : string) : Request :=
  request POST (backendUrl +:+ "/agents/" +:+ kbId +:+ "/human-chat") JsonBody.

(** ** fetchConversations *)

Definition fetchConversations_start (st : State) : State * list Effect :=
  (setError None (setIsLoadingConversations true st), [Fetch conversationsRequest]).

(** [data.conversations || []], sorted. *)
Definition fetchedConversations (data : Json) : Completion (list Json) :=
  bind (get (Some data) "conversations") (fun c =>
  match or_default c (JArr []) with
  | JArr items => sortNewestFirst items
  | _ => Throw (mkError "TypeError" (not_a_function_message "sort"))
  end).

Definition fetchConversations_finish (res : FetchResult Json) (st : State) : State :=
  let st' :=
    match bind (fetch_try res) fetchedConversations with
    | Return sorted => setConversations sorted st
    | Throw err => setError (Some (fetchConversations_error err)) st
    end in
  setIsLoadingConversations false st'.

(** ** fetchConversationHistory *)

Definition fetchConversationHistory_start (kbId : string) (st : State)
  : State * list Effect :=
  (setError None (setIsLoadingHistory true st), [Fetch (historyRequest kbId)]).

(** The callback of [fetchedHistory.map]. *)
Definition toMessage (apiMsg : Json) : Completion Message :=
  bind (get (Some apiMsg) "type") (fun type =>
  bind (get (Some apiMsg) "content") (fun content =>
  bind (get (Some apiMsg) "timestamp") (fun timestamp =>
  Return {| sender := if is_string type "human" then Some (JStr "user") else type;
            text := content;
            timestamp := timestamp |}))).

Fixpoint mapMessages (items : list Json) : Completion (list Message) :=
  match items with
  | [] => Return []
  | apiMsg :: rest =>
    bind (toMessage apiMsg) (fun m =>
    bind (mapMessages rest) (fun ms => Return (m :: ms)))
  end.

(** [(data.history || []).map(...)] *)
Definition mappedHistory (data : Json) : Completion (list Message) :=
  bind (get (Some data) "history") (fun h =>
  match or_default h (JArr []) with
  | JArr items => mapMessages items
  | _ => Throw (mkError "TypeError" (not_a_function_message "map"))
  end).

Definition fetchConversationHistory_finish (res : FetchResult Json) (st : State)
  : State :=
  let st' :=
    match bind (fetch_try res) mappedHistory with
    | Return history => setConversationHistory history st
    | Throw err =>
      setConversationHistory []
        (setError (Some (fetchConversationHistory_error err)) st)
    end in
  setIsLoadingHistory false st'.

(** ** The effects *)

(** On mount: the first load and the refresh every 30 seconds. *)
Definition mountEffect (st : State) : State * list Effect :=
  let '(st1, effects) := fetchConversations_start st in
  (st1, effects ++ [SetInterval (30 * 1000)]).

(** [!selectedConversationId] is false. *)
Definition selected (st : State) : option string :=
  match selectedConversationId st with
  | Some kbId => if nonempty kbId then Some kbId else None
  | None => None
  end.

(** When the selection changes. *)
Definition selectionEffect (st : State) : State * list Effect :=
  match selected st with
  | Some kbId => fetchConversationHistory_start kbId st
  | None => (setConversationHistory [] st, [])
  end.

Definition handleSelectConversation (kbId : string) (st : State) : State :=
  setResponseText "" (setSelectedConversationId (Some kbId) st).

(** ** handleSendResponse

    The handler awaits three requests in turn: the POST, then
    [fetchConversationHistory], then [fetchConversations].  [kbId] is the
    [selectedConversationId] the handler closed over. *)

Definition handleSendResponse_start (st : State) : State * list Effect :=
  match selected st with
  | None => (st, [])
  | Some kbId =>
    if negb (nonempty (trim (responseText st))) then (st, [])
    else (setError None (setIsSending true st), [Fetch (responseRequest kbId)])
  end.

(** From the settlement of the POST up to the [fetch] of
    [fetchConversationHistory], or through [catch] and [finally]. *)
Definition handleSendResponse_posted {A} (kbId : string) (res : FetchResult A)
  (st : State) : State * list Effect :=
  match handleSendResponse_try res with
  | Return _ => fetchConversationHistory_start kbId st
  | Throw err =>
    (setIsSending false (setError (Some (handleSendResponse_error err)) st), [])
  end.

(** From the settlement of the history request up to the [fetch] of
    [fetchConversations]. *)
Definition handleSendResponse_historyLoaded (res : FetchResult Json) (st : State)
  : State * list Effect :=
  fetchConversations_start (fetchConversationHistory_finish res st).

(** From the settlement of the conversations request to the end. *)
Definition handleSendResponse_finish (res : FetchResult Json) (st : State)
  : State * list Effect :=
  (setIsSending false
     (setShowSuccess true (setResponseText "" (fetchConversations_finish res st))),
   [SetTimeout 3000]).

(** The [disabled] attribute of the send button. *)
Definition sendDisabled (st : State) : bool :=
  isSending st || negb (nonempty (trim (responseText st))).

End Desk.

End HumanAgentDesk.

(* ================================================================== *)
(** * The requests the console issues *)
(* ================================================================== *)

Module Rest.
Import Js.

(** Every [fetch] call of the console.  The last one is the variant of
    the human-agent desk that can also update the knowledge base; its
    flag is the [updateKb] cell. *)
Inductive CallSite :=
| App_fetchKbs
| AgentManager_handleCreateKb
| AgentManager_handleDeleteKb
| KnowledgeBaseViewer_fetchContent
| KnowledgeBaseViewer_handleCleanupKb
| FileUpload_handleUpload
| AddKbDrawer_handleSaveToKb
| JSONUpload_fetchExistingJson
| JSONUpload_handleUpload
| UrlScraper_handleSubmit
| UrlScraper_fetchScrapeStatus
| AgentConfig_fetchConfig
| AgentConfig_handleSaveChanges
| ChatInterface_handleSendMessage
| ChatInterface_loadHistory
| ChatInterface_handleClearHistory
| HumanAgentDesk_fetchConversations
| HumanAgentDesk_fetchConversationHistory
| HumanAgentDesk_handleSendResponse
| HumanAgentDesk_handleSendResponse_updateKb (updateKb : bool).

(** The request issued at a call site, for the base URL the component
    received and the agent (or conversation) id it acts on. *)
Definition requestAt (site : CallSite) (backendUrl id : string) : Request :=
  match site with
  | App_fetchKbs => request GET (backendUrl +:+ "/agents") NoBody
  | AgentManager_handleCreateKb => request POST (backendUrl +:+ "/agents") JsonBody
  | AgentManager_handleDeleteKb =>
      request DELETE (backendUrl +:+ "/agents/" +:+ id) NoBody
  | KnowledgeBaseViewer_fetchContent =>
      request GET (backendUrl +:+ "/agents/" +:+ id +:+ "/content") NoBody
  | KnowledgeBaseViewer_handleCleanupKb =>
      request POST (backendUrl +:+ "/agents/" +:+ id +:+ "/cleanup") NoBody
  | FileUpload_handleUpload =>
      request POST (backendUrl +:+ "/agents/" +:+ id +:+ "/upload") FormDataBody
  | AddKbDrawer_handleSaveToKb =>
      request POST (backendUrl +:+ "/agents/" +:+ id +:+ "/human-knowledge") JsonBody
  | JSONUpload_fetchExistingJson => request GET (JSONUpload.jsonUrl id backendUrl) NoBody
  | JSONUpload_handleUpload => request POST (JSONUpload.jsonUrl id backendUrl) JsonBody
  | UrlScraper_handleSubmit => UrlScraper.scrapeRequest id backendUrl
  | UrlScraper_fetchScrapeStatus => UrlScraper.statusRequest id backendUrl
  | AgentConfig_fetchConfig => request GET (AgentConfig.configUrl id backendUrl) NoBody
  | AgentConfig_handleSaveChanges =>
      request PUT (AgentConfig.configUrl id backendUrl) JsonBody
  | ChatInterface_handleSendMessage =>
      request POST (ChatInterface.chatUrl backendUrl id) JsonBody
  | ChatInterface_loadHistory =>
      request GET (ChatInterface.historyUrl backendUrl id) NoBody
  | ChatInterface_handleClearHistory =>
      request DELETE (ChatInterface.historyUrl backendUrl id) NoBody
  | HumanAgentDesk_fetchConversations =>
      request GET (backendUrl +:+ "/conversations") NoBody
  | HumanAgentDesk_fetchConversationHistory =>
      request GET (backendUrl +:+ "/agents/" +:+ id +:+ "/history") NoBody
  | HumanAgentDesk_handleSendResponse =>
      request POST (backendUrl +:+ "/agents/" +:+ id +:+ "/human-chat") JsonBody
  | HumanAgentDesk_handleSendResponse_updateKb updateKb =>
      request POST
        (backendUrl +:+ "/agents/" +:+ id +:+ "/"
           +:+ (if updateKb then "human_response" else "human-chat")) JsonBody
  end.

(** The base URL a call site prefixes: [ChatInterface] first drops a
    trailing slash. *)
Definition baseAt (site : CallSite) (backendUrl : string) : string :=
  match site with
  | ChatInterface_handleSendMessage
  | ChatInterface_loadHistory
  | ChatInterface_handleClearHistory => ChatInterface.cleanBackendUrl backendUrl
  | _ => backendUrl
  end.

Definition Endpoint := (Method * string)%type.

Definition endpoint (r : Request) : Endpoint := (method r, target r).

(** The REST surface as the specification lists it, under base URL
    [base] for agent [id]. *)
Definition documented (base id : string) : list Endpoint :=
  [ (GET, base +:+ "/agents");
    (POST, base +:+ "/agents");
    (DELETE, base +:+ "/agents/" +:+ id);
    (GET, base +:+ "/agents/" +:+ id +:+ "/content");
    (POST, base +:+ "/agents/" +:+ id +:+ "/upload");
    (GET, base +:+ "/agents/" +:+ id +:+ "/json");
    (POST, base +:+ "/agents/" +:+ id +:+ "/json");
    (POST, base +:+ "/agents/" +:+ id +:+ "/scrape-url");
    (GET, base +:+ "/agents/" +:+ id +:+ "/scrape-status");
    (GET, base +:+ "/agents/" +:+ id +:+ "/config");
    (PUT, base +:+ "/agents/" +:+ id +:+ "/config");
    (POST, base +:+ "/agents/" +:+ id +:+ "/chat");
    (GET, base +:+ "/agents/" +:+ id +:+ "/history");
    (DELETE, base +:+ "/agents/" +:+ id +:+ "/history");
    (GET, base +:+ "/conversations");
    (POST, base +:+ "/agents/" +:+ id +:+ "/human-chat") ].

(** The endpoints the console also calls. *)
Definition further (base id : string) : list Endpoint :=
  [ (POST, base +:+ "/agents/" +:+ id +:+ "/cleanup");
    (POST, base +:+ "/agents/" +:+ id +:+ "/human-knowledge");
    (POST, base +:+ "/agents/" +:+ id +:+ "/human_response") ].

End Rest.

(* ================================================================== *)
(** * From a settled request to the error the user sees *)
(* ================================================================== *)

Module ErrorDisplay.
Import Js Rest.




(** The message used when the body of a failed response gives none. *)
Definition fallback (site : CallSite) (status : nat) : string :=
  match site with
  | KnowledgeBaseViewer_handleCleanupKb =>
      "Cleanup failed: status " +:+ nat_to_string status
  | FileUpload_handleUpload =>
      "Upload failed with status: " +:+ nat_to_string status
  | JSONUpload_handleUpload => "Failed to upload JSON data."
  | UrlScraper_handleSubmit =>
      "Scraping request failed: status " +:+ nat_to_string status
  | UrlScraper_fetchScrapeStatus =>
      "Failed to fetch status: " +:+ nat_to_string status
  | AgentConfig_fetchConfig =>
      "Failed to fetch config (status: " +:+ nat_to_string status +:+ ")"
  | AgentConfig_handleSaveChanges =>
      "Failed to save config (status: " +:+ nat_to_string status +:+ ")"
  | AddKbDrawer_handleSaveToKb =>
      "HTTP error! status: " +:+ nat_to_string status +:+ ". Failed to save to KB"
  | ChatInterface_handleSendMessage =>
      "HTTP error! status: " +:+ nat_to_string status +:+ ", details: No details"
  | ChatInterface_loadHistory =>
      "HTTP error! status: " +:+ nat_to_string status
        +:+ ", details: Failed to fetch history"
  | ChatInterface_handleClearHistory =>
      "HTTP error! status: " +:+ nat_to_string status
        +:+ ", details: Failed to clear history"
  | HumanAgentDesk_handleSendResponse
  | HumanAgentDesk_handleSendResponse_updateKb _ =>
      if (status =? 400)%nat then "Message cannot be empty"
      else "HTTP error! status: " +:+ nat_to_string status
  | _ => "HTTP error! status: " +:+ nat_to_string status
  end.



Section WithPlatform.
Context {P : Platform}.


End WithPlatform.

(** The text the [catch] block at a call site shows for an error: the
    value of the error cell of the component, for the chat request the
    text of its placeholder message.  [None]: nothing is shown. *)
Definition shown (site : CallSite) (e : Error) : option string :=
  match site with
  | App_fetchKbs => Some ("Failed to fetch agents: " +:+ message e)
  | AgentManager_handleCreateKb => Some (str_or (message e) "Failed to create agent")
  | AgentManager_handleDeleteKb => Some (str_or (message e) "Failed to delete agent")
  | KnowledgeBaseViewer_fetchContent => Some (KnowledgeBaseViewer.fetchContent_error e)
  | KnowledgeBaseViewer_handleCleanupKb =>
      Some (KnowledgeBaseViewer.handleCleanupKb_error e)
  | FileUpload_handleUpload => Some (FileUpload.handleUpload_error e)
  | AddKbDrawer_handleSaveToKb => Some (AddKbDrawer.handleSaveToKb_error e)
  | JSONUpload_fetchExistingJson =>
      Some ("Failed to fetch existing JSON: " +:+ message e)
  | JSONUpload_handleUpload =>
      let message := str_or (message e) "An unexpected error occurred." in
      Some (if includes message "valid JSON"
            then "Failed to upload: Invalid JSON format."
            else "Failed to upload: " +:+ message)
  | UrlScraper_handleSubmit =>
      Some (str_or (message e) "An unknown error occurred while submitting the URL.")
  | UrlScraper_fetchScrapeStatus => Some (message e)
  | AgentConfig_fetchConfig =>
      Some ("Failed to fetch agent configuration: " +:+ message e)
  | AgentConfig_handleSaveChanges =>
      Some ("Failed to save configuration: " +:+ message e)
  | ChatInterface_handleSendMessage =>
      if isAbortError e then None
      else Some ("Error: " +:+ str_or (message e) "Failed to get response")
  | ChatInterface_loadHistory =>
      if isAbortError e then None
      else Some (str_or (message e) "Failed to load chat history.")
  | ChatInterface_handleClearHistory =>
      Some (str_or (message e) "Failed to clear history.")
  | HumanAgentDesk_fetchConversations =>
      Some (HumanAgentDesk.fetchConversations_error e)
  | HumanAgentDesk_fetchConversationHistory =>
      Some (HumanAgentDesk.fetchConversationHistory_error e)
  | HumanAgentDesk_handleSendResponse
  | HumanAgentDesk_handleSendResponse_updateKb _ =>
      Some (HumanAgentDesk.handleSendResponse_error e)
  end.




End ErrorDisplay.

(** A platform to run the examples on.  It prints integers only, parses
    the two JSON documents and accepts the URLs that the examples use. *)
Definition examplePlatform : Js.Platform :=
  {| Js.number_to_string q := Js.nat_to_string (Z.to_nat (Qnum q));
     Js.json_parse s :=
       if String.eqb s "{}" then Js.Return (Js.JObj [])
       else if String.eqb s "[]" then Js.Return (Js.JArr [])
       else Js.Throw (Js.mkError "SyntaxError" ("Unexpected token in JSON: " +:+ s));
     Js.url_parses s := String.eqb s "http://example.com" || String.eqb s "ftp://example.com";
     Js.type_error_message k :=
       "Cannot read properties of null (reading '" +:+ k +:+ "')" |}.

(** Sample inputs for the examples below. *)
Module Sample.
Import Js.

Definition backendUrl : string := "http://localhost:8000".

(** Reading as text a body already consumed as JSON. *)
Definition bodyUsed : Error := mkError "TypeError" "body stream already read".

(** A response whose body was read with [response.json()]. *)
Definition jsonResponse (status : nat) (data : Json) : Response Json :=
  {| status := status; text := Throw bodyUsed; json := Return data |}.

Definition processing : FetchResult Json :=
  Resolved (jsonResponse 200 (JObj [("status", JStr "processing")])).

Definition completed : FetchResult Json :=
  Resolved (jsonResponse 200 (JObj [("status", JStr "completed")])).

(** 500 with the body [{ message: "database unavailable" }]. *)
Definition serverError : Response Json :=
  jsonResponse 500 (JObj [("message", JStr "database unavailable")]).

(** 200 with the record of a created agent. *)
Definition created : FetchResult Json :=
  Resolved (jsonResponse 200 (JObj [("kb_id", JStr "kb2"); ("name", JStr "Desk")])).

Definition uploaded : FetchResult Json :=
  Resolved (jsonResponse 200 (JObj [("message", JStr "Stored 1 object")])).

Definition cleared : FetchResult Json :=
  Resolved {| status := 200; text := Return ""; json := Return JNull |}.

Definition abortedFetch : FetchResult ChatInterface.HistoryData :=
  Rejected (AbortError ChatInterface.abortReason).

(** The chat widget of agent kb1 with a chat request in flight. *)
Definition chatting : ChatInterface.World :=
  {| ChatInterface.kbId := "kb1";
     ChatInterface.backendUrl := backendUrl;
     ChatInterface.view :=
       ChatInterface.setIsLoading true
         (ChatInterface.setMessages
            [ChatInterface.welcomeMessage 1000] ChatInterface.initial);
     ChatInterface.abortControllerRef := Some 1;
     ChatInterface.historyAbortController := 0;
     ChatInterface.aborted := ∅;
     ChatInterface.nextController := 2 |}.

(** The configuration editor after the prompt was edited and the number
    input was set to 0. *)
Definition edited : AgentConfig.State :=
  AgentConfig.handleInputChange (AgentConfig.MaxIterationsInput (InputNumber 0%Q))
    (AgentConfig.handleInputChange (AgentConfig.SystemPromptInput "Be brief.")
       (AgentConfig.setInitialConfig
          {| AgentConfig.system_prompt := AgentConfig.Val "Be kind.";
             AgentConfig.max_iterations := AgentConfig.Val (Fin 5%Q) |}
          (AgentConfig.setConfig
             {| AgentConfig.system_prompt := AgentConfig.Val "Be kind.";
                AgentConfig.max_iterations := AgentConfig.Val (Fin 5%Q) |}
             AgentConfig.initial))).


(** A history of one earlier question. *)
Definition oneQuestion : FetchResult ChatInterface.HistoryData :=
  Resolved {| status := 200; text := Return "";
              json := Return {| ChatInterface.history :=
                [ {| ChatInterface.HistoryItem.type := ChatInterface.h_human;
                     ChatInterface.HistoryItem.content := "earlier" |} ] |} |}.

Definition noHistory : FetchResult ChatInterface.HistoryData :=
  Resolved {| status := 200; text := Return "";
              json := Return {| ChatInterface.history := [] |} |}.



(** The history of kb1 has loaded and Clear is confirmed. *)
Definition clearConfirmed : list ChatInterface.Event :=
  [ ChatInterface.HistorySettled 0 "kb1" 1 noHistory;
    ChatInterface.ClearHistory true ].

(** Before the DELETE is answered agent kb2 is selected and its history
    loads. *)
Definition agentChangedDuringClear : list ChatInterface.Event :=
  clearConfirmed ++
  [ ChatInterface.PropsChanged "kb2" backendUrl;
    ChatInterface.HistorySettled 1 "kb2" 2 oneQuestion ].

(** 200 with the body of an accepted scrape job. *)
Definition acceptedScrape : FetchResult Json :=
  Resolved (jsonResponse 200 (JObj [("message", JStr "Scrape started")])).

(** A scrape for kb1 is accepted, and while its first status request is
    in flight the parent renders the widget for kb2. *)
Definition agentChangedWhilePolling : list UrlScraper.RenderEvent :=
  [ UrlScraper.Form (UrlScraper.SubmitSettled acceptedScrape);
    UrlScraper.NewProps "kb2" backendUrl ].

(** Then the request of kb1 is answered "processing" and the timer that
    answer sets fires. *)
Definition oldAgentPolledOn : list UrlScraper.RenderEvent :=
  agentChangedWhilePolling ++
  [ UrlScraper.Answered 1 processing; UrlScraper.Fired 1 ].

(** 200 with the configuration of another agent. *)
Definition otherConfig : FetchResult Json :=
  Resolved (jsonResponse 200
              (JObj [("system_prompt", JStr "Be formal."); ("max_iterations", JNum 3%Q)])).

(** The chat widget of agent kb1 at rest: "hi" was answered, and the box
    holds the unsent text "draft". *)
Definition drafting : ChatInterface.World :=
  {| ChatInterface.kbId := "kb1";
     ChatInterface.backendUrl := backendUrl;
     ChatInterface.view :=
       ChatInterface.setUserInput "draft"
         (ChatInterface.setMessages
            [ {| ChatInterface.Message.id := "user-10";
                 ChatInterface.Message.sender := ChatInterface.user;
                 ChatInterface.Message.text := "hi";
                 ChatInterface.Message.isLoading := None;
                 ChatInterface.Message.messageType := ChatInterface.mt_user |};
              {| ChatInterface.Message.id := ChatInterface.placeholderId 11;
                 ChatInterface.Message.sender := ChatInterface.ai;
                 ChatInterface.Message.text := "42";
                 ChatInterface.Message.isLoading := Some false;
                 ChatInterface.Message.messageType := ChatInterface.mt_answer |} ]
            ChatInterface.initial);
     ChatInterface.abortControllerRef := None;
     ChatInterface.historyAbortController := 0;
     ChatInterface.aborted := ∅;
     ChatInterface.nextController := 1 |}.

End Sample.

(* ================================================================== *)
(** * Properties *)
(* ================================================================== *)

(** ** The embedding on concrete inputs *)

Module Checks.
Import Js.

Example trim_blanks : trim "  {}  " = "{}" /\ trim "   " = "".
Proof. split; reflexivity. Qed.

Example clean_url :
  ChatInterface.cleanBackendUrl "http://localhost:8000/" = "http://localhost:8000" /\
  ChatInterface.cleanBackendUrl "http://localhost:8000" = "http://localhost:8000".
Proof. split; reflexivity. Qed.

Example includes_valid_json :
  includes "Unexpected token < is not valid JSON" "valid JSON" = true /\
  includes "Payload too large" "valid JSON" = false.
Proof. split; reflexivity. Qed.

Example status_in_message :
  "HTTP error! status: " +:+ nat_to_string 404 = "HTTP error! status: 404".
Proof. reflexivity. Qed.

Example ok_range :
  ok (Sample.jsonResponse 204 JNull) = true /\
  ok (Sample.jsonResponse 304 JNull) = false /\
  ok Sample.serverError = false.
Proof. repeat split; reflexivity. Qed.

Example error_of_array :
  toString (P:=examplePlatform) (JArr [JStr "a"; JNull; JArr [JNum 2%Q; JBool true]])
  = "a,,2,true".
Proof. reflexivity. Qed.

Example comparisons_with_NaN :
  lt NaN one = false /\ ge NaN one = false /\
  lt (Fin 0%Q) one = true /\ ge (Fin (3 # 2)%Q) one = true.
Proof. repeat split; reflexivity. Qed.

(** "processing", then "completed": two requests, one timer, and the
    success message with its 5 s timer. *)
Example poll_twice :
  UrlScraper.pollingEffect (P:=examplePlatform) "kb1" Sample.backendUrl
    [Sample.processing; Sample.completed]
    (UrlScraper.setIsPolling true UrlScraper.initial)
  = ([UrlScraper.Issued (request GET "http://localhost:8000/agents/kb1/scrape-status" NoBody);
      UrlScraper.Settled Sample.processing;
      UrlScraper.Scheduled 2000;
      UrlScraper.Issued (request GET "http://localhost:8000/agents/kb1/scrape-status" NoBody);
      UrlScraper.Settled Sample.completed],
     {| UrlScraper.url := ""; UrlScraper.maxPages := one;
        UrlScraper.isSubmitting := false; UrlScraper.error := None;
        UrlScraper.successMessage :=
          Some (JStr "Scraping completed! Added 0 characters of content.");
        UrlScraper.scrapeStatus := Some (JObj [("status", JStr "completed")]);
        UrlScraper.isPolling := false |}).
Proof. reflexivity. Qed.

(** A 500 whose body is not JSON stops the polling with the parse
    error. *)
Example poll_unparsable :
  UrlScraper.fetchScrapeStatus_finish (P:=examplePlatform)
    (Resolved {| status := 500; text := Throw Sample.bodyUsed;
                 json := Throw (mkError "SyntaxError" "Unexpected token <") |})
    (UrlScraper.setIsPolling true UrlScraper.initial)
  = (UrlScraper.setError (Some "Unexpected token <") UrlScraper.initial, [], false).
Proof. reflexivity. Qed.

(** Sending "hi" from the chat box of a mounted widget. *)
Example send_hi :
  snd (ChatInterface.handleSendMessage_start " hi " false 1000 1001
         (ChatInterface.mounted "kb1" Sample.backendUrl))
  = [ChatInterface.Fetch
       {| method := POST; target := "http://localhost:8000/agents/kb1/chat";
          body := JsonBody; signal := Some 1 |}] /\
  map ChatInterface.Message.id
    (ChatInterface.messages
       (ChatInterface.view
          (fst (ChatInterface.handleSendMessage_start " hi " false 1000 1001
                  (ChatInterface.mounted "kb1" Sample.backendUrl)))))
  = ["user-1000"; "ai-loading-1001"].
Proof. split; reflexivity. Qed.

(** With an empty [kbId] the effect returns before it aborts anything. *)
Example no_agent_no_abort :
  snd (ChatInterface.propsChanged "" Sample.backendUrl Sample.chatting)
  = [ChatInterface.AbortCall 0].
Proof. reflexivity. Qed.

(** A NaN in [maxPages] would pass the guard of the scrape form; the
    number input never produces one. *)
Example guard_at_NaN :
  snd (UrlScraper.handleSubmit_start (P:=examplePlatform) "kb1" Sample.backendUrl
         (UrlScraper.setMaxPages NaN
            (UrlScraper.setUrl "http://example.com" UrlScraper.initial)))
  = [UrlScraper.Fetch (request POST "http://localhost:8000/agents/kb1/scrape-url" JsonBody)].
Proof. reflexivity. Qed.

End Checks.

Module ScrapePolling.
Import Js UrlScraper.

Section Facts.
Context {P : Platform}.
Variables (kbId backendUrl : string).

Local Abbreviation finish := fetchScrapeStatus_finish.
Local Arguments get : simpl never.
Local Arguments message_or_detail : simpl never.
Local Arguments bind : simpl never.
Local Abbreviation effect := (pollingEffect kbId backendUrl).

Lemma is_string_spec v lit : is_string v lit = true <-> v = Some (JStr lit).
Proof.
  destruct v as [[ | | |s| | ]|]; simpl; try (split; [discriminate | congruence]).
  rewrite String.eqb_eq. split; [intros ->; reflexivity | congruence].
Qed.

Lemma statusFailed_stops e st :
  snd (statusFailed e st) = false /\ isPolling (fst (fst (statusFailed e st))) = false.
Proof. split; reflexivity. Qed.

(** Case analysis on every branch of [fetchScrapeStatus]. *)
Ltac status_cases :=
  unfold fetchScrapeStatus_finish, statusFailed;
  repeat match goal with
         | |- context [match ?x with _ => _ end] => destruct x eqn:?
         end; simpl in *.

Lemma finish_continues_iff res st :
  snd (finish res st) = true <-> reportsProcessing res.
Proof.
  split.
  - unfold fetchScrapeStatus_finish, fetchScrapeStatus_try.
    destruct res as [e|response]; [cbn; discriminate|].
    destruct (json response) as [data|e] eqn:Hjson; [|cbn; discriminate].
    cbn [bind]. unfold bind at 1.
    destruct (ok response) eqn:Hok; cbn [negb].
    2:{ destruct (message_or_detail _ _); cbn; discriminate. }
    destruct (get (Some data) "status") as [s|e] eqn:Hget; [|cbn; discriminate].
    destruct (is_string s "processing") eqn:Hs.
    + intros _. apply is_string_spec in Hs. subst s.
      exists response, data. auto.
    + destruct (is_string s "completed").
      * destruct (bind _ _); cbn; discriminate.
      * destruct (is_string s "failed"); cbn; discriminate.
  - intros (response & data & -> & Hok & Hjson & Hget).
    unfold fetchScrapeStatus_finish, fetchScrapeStatus_try.
    rewrite Hjson. unfold bind at 1. rewrite Hok. cbn [negb].
    rewrite Hget. reflexivity.
Qed.

Lemma finish_stops res st :
  snd (finish res st) = false -> isPolling (fst (fst (finish res st))) = false.
Proof. status_cases; intros; try reflexivity; discriminate. Qed.

Lemma finish_keeps_polling res st :
  snd (finish res st) = true ->
  isPolling (fst (fst (finish res st))) = isPolling st.
Proof. status_cases; intros; try reflexivity; discriminate. Qed.

Lemma pollStatus_starts polling results st :
  polling = true ->
  exists tr, fst (pollStatus kbId backendUrl polling results st)
             = Issued (statusRequest kbId backendUrl) :: tr.
Proof.
  intros ->. destruct results as [|res rest]; simpl; [eauto|].
  destruct (finish res st) as [[st' effs] [|]].
  - destruct (pollStatus kbId backendUrl true rest st'). simpl. eauto.
  - simpl. eauto.
Qed.

Lemma pollStatus_sequenced polling results :
  forall st, Sequenced (fst (pollStatus kbId backendUrl polling results st)).
Proof.
  destruct polling.
  2:{ intros st. destruct results; constructor. }
  induction results as [|res rest IH]; intros st; simpl.
  - constructor.
  - destruct (finish res st) as [[st' effs] [|]]; simpl; [|constructor].
    specialize (IH st').
    destruct (pollStatus_starts true rest st' eq_refl) as [tr Htr].
    destruct (pollStatus kbId backendUrl true rest st') as [tr' st'']. simpl in *.
    subst tr'. constructor; [discriminate|exact IH].
Qed.

Lemma pollStatus_no_ceiling results :
  forall st,
    isPolling st = true -> Forall reportsProcessing results ->
    requestsIssued (fst (pollStatus kbId backendUrl true results st))
      = S (length results) /\
    isPolling (snd (pollStatus kbId backendUrl true results st)) = true.
Proof.
  induction results as [|res rest IH]; intros st Hpoll Hall; simpl.
  - split; [reflexivity|exact Hpoll].
  - inversion Hall as [|? ? Hres Hrest]; subst.
    pose proof (proj2 (finish_continues_iff res st) Hres) as Hcont.
    pose proof (finish_keeps_polling res st Hcont) as Hkeep.
    destruct (finish res st) as [[st' effs] b]. simpl in *. subst b.
    destruct (IH st' ltac:(congruence) Hrest) as [Hn Hp].
    destruct (pollStatus kbId backendUrl true rest st') as [tr st'']. simpl in *.
    split; [|exact Hp].
    rewrite Hn. reflexivity.
Qed.

Lemma scheduled_delay_fixed tr ms :
  Sequenced tr -> In (Scheduled ms) tr -> ms = 2000.
Proof.
  induction 1 as [ | r | r res | r res tr Hne Hseq IH]; simpl; intros Hin.
  - contradiction.
  - destruct Hin as [Hin|[]]; discriminate.
  - destruct Hin as [Hin|[Hin|[]]]; discriminate.
  - destruct Hin as [Hin|[Hin|[Hin|Hin]]]; try discriminate.
    + congruence.
    + auto.
Qed.

(** One run of the polling effect of the URL scraper, with the props
    it closed over.  Within the run the status requests are strictly
    sequential: a request is issued only after the previous one has
    settled, through a timer of 2000 ms set after the awaited
    [fetchScrapeStatus] returned.  Polling
    continues exactly when the response is ok and its [status] field is
    "processing"; in every other case, a failed request included,
    [isPolling] becomes false.  The delay is always 2000 ms and the number
    of rounds is unbounded: [n] processing responses give [n + 1]
    requests and polling is still on. *)
Theorem polling_loop :
  (forall results st, Sequenced (fst (effect results st))) /\
  (forall results st ms,
      In (Scheduled ms) (fst (effect results st)) -> ms = 2000) /\
  (forall res st, snd (finish res st) = true <-> reportsProcessing res) /\
  (forall res st,
      ~ reportsProcessing res ->
      isPolling (fst (fst (finish res st))) = false /\
      fst (effect [res] st) =
        (if isPolling st then [Issued (statusRequest kbId backendUrl); Settled res]
         else [])) /\
  (forall results st,
      isPolling st = true -> Forall reportsProcessing results ->
      requestsIssued (fst (effect results st)) = S (length results) /\
      isPolling (snd (effect results st)) = true).
Proof.
  repeat split.
  - intros. apply pollStatus_sequenced.
  - intros results st ms. apply scheduled_delay_fixed, pollStatus_sequenced.
  - apply finish_continues_iff.
  - apply finish_continues_iff.
  - apply finish_stops.
    destruct (snd (finish res st)) eqn:Hb; [|reflexivity].
    apply finish_continues_iff in Hb. contradiction.
  - unfold pollingEffect. destruct (isPolling st); [|reflexivity]. simpl.
    destruct (snd (finish res st)) eqn:Hb.
    + apply finish_continues_iff in Hb. contradiction.
    + destruct (finish res st) as [[st' effs] b]. simpl in Hb. subst b. reflexivity.
  - unfold pollingEffect. rewrite H. apply pollStatus_no_ceiling; assumption.
  - unfold pollingEffect. rewrite H. apply pollStatus_no_ceiling; assumption.
Qed.

End Facts.

(** Two "processing" answers: three requests, and polling is still on. *)
Lemma polling_loop_witness :
  UrlScraper.isPolling (setIsPolling true UrlScraper.initial) = true /\
  requestsIssued
    (fst (pollingEffect (P:=examplePlatform) "kb1" Sample.backendUrl
            [Sample.processing; Sample.processing]
            (setIsPolling true UrlScraper.initial))) = 3 /\
  UrlScraper.isPolling
    (snd (pollingEffect (P:=examplePlatform) "kb1" Sample.backendUrl
            [Sample.processing; Sample.processing]
            (setIsPolling true UrlScraper.initial))) = true.
Proof.
  split; [reflexivity|].
  apply (proj2 (proj2 (proj2 (proj2
           (polling_loop (P:=examplePlatform) "kb1" Sample.backendUrl))))).
  - reflexivity.
  - repeat constructor;
      exists (Sample.jsonResponse 200 (JObj [("status", JStr "processing")])),
             (JObj [("status", JStr "processing")]);
      repeat split; reflexivity.
Defined.

End ScrapePolling.

Module ScrapeForm.
Import Js UrlScraper.

Section Facts.
Context {P : Platform}.
Variables (kbId backendUrl : string).

Local Abbreviation submit := (handleSubmit_start kbId backendUrl).
Local Arguments get : simpl never.
Local Arguments message_or_detail : simpl never.
Local Arguments bind : simpl never.

Lemma status_finish_maxPages res st :
  maxPages (fst (fst (fetchScrapeStatus_finish res st))) = maxPages st.
Proof.
  unfold fetchScrapeStatus_finish, statusFailed.
  repeat match goal with
         | |- context [match ?x with _ => _ end] => destruct x
         end; reflexivity.
Qed.

Lemma submit_finish_maxPages res st :
  finite (maxPages st) -> finite (maxPages (handleSubmit_finish res st)).
Proof.
  intros Hfin. unfold handleSubmit_finish, submitFailed.
  repeat match goal with
         | |- context [match ?x with _ => _ end] => destruct x
         end; simpl; try exact Hfin; eexists; reflexivity.
Qed.

(** The number held in [maxPages] always comes from the number input or
    is the constant 1, so it is never NaN. *)
Lemma reachable_maxPages_finite st :
  reachable kbId backendUrl st -> finite (maxPages st).
Proof.
  induction 1 as [|ev st Hreach IH].
  - eexists; reflexivity.
  - destruct ev as [v|v| |res|res|cb]; simpl.
    + exact IH.
    + destruct v; eexists; reflexivity.
    + unfold handleSubmit_start.
      destruct (_ || _); exact IH.
    + apply submit_finish_maxPages, IH.
    + rewrite status_finish_maxPages. exact IH.
    + destruct cb; exact IH.
Qed.

Lemma isValidUrl_spec s :
  isValidUrl s = true <->
  url_parses s = true /\
  (startsWith s "http://" = true \/ startsWith s "https://" = true).
Proof.
  unfold isValidUrl. destruct (url_parses s).
  - rewrite orb_true_iff. tauto.
  - split; [discriminate | intros [? _]; discriminate].
Qed.

Lemma finite_not_lt_ge n : finite n -> lt n one = false -> ge n one = true.
Proof.
  intros [q ->]. unfold lt, ge, one. rewrite negb_false_iff. trivial.
Qed.

Lemma ge_not_lt n : ge n one = true -> lt n one = false.
Proof.
  destruct n as [q|]; unfold lt, ge, one; [|discriminate].
  intros ->. reflexivity.
Qed.

(** C6.  Submitting the scrape form.  In every state the form can be in,
    whatever the text of the URL field and the value of the number
    field, [handleSubmit] issues a request only if [isValidUrl(url)]
    holds and [maxPages >= 1], and that request is the POST to
    /agents/{kbId}/scrape-url; when either condition fails no request is
    issued and the validation message is shown.  [isValidUrl(s)] is true
    exactly when [new URL(s)] succeeds and [s] starts with "http://" or
    "https://". *)
Theorem scrape_form_guard st :
  reachable kbId backendUrl st ->
  (forall r, In (Fetch r) (snd (submit st)) ->
     r = scrapeRequest kbId backendUrl /\ method r = POST /\
     target r = backendUrl +:+ "/agents/" +:+ kbId +:+ "/scrape-url" /\
     isValidUrl (url st) = true /\ ge (maxPages st) one = true) /\
  (isValidUrl (url st) = false \/ ge (maxPages st) one = false ->
     snd (submit st) = [] /\
     error (fst (submit st)) = Some invalidInputMessage) /\
  (forall s, isValidUrl s = true <->
     url_parses s = true /\
     (startsWith s "http://" = true \/ startsWith s "https://" = true)).
Proof.
  intros Hreach.
  pose proof (reachable_maxPages_finite st Hreach) as Hfin.
  split; [|split].
  - intros r. unfold handleSubmit_start.
    destruct (negb (nonempty kbId) || negb (nonempty (url st))
              || negb (isValidUrl (url st)) || lt (maxPages st) one) eqn:Hguard;
      simpl; [contradiction|].
    intros [Hr|[]]. injection Hr as <-.
    repeat rewrite orb_false_iff in Hguard.
    destruct Hguard as [[[_ _] Hvalid] Hlt].
    rewrite negb_false_iff in Hvalid.
    repeat split; auto using finite_not_lt_ge.
  - intros Hbad. unfold handleSubmit_start.
    assert (negb (nonempty kbId) || negb (nonempty (url st))
            || negb (isValidUrl (url st)) || lt (maxPages st) one = true) as ->.
    { destruct Hbad as [Hbad|Hbad].
      - rewrite Hbad. simpl. rewrite !orb_true_r. reflexivity.
      - destruct (lt (maxPages st) one) eqn:Hlt; [apply orb_true_r|].
        rewrite (finite_not_lt_ge _ Hfin Hlt) in Hbad. discriminate. }
    split; reflexivity.
  - apply isValidUrl_spec.
Qed.

End Facts.

(** A valid URL with the number input emptied: no request, and the
    validation message. *)
Lemma scrape_form_guard_witness :
  let st := step (P:=examplePlatform) "kb1" Sample.backendUrl (ChangeMaxPages InputEmpty)
              (step (P:=examplePlatform) "kb1" Sample.backendUrl
                 (ChangeUrl "http://example.com") UrlScraper.initial) in
  reachable (P:=examplePlatform) "kb1" Sample.backendUrl st /\
  ge (maxPages st) one = false /\
  snd (handleSubmit_start (P:=examplePlatform) "kb1" Sample.backendUrl st) = [] /\
  UrlScraper.error (fst (handleSubmit_start (P:=examplePlatform) "kb1" Sample.backendUrl st))
    = Some invalidInputMessage.
Proof.
  cbv zeta.
  assert (Hreach : reachable (P:=examplePlatform) "kb1" Sample.backendUrl
            (step (P:=examplePlatform) "kb1" Sample.backendUrl (ChangeMaxPages InputEmpty)
               (step (P:=examplePlatform) "kb1" Sample.backendUrl
                  (ChangeUrl "http://example.com") UrlScraper.initial))).
  { repeat constructor. }
  split; [exact Hreach|]. split; [reflexivity|].
  apply (proj1 (proj2 (scrape_form_guard (P:=examplePlatform) "kb1" Sample.backendUrl
                         _ Hreach))).
  right. reflexivity.
Defined.

End ScrapeForm.

Module ChatRequests.
Import Js ChatInterface.

(** ** Abort signals only accumulate *)

Lemma abortOngoing_aborted w c :
  c ∈ aborted w -> c ∈ aborted (fst (abortOngoing w)).
Proof.
  unfold abortOngoing. destruct (abortControllerRef w); simpl; set_solver.
Qed.

Lemma abortOngoing_ref w : abortControllerRef (fst (abortOngoing w)) = None.
Proof.
  unfold abortOngoing. destruct (abortControllerRef w) eqn:Href; simpl; auto.
Qed.

Lemma historyEffect_aborted w c :
  c ∈ aborted w -> c ∈ aborted (fst (historyEffect w)).
Proof.
  intros Hc. unfold historyEffect.
  destruct (negb (nonempty (kbId w))); simpl; [exact Hc|].
  match goal with |- context [abortOngoing ?x] =>
    pose proof (abortOngoing_aborted x c Hc) as H; destruct (abortOngoing x) end.
  exact H.
Qed.

Lemma propsChanged_aborted kb url w c :
  c ∈ aborted w -> c ∈ aborted (fst (propsChanged kb url w)).
Proof.
  intros Hc. unfold propsChanged, historyCleanup.
  match goal with |- context [historyEffect ?x] =>
    pose proof (historyEffect_aborted x c) as H; destruct (historyEffect x) end.
  simpl in *. apply H. set_solver.
Qed.

Lemma send_aborted u l now now' w c :
  c ∈ aborted w -> c ∈ aborted (fst (handleSendMessage_start u l now now' w)).
Proof.
  intros Hc. unfold handleSendMessage_start.
  destruct (_ || _); simpl; [exact Hc|].
  pose proof (abortOngoing_aborted w c Hc) as H.
  destruct (abortOngoing w). exact H.
Qed.

Lemma chat_finish_aborted pid res w :
  aborted (handleSendMessage_finish pid res w) = aborted w.
Proof.
  unfold handleSendMessage_finish.
  destruct (handleSendMessage_try res) as [data|e]; [reflexivity|].
  destruct (negb (isAbortError e)); reflexivity.
Qed.

Lemma step_aborted ev w c : c ∈ aborted w -> c ∈ aborted (step ev w).
Proof.
  intros Hc. destruct ev; cbn [step]; auto using propsChanged_aborted, send_aborted.
  rewrite chat_finish_aborted. exact Hc.
Qed.

Lemma run_aborted evs : forall w c, c ∈ aborted w -> c ∈ aborted (run evs w).
Proof.
  unfold run. induction evs as [|ev evs IH]; simpl; intros w c Hc; [exact Hc|].
  apply IH, step_aborted, Hc.
Qed.

(** ** Controllers are fresh *)

Ltac split_allocated := unfold allocated; split; [|split]; cbn.

Lemma mounted_allocated kb url : allocated (mounted kb url).
Proof.
  unfold mounted, historyEffect. cbn.
  destruct (negb (nonempty kb)); cbn; split_allocated; try lia;
    try (intros c Hc; apply not_elem_of_empty in Hc; contradiction);
    intros c [=].
Qed.

Lemma abortOngoing_allocated w : allocated w -> allocated (fst (abortOngoing w)).
Proof.
  intros (Ha & Hh & Hr). unfold abortOngoing.
  destruct (abortControllerRef w) as [c0|] eqn:Href; cbn; split_allocated; auto.
  - intros c Hc. apply elem_of_union in Hc as [Hc|Hc]; [|auto].
    apply elem_of_singleton in Hc. subst c. auto.
  - intros c [=].
  - rewrite Href. intros c [=].
Qed.

Lemma historyEffect_allocated w :
  (forall c, c ∈ aborted w -> c < nextController w) ->
  (forall c, abortControllerRef w = Some c -> c < nextController w) ->
  allocated (fst (historyEffect w)).
Proof.
  intros Ha Hr. unfold historyEffect.
  destruct (negb (nonempty (kbId w))); cbn.
  - split_allocated; auto; intros c Hc; [apply Ha in Hc|apply Hr in Hc]; lia.
  - match goal with |- context [abortOngoing ?x] =>
      pose proof (abortOngoing_allocated x) as Hx; destruct (abortOngoing x) end.
    apply Hx. split_allocated; auto; intros c Hc; [apply Ha in Hc|apply Hr in Hc]; lia.
Qed.

Lemma step_allocated ev w : allocated w -> allocated (step ev w).
Proof.
  intros Hw. pose proof Hw as (Ha & Hh & Hr).
  destruct ev as [kb url|v|u l now now'|c kb now res|c pid res|b|now res]; cbn [step].
  - unfold propsChanged, historyCleanup.
    match goal with |- context [historyEffect ?x] =>
      pose proof (historyEffect_allocated x) as Hx; destruct (historyEffect x) end.
    apply Hx; cbn; auto.
    intros c Hc. apply elem_of_union in Hc as [Hc|Hc]; [|auto].
    apply elem_of_singleton in Hc. subst c. auto.
  - exact Hw.
  - unfold handleSendMessage_start.
    destruct (_ || _); [exact Hw|].
    pose proof (abortOngoing_allocated w Hw) as (Ha' & Hh' & _).
    destruct (abortOngoing w) as [w1 effs]. cbn in *.
    split_allocated.
    + intros c Hc. apply Ha' in Hc. lia.
    + lia.
    + intros c [= <-]. lia.
  - exact Hw.
  - unfold handleSendMessage_finish.
    destruct (handleSendMessage_try _) as [data|e];
      [|destruct (negb (isAbortError e))];
      split_allocated; auto; intros c0 [=].
  - exact Hw.
  - exact Hw.
Qed.

Lemma run_allocated evs : forall w, allocated w -> allocated (run evs w).
Proof.
  unfold run. induction evs as [|ev evs IH]; cbn; intros w Hw; [exact Hw|].
  apply IH, step_allocated, Hw.
Qed.

(** The request for the newly selected agent carries a signal that is
    not aborted, so its answer is delivered: the abort is aimed at the
    previous requests only. *)
Lemma new_history_is_delivered kb url w (res : FetchResult HistoryData) :
  allocated w -> nonempty kb = true ->
  let w' := fst (propsChanged kb url w) in
  (historyAbortController w' ∉ aborted w') /\
  settled w' (historyAbortController w') res = res.
Proof.
  intros (Ha & Hh & Hr) Hkb. cbv zeta.
  assert (Hfresh : historyAbortController (fst (propsChanged kb url w))
                   ∉ aborted (fst (propsChanged kb url w))).
  { destruct w as [k u v r h a n]; destruct kb as [|ch kb]; try discriminate.
    unfold propsChanged, historyCleanup, historyEffect, abortOngoing. cbn in *.
    destruct r as [c0|]; cbn; intros Hin;
      repeat (apply elem_of_union in Hin as [Hin|Hin]);
      try (apply elem_of_singleton in Hin);
      try (apply Ha in Hin); try (specialize (Hr _ eq_refl)); lia. }
  split; [exact Hfresh|].
  unfold settled. rewrite decide_False; auto.
Qed.

(** ** What an aborted request does when it settles *)

Lemma settled_aborted {A} w c (res : FetchResult A) :
  c ∈ aborted w -> settled w c res = Rejected (AbortError abortReason).
Proof. intros Hc. unfold settled. rewrite decide_True; auto. Qed.

Lemma history_abort_silent kb now res e st :
  loadHistory_try res = Throw e -> isAbortError e = true ->
  loadHistory_finish kb now res st = setIsHistoryLoading false st.
Proof. intros Htry Habort. unfold loadHistory_finish. rewrite Htry, Habort. reflexivity. Qed.

Lemma chat_abort_silent pid res e w :
  handleSendMessage_try res = Throw e -> isAbortError e = true ->
  handleSendMessage_finish pid res w = setRef None (withView (setIsLoading false) w).
Proof.
  intros Htry Habort. unfold handleSendMessage_finish. rewrite Htry, Habort. reflexivity.
Qed.

Lemma aborted_settlement_keeps_messages w c :
  c ∈ aborted w ->
  (forall kb now res,
      messages (view (step (HistorySettled c kb now res) w)) = messages (view w) /\
      historyError (view (step (HistorySettled c kb now res) w)) = historyError (view w)) /\
  (forall pid res,
      messages (view (step (ChatSettled c pid res) w)) = messages (view w) /\
      historyError (view (step (ChatSettled c pid res) w)) = historyError (view w)).
Proof.
  intros Hc. split; intros; cbn [step]; rewrite (settled_aborted _ _ _ Hc).
  - unfold withView; cbn [view].
    rewrite (history_abort_silent _ _ _ (AbortError abortReason)) by reflexivity.
    split; reflexivity.
  - rewrite (chat_abort_silent _ _ (AbortError abortReason)) by reflexivity.
    split; reflexivity.
Qed.

(** Changing the selected agent.  When the component is rendered
    with a new, non-empty [kbId], the cleanup of the previous effect
    aborts the controller of the previous agent's history fetch, and
    [loadHistory] for the new agent aborts the chat request held in
    [abortControllerRef] and clears the cell, all before it issues the new
    history request.  From then on, whatever happens in between, the
    settlement of a request whose signal was aborted leaves the message
    list (and [historyError]) as it is. *)
Theorem agent_change_aborts kb url w :
  nonempty kb = true ->
  let w' := fst (propsChanged kb url w) in
  let fresh := nextController w in
  snd (propsChanged kb url w) =
    AbortCall (historyAbortController w)
    :: match abortControllerRef w with Some c => [AbortCall c] | None => [] end
    ++ [Fetch {| method := GET; target := historyUrl url kb;
                 body := NoBody; signal := Some fresh |}] /\
  historyAbortController w ∈ aborted w' /\
  (forall c, abortControllerRef w = Some c -> c ∈ aborted w') /\
  abortControllerRef w' = None /\
  historyAbortController w' = fresh /\
  messages (view w') = [] /\
  (forall evs c,
      c ∈ aborted w' ->
      let w'' := run evs w' in
      (forall kb0 now res,
          messages (view (step (HistorySettled c kb0 now res) w'')) = messages (view w'') /\
          historyError (view (step (HistorySettled c kb0 now res) w'')) = historyError (view w'')) /\
      (forall pid res,
          messages (view (step (ChatSettled c pid res) w'')) = messages (view w'') /\
          historyError (view (step (ChatSettled c pid res) w'')) = historyError (view w''))).
Proof.
  intros Hkb. cbv zeta.
  assert (Hlater : forall w', forall evs c, c ∈ aborted w' ->
            let w'' := run evs w' in
            (forall kb0 now res,
                messages (view (step (HistorySettled c kb0 now res) w'')) = messages (view w'') /\
                historyError (view (step (HistorySettled c kb0 now res) w'')) = historyError (view w'')) /\
            (forall pid res,
                messages (view (step (ChatSettled c pid res) w'')) = messages (view w'') /\
                historyError (view (step (ChatSettled c pid res) w'')) = historyError (view w''))).
  { intros w' evs c Hc. apply aborted_settlement_keeps_messages, run_aborted, Hc. }
  split; [|split; [|split; [|split; [|split; [|split; [|apply Hlater]]]]]];
    destruct w as [k u v r h a n]; destruct kb as [|ch kb]; try discriminate;
    unfold propsChanged, historyCleanup, historyEffect, abortOngoing;
    destruct r as [c0|]; cbn; try reflexivity.
  - apply elem_of_union_r, elem_of_union_l, elem_of_singleton. reflexivity.
  - apply elem_of_union_l, elem_of_singleton. reflexivity.
  - intros c [= <-]. apply elem_of_union_l, elem_of_singleton. reflexivity.
  - intros c [=].
Qed.

(** What the [isLoading] cell, the ref and the loading flag aside, an
    aborted request leaves behind: nothing. *)
Lemma updateMessage_In id f prev m :
  In m prev -> Message.id m = id -> In (f m) (updateMessage id f prev).
Proof.
  intros Hin Hid. unfold updateMessage. apply in_map_iff.
  exists m. rewrite Hid, String.eqb_refl. auto.
Qed.





(** ** Clearing the history *)



(** Selecting kb2 while a chat request for kb1 is in flight. *)
Lemma agent_change_aborts_witness :
  nonempty "kb2" = true /\
  0 ∈ aborted (fst (propsChanged "kb2" Sample.backendUrl Sample.chatting)) /\
  1 ∈ aborted (fst (propsChanged "kb2" Sample.backendUrl Sample.chatting)).
Proof.
  split; [reflexivity|].
  destruct (agent_change_aborts "kb2" Sample.backendUrl Sample.chatting eq_refl)
    as (_ & Hhist & Hchat & _).
  split; [exact Hhist|]. apply Hchat. reflexivity.
Defined.



End ChatRequests.

Module JsonTextarea.
Import Js JSONUpload.

Section Facts.
Context {P : Platform}.
Variables (kbId backendUrl : string).

Local Abbreviation upload := (handleUpload_start kbId backendUrl).

Lemma handleJsonChange_consistent data st : consistent (handleJsonChange data st).
Proof.
  unfold consistent, handleJsonChange.
  destruct (isEmpty (trim data)) eqn:Hblank; cbn; [auto|].
  destruct (json_parse data) as [v|e] eqn:Hparse; cbn; [eauto|discriminate].
Qed.

Lemma uploadFailed_text c e st :
  jsonData (uploadFailed c e st) = jsonData st /\
  isValidJson (uploadFailed c e st) = isValidJson st.
Proof.
  unfold uploadFailed. destruct (includes _ _), c; split; reflexivity.
Qed.

Lemma upload_start_text st :
  jsonData (fst (upload st)) = jsonData st /\
  isValidJson (fst (upload st)) = isValidJson st.
Proof.
  unfold handleUpload_start.
  destruct (_ || _).
  - destruct (negb (isValidJson st)); [split; reflexivity|].
    destruct (isEmpty _); split; reflexivity.
  - destruct (json_parse _); cbn; [split; reflexivity|].
    destruct (uploadFailed_text (uploadStatus st) e
                (setUploadMessage None (setUploadStatus uploading st))) as [-> ->].
    split; reflexivity.
Qed.

Lemma reachable_consistent st : reachable kbId backendUrl st -> consistent st.
Proof.
  induction 1 as [|ev st Hreach IH].
  - intros _. left. reflexivity.
  - destruct ev as [data| |c res| |res]; cbn [step].
    + apply handleJsonChange_consistent.
    + unfold consistent. destruct (upload_start_text st) as [-> ->]. exact IH.
    + unfold handleUpload_finish.
      destruct (handleUpload_try res) as [shown|e]; cbn.
      * unfold fetchExistingJson_start.
        destruct (negb (nonempty kbId)), c; intros _; left; reflexivity.
      * unfold consistent. destruct (uploadFailed_text c e st) as [-> ->]. exact IH.
    + unfold fetchExistingJson_start. destruct (negb (nonempty kbId)); exact IH.
    + unfold fetchExistingJson_finish.
      destruct (fetchExistingJson_try res); exact IH.
Qed.

Lemma disabled_no_request st : uploadDisabled st = true -> snd (upload st) = [].
Proof.
  unfold uploadDisabled, handleUpload_start. intros ->.
  destruct (negb (isValidJson st)); [reflexivity|].
  destruct (isEmpty _); reflexivity.
Qed.

(** C5.  The Upload button of the JSON textarea.  In every state of the
    widget, whatever the textarea holds: when the trimmed text is empty,
    or the text does not parse as JSON, or an upload is in progress, the
    button is disabled and [handleUpload] returns without issuing a
    request.  In particular an empty textarea disables the button. *)
Theorem upload_guard st :
  reachable kbId backendUrl st ->
  (isEmpty (trim (jsonData st)) = true \/ doesNotParse (jsonData st)
   \/ uploadStatus st = uploading ->
   uploadDisabled st = true /\ snd (upload st) = []) /\
  (jsonData st = "" -> uploadDisabled st = true /\ snd (upload st) = []).
Proof.
  intros Hreach.
  assert (Hmain : isEmpty (trim (jsonData st)) = true \/ doesNotParse (jsonData st)
                  \/ uploadStatus st = uploading -> uploadDisabled st = true).
  { intros [Hblank|[[e Hparse]|Hup]]; unfold uploadDisabled.
    - rewrite Hblank. apply orb_true_iff. left. apply orb_true_r.
    - destruct (isValidJson st) eqn:Hvalid; [|reflexivity].
      destruct (reachable_consistent st Hreach Hvalid) as [Hblank|[v Hv]].
      + rewrite Hblank. reflexivity.
      + congruence.
    - rewrite Hup. apply orb_true_r. }
  split.
  - intros Hcase. split; [|apply disabled_no_request]; auto.
  - intros Hempty.
    assert (isEmpty (trim (jsonData st)) = true) as Hblank by (rewrite Hempty; reflexivity).
    split; [|apply disabled_no_request]; auto.
Qed.

End Facts.

(** A textarea that holds only blanks. *)
Lemma upload_guard_witness :
  let st := step (P:=examplePlatform) "kb1" Sample.backendUrl (JsonChange "  ")
              JSONUpload.initial in
  reachable (P:=examplePlatform) "kb1" Sample.backendUrl st /\
  isEmpty (trim (jsonData st)) = true /\
  uploadDisabled st = true /\
  snd (handleUpload_start (P:=examplePlatform) "kb1" Sample.backendUrl st) = [].
Proof.
  cbv zeta.
  assert (Hreach : reachable (P:=examplePlatform) "kb1" Sample.backendUrl
            (step (P:=examplePlatform) "kb1" Sample.backendUrl (JsonChange "  ")
               JSONUpload.initial)).
  { repeat constructor. }
  split; [exact Hreach|]. split; [reflexivity|].
  apply (proj1 (upload_guard (P:=examplePlatform) "kb1" Sample.backendUrl _ Hreach)).
  left. reflexivity.
Defined.

End JsonTextarea.

Module ListRefresh.
Import Js.

Section Facts.
Context {P : Platform}.
Variables (kbId backendUrl : string).

Local Abbreviation upload_finish := (JSONUpload.handleUpload_finish kbId backendUrl).
Local Abbreviation delete_finish := AgentManager.handleDeleteKb_finish.
Local Abbreviation create_finish := AgentManager.handleCreateKb_finish.
Local Arguments get : simpl never.

Lemma statusError_throws {A} errorBody fallback :
  exists e, @statusError _ A errorBody fallback = Throw e.
Proof.
  unfold statusError. destruct (message_or _ _); cbn; eauto.
Qed.

Lemma upload_try_success (res : FetchResult Json) response result :
  res = Resolved response -> ok response = true ->
  json response = Return result -> result <> JNull ->
  exists shown, JSONUpload.handleUpload_try res = Return shown.
Proof.
  intros -> Hok Hjson Hnull. unfold JSONUpload.handleUpload_try.
  rewrite Hjson, Hok. cbn. unfold message_or, get.
  destruct result; try contradiction; cbn; eauto.
Qed.

Lemma upload_try_failure (res : FetchResult Json) :
  (forall response, res = Resolved response -> ok response = false) ->
  exists e, JSONUpload.handleUpload_try res = Throw e.
Proof.
  intros Hbad. destruct res as [e|response]; [cbn; eauto|].
  unfold JSONUpload.handleUpload_try. rewrite (Hbad response eq_refl).
  destruct (json response) as [result|e]; cbn; [|eauto].
  destruct (message_or result _); cbn; eauto.
Qed.

Lemma upload_success c res shown st :
  JSONUpload.handleUpload_try res = Return shown ->
  JSONUpload.jsonData (fst (upload_finish c res st)) = "" /\
  JSONUpload.uploadMessage (fst (upload_finish c res st))
    = Some (JSONUpload.msg_success, shown) /\
  snd (upload_finish c res st)
    = (if nonempty kbId
       then [JSONUpload.Fetch
               (request GET (backendUrl +:+ "/agents/" +:+ kbId +:+ "/json") NoBody)]
       else []).
Proof.
  intros Htry. unfold JSONUpload.handleUpload_finish. rewrite Htry.
  unfold JSONUpload.fetchExistingJson_start, JSONUpload.jsonUrl.
  destruct (nonempty kbId), c; cbn; auto.
Qed.

Lemma upload_failure c res e st :
  JSONUpload.handleUpload_try res = Throw e ->
  snd (upload_finish c res st) = [] /\
  JSONUpload.jsonData (fst (upload_finish c res st)) = JSONUpload.jsonData st /\
  exists shown,
    JSONUpload.uploadMessage (fst (upload_finish c res st))
      = Some (JSONUpload.msg_error, JStr shown).
Proof.
  intros Htry. unfold JSONUpload.handleUpload_finish. rewrite Htry.
  unfold JSONUpload.uploadFailed.
  destruct (includes _ _), c; cbn; eauto.
Qed.

Lemma delete_success selected id (res : FetchResult Json) response st appState :
  res = Resolved response -> ok response = true ->
  In AgentManager.refreshKbs (snd (delete_finish selected id res st)) /\
  snd (App.callbacks backendUrl (snd (delete_finish selected id res st)) appState)
    = [request GET (backendUrl +:+ "/agents") NoBody].
Proof.
  intros -> Hok.
  unfold AgentManager.handleDeleteKb_finish, AgentManager.handleDeleteKb_try.
  rewrite Hok. cbn. destruct (is_string selected id); cbn; auto.
Qed.

Lemma delete_failure selected id (res : FetchResult Json) st :
  (forall response, res = Resolved response -> ok response = false) ->
  snd (delete_finish selected id res st) = [] /\
  exists shown,
    AgentManager.error (fst (delete_finish selected id res st)) = Some shown.
Proof.
  intros Hbad.
  unfold AgentManager.handleDeleteKb_finish, AgentManager.handleDeleteKb_try.
  destruct res as [e|response]; [cbn; eauto|].
  rewrite (Hbad response eq_refl). cbn.
  destruct (statusError_throws (A:=unit) (json response)
              ("HTTP error! status: " +:+ nat_to_string (status response))) as [e ->].
  cbn. eauto.
Qed.

Lemma create_success (res : FetchResult Json) newKb st appState :
  AgentManager.handleCreateKb_try res = Return newKb ->
  snd (create_finish res st) = [AgentManager.onKbCreated newKb] /\
  snd (App.callbacks backendUrl (snd (create_finish res st)) appState) = [] /\
  App.kbs (fst (App.callbacks backendUrl (snd (create_finish res st)) appState))
    = App.kbs appState ++ [newKb].
Proof.
  intros Htry. unfold AgentManager.handleCreateKb_finish. rewrite Htry. cbn. auto.
Qed.

(** C8 (amended).  What follows a mutation.  After a successful JSON
    upload the textarea is cleared and [fetchExistingJson] is called,
    which reloads the stored JSON with GET /agents/{kbId}/json; after a
    successful agent delete [refreshKbs] is called, which reloads the
    agent list with GET /agents.  When the upload or the delete fails no
    request follows and an error message is set.  A successful agent
    creation is reconciled locally: the created record is handed to
    [onKbCreated], which appends it to the list, and no request
    follows. *)
Theorem refresh_after_mutation :
  (forall c res shown st,
      JSONUpload.handleUpload_try res = Return shown ->
      JSONUpload.jsonData (fst (upload_finish c res st)) = "" /\
      JSONUpload.uploadMessage (fst (upload_finish c res st))
        = Some (JSONUpload.msg_success, shown) /\
      snd (upload_finish c res st)
        = (if nonempty kbId
           then [JSONUpload.Fetch
                   (request GET (backendUrl +:+ "/agents/" +:+ kbId +:+ "/json") NoBody)]
           else [])) /\
  (forall (res : FetchResult Json) response result,
      res = Resolved response -> ok response = true ->
      json response = Return result -> result <> JNull ->
      exists shown, JSONUpload.handleUpload_try res = Return shown) /\
  (forall c (res : FetchResult Json) st,
      (forall response, res = Resolved response -> ok response = false) ->
      snd (upload_finish c res st) = [] /\
      JSONUpload.jsonData (fst (upload_finish c res st)) = JSONUpload.jsonData st /\
      exists shown,
        JSONUpload.uploadMessage (fst (upload_finish c res st))
          = Some (JSONUpload.msg_error, JStr shown)) /\
  (forall selected id (res : FetchResult Json) response st appState,
      res = Resolved response -> ok response = true ->
      In AgentManager.refreshKbs (snd (delete_finish selected id res st)) /\
      snd (App.callbacks backendUrl (snd (delete_finish selected id res st)) appState)
        = [request GET (backendUrl +:+ "/agents") NoBody]) /\
  (forall selected id (res : FetchResult Json) st,
      (forall response, res = Resolved response -> ok response = false) ->
      snd (delete_finish selected id res st) = [] /\
      exists shown,
        AgentManager.error (fst (delete_finish selected id res st)) = Some shown) /\
  (forall (res : FetchResult Json) newKb st appState,
      AgentManager.handleCreateKb_try res = Return newKb ->
      snd (create_finish res st) = [AgentManager.onKbCreated newKb] /\
      snd (App.callbacks backendUrl (snd (create_finish res st)) appState) = [] /\
      App.kbs (fst (App.callbacks backendUrl (snd (create_finish res st)) appState))
        = App.kbs appState ++ [newKb]).
Proof.
  split; [|split; [|split; [|split; [|split]]]].
  - apply upload_success.
  - apply upload_try_success.
  - intros c res st Hbad.
    destruct (upload_try_failure res Hbad) as [e He].
    apply (upload_failure c res e st He).
  - apply delete_success.
  - apply delete_failure.
  - apply create_success.
Qed.

End Facts.

(** A JSON upload answered with 200 and a message. *)
Lemma refresh_after_mutation_witness :
  JSONUpload.handleUpload_try (P:=examplePlatform) Sample.uploaded
    = Return (JStr "Stored 1 object") /\
  snd (JSONUpload.handleUpload_finish (P:=examplePlatform) "kb1" Sample.backendUrl
         JSONUpload.idle Sample.uploaded JSONUpload.initial)
    = [JSONUpload.Fetch (request GET "http://localhost:8000/agents/kb1/json" NoBody)].
Proof.
  split; [reflexivity|].
  apply (proj1 (refresh_after_mutation (P:=examplePlatform) "kb1" Sample.backendUrl)
           JSONUpload.idle Sample.uploaded (JStr "Stored 1 object") JSONUpload.initial
           eq_refl).
Defined.

(** C8, as stated, fails for agent creation: the created record is
    appended to the local list and no request follows. *)
Lemma create_agent_is_not_refetched :
  let effects :=
    snd (AgentManager.handleCreateKb_finish (P:=examplePlatform)
           Sample.created AgentManager.initial) in
  effects
    = [AgentManager.onKbCreated
         [("kb_id", JStr "kb2"); ("name", JStr "Desk");
          ("summary", JStr "(Agent created)")]] /\
  snd (App.callbacks Sample.backendUrl effects App.initial) = [] /\
  App.kbs (fst (App.callbacks Sample.backendUrl effects App.initial))
    = [[("kb_id", JStr "kb2"); ("name", JStr "Desk");
        ("summary", JStr "(Agent created)")]].
Proof. repeat split; reflexivity. Qed.

End ListRefresh.

Module StringFacts.
Import Js.

Lemma str_or_nonempty s d : nonempty s = true -> str_or s d = s.
Proof. unfold str_or. intros ->. reflexivity. Qed.

End StringFacts.

Module RestSurface.
Import Js Rest.

Lemma clean_without_slash backendUrl :
  endsWith backendUrl "/" = false ->
  ChatInterface.cleanBackendUrl backendUrl = backendUrl.
Proof. unfold ChatInterface.cleanBackendUrl. intros ->. reflexivity. Qed.

(** C7 (amended).  Every request the console issues goes to the base
    URL it was configured with (for the chat widget, that URL without a
    trailing slash) and, with the method stated, to one of the documented
    endpoints or to one of three further ones: POST
    /agents/{id}/cleanup, POST /agents/{id}/human-knowledge and POST
    /agents/{id}/human_response.  File uploads carry multipart form data
    and the JSON upload a JSON body.  For a base URL without a trailing
    slash every documented endpoint is the target of some call site.  The
    base URL is the environment variable REACT_APP_BACKEND_URL when it is
    set and not empty. *)
Theorem requests_within_surface (backendUrl id : string) :
  (forall v, nonempty v = true -> App.BACKEND_URL (Some v) = v) /\
  App.BACKEND_URL None = "http://localhost:8000" /\
  (forall site,
      In (endpoint (requestAt site backendUrl id))
         (documented (baseAt site backendUrl) id
          ++ further (baseAt site backendUrl) id)) /\
  body (requestAt FileUpload_handleUpload backendUrl id) = FormDataBody /\
  body (requestAt JSONUpload_handleUpload backendUrl id) = JsonBody /\
  (endsWith backendUrl "/" = false ->
   forall e, In e (documented backendUrl id) ->
     exists site, endpoint (requestAt site backendUrl id) = e).
Proof.
  split; [|split; [reflexivity|]].
  { intros v Hv. cbn. apply StringFacts.str_or_nonempty, Hv. }
  split; [|split; [reflexivity|split; [reflexivity|]]].
  - intros site. unfold endpoint.
    destruct site as [ | | | | | | | | | | | | | | | | | | | [|] ]; cbn;
      unfold JSONUpload.jsonUrl, AgentConfig.configUrl,
        ChatInterface.chatUrl, ChatInterface.historyUrl;
      auto 30.
  - intros Hclean e Hin.
    pose proof (clean_without_slash backendUrl Hclean) as Hc.
    cbn in Hin.
    repeat (destruct Hin as [<-|Hin]);
      [ exists App_fetchKbs
      | exists AgentManager_handleCreateKb
      | exists AgentManager_handleDeleteKb
      | exists KnowledgeBaseViewer_fetchContent
      | exists FileUpload_handleUpload
      | exists JSONUpload_fetchExistingJson
      | exists JSONUpload_handleUpload
      | exists UrlScraper_handleSubmit
      | exists UrlScraper_fetchScrapeStatus
      | exists AgentConfig_fetchConfig
      | exists AgentConfig_handleSaveChanges
      | exists ChatInterface_handleSendMessage
      | exists ChatInterface_loadHistory
      | exists ChatInterface_handleClearHistory
      | exists HumanAgentDesk_fetchConversations
      | exists HumanAgentDesk_handleSendResponse
      | contradiction ];
      unfold endpoint; cbn;
      unfold ChatInterface.chatUrl, ChatInterface.historyUrl; rewrite ?Hc; reflexivity.
Qed.

(** The default base URL has no trailing slash. *)
Lemma requests_within_surface_witness :
  endsWith Sample.backendUrl "/" = false /\
  exists site,
    endpoint (requestAt site Sample.backendUrl "kb1")
      = (DELETE, "http://localhost:8000/agents/kb1/history").
Proof.
  split; [reflexivity|].
  apply (proj2 (proj2 (proj2 (proj2 (proj2
           (requests_within_surface Sample.backendUrl "kb1"))))) eq_refl).
  cbn. auto 20.
Defined.

(** C7, as stated, fails for the cleanup button: its request is not on
    the documented list. *)
Lemma cleanup_is_not_documented :
  endpoint (requestAt KnowledgeBaseViewer_handleCleanupKb Sample.backendUrl "kb1")
    = (POST, "http://localhost:8000/agents/kb1/cleanup") /\
  ~ In (endpoint (requestAt KnowledgeBaseViewer_handleCleanupKb Sample.backendUrl "kb1"))
       (documented (baseAt KnowledgeBaseViewer_handleCleanupKb Sample.backendUrl) "kb1").
Proof.
  split; [reflexivity|].
  cbn. intros H.
  repeat (destruct H as [H|H]; [discriminate H|]). exact H.
Qed.

End RestSurface.

Module ConfigSave.
Import Js AgentConfig.

Section Facts.
Context {P : Platform}.
Variables (kbId backendUrl : string).

Local Abbreviation save := (handleSaveChanges_start kbId backendUrl).

Lemma edit_keeps_keys e st :
  (hasOwnProperty (system_prompt (config st)) = true ->
   hasOwnProperty (system_prompt (config (handleInputChange e st))) = true) /\
  (hasOwnProperty (max_iterations (config st)) = true ->
   hasOwnProperty (max_iterations (config (handleInputChange e st))) = true).
Proof. destruct e as [v|[|q]]; cbn; auto. Qed.

Lemma edits_keep_keys edits :
  forall st,
    hasOwnProperty (system_prompt (config st)) = true ->
    hasOwnProperty (max_iterations (config st)) = true ->
    hasOwnProperty
      (system_prompt (config (fold_left (fun s e => handleInputChange e s) edits st))) = true /\
    hasOwnProperty
      (max_iterations (config (fold_left (fun s e => handleInputChange e s) edits st))) = true.
Proof.
  induction edits as [|e edits IH]; intros st Hp Hn; cbn [fold_left]; [auto|].
  destruct (edit_keeps_keys e st) as [Hp' Hn']. apply IH; auto.
Qed.

Lemma loaded_config_has_keys data c :
  fullConfig data = Return c ->
  hasOwnProperty (system_prompt c) = true /\ hasOwnProperty (max_iterations c) = true.
Proof.
  unfold fullConfig, bind.
  destruct (get (Some data) "system_prompt") as [p|]; [|discriminate].
  destruct (get (Some data) "max_iterations") as [n|]; [|discriminate].
  intros [= <-]. cbn. destruct p as [[]|], n as [[]|]; auto.
Qed.

(** C10.  Saving the agent configuration.  The payload holds
    [system_prompt] exactly when [config] has that field and its value
    differs from the one fetched initially, and then it is the current
    value; it holds [max_iterations] exactly when [config] has that field
    and its value differs, and then it is the current value when that is a
    number >= 1 and null otherwise, never the invalid value.  So a changed
    field is always in the payload, a changed count that is not a number
    >= 1 is sent as null, and nothing else is sent.  A configuration that
    was loaded holds both fields, also after any edits.  When neither
    field changed no request is issued; otherwise the payload goes out in a
    single PUT to /agents/{kbId}/config. *)
Theorem save_sends_only_changes (st : State) :
  nonempty kbId = true ->
  let payload := changes (config st) (initialConfig st) in
  let current := orNull (max_iterations (config st)) in
  let fetched := orNull (max_iterations (initialConfig st)) in
  (hasOwnProperty (system_prompt payload) = true ->
     differsString (system_prompt (config st)) (system_prompt (initialConfig st)) = true /\
     system_prompt payload = system_prompt (config st)) /\
  (hasOwnProperty (max_iterations payload) = true ->
     differsNumber current fetched = true /\
     (forall n, max_iterations payload = Val n ->
        max_iterations (config st) = Val n /\ ge n one = true) /\
     (max_iterations payload = Null <->
        forall n, max_iterations (config st) = Val n -> ge n one = false)) /\
  (differsString (system_prompt (config st)) (system_prompt (initialConfig st)) = false ->
   differsNumber current fetched = false ->
     snd (save st) = []) /\
  (noKeys payload = true -> snd (save st) = []) /\
  (noKeys payload = false ->
     snd (save st)
       = [FetchWith (request PUT (backendUrl +:+ "/agents/" +:+ kbId +:+ "/config") JsonBody)
                    payload]) /\
  hasOwnProperty (system_prompt payload)
    = hasOwnProperty (system_prompt (config st))
      && differsString (system_prompt (config st)) (system_prompt (initialConfig st)) /\
  hasOwnProperty (max_iterations payload)
    = hasOwnProperty (max_iterations (config st)) && differsNumber current fetched /\
  (hasOwnProperty (system_prompt (config st)) = true ->
   differsString (system_prompt (config st)) (system_prompt (initialConfig st)) = true ->
     system_prompt payload = system_prompt (config st) /\
     exists r, snd (save st) = [FetchWith r payload]) /\
  (hasOwnProperty (max_iterations (config st)) = true ->
   differsNumber current fetched = true ->
     max_iterations payload
       = match max_iterations (config st) with
         | Val n => if ge n one then Val n else Null
         | _ => Null
         end /\
     exists r, snd (save st) = [FetchWith r payload]) /\
  (forall (res : FetchResult Json) c edits,
      bind (fetchConfig_try res) fullConfig = Return c ->
      let st' := fold_left (fun s e => handleInputChange e s) edits
                   (fetchConfig_finish res st) in
      hasOwnProperty (system_prompt (config st')) = true /\
      hasOwnProperty (max_iterations (config st')) = true).
Proof.
  intros Hkb. cbv zeta.
  unfold handleSaveChanges_start, configUrl. rewrite Hkb. cbn [negb].
  split; [|split; [|split; [|split; [|split; [|split; [|split; [|split; [|split]]]]]]]].
  - unfold changes; cbn.
    destruct (hasOwnProperty (system_prompt (config st))) eqn:Hown; cbn; [|discriminate].
    destruct (differsString _ _); cbn; [auto|discriminate].
  - unfold changes; cbn.
    destruct (hasOwnProperty (max_iterations (config st))) eqn:Hown; cbn; [|discriminate].
    destruct (differsNumber _ _); cbn; [|discriminate].
    intros _. split; [reflexivity|].
    destruct (max_iterations (config st)) as [| |n]; cbn.
    + discriminate.
    + split; [discriminate|]. split; [discriminate|reflexivity].
    + destruct (ge n one) eqn:Hge.
      * split; [intros m [= <-]; auto|].
        split; [discriminate|]. intros H. specialize (H n eq_refl). congruence.
      * split; [discriminate|]. split; [|reflexivity]. intros _ m [= <-]. exact Hge.
  - intros Hs Hn. unfold noKeys, changes; cbn. rewrite Hs, Hn.
    rewrite !andb_false_r. reflexivity.
  - intros ->. reflexivity.
  - intros ->. reflexivity.
  - unfold changes; cbn.
    destruct (hasOwnProperty (system_prompt (config st))) eqn:Hown; cbn; [|reflexivity].
    destruct (differsString _ _); cbn; [|reflexivity]. exact Hown.
  - unfold changes; cbn.
    destruct (hasOwnProperty (max_iterations (config st))) eqn:Hown; cbn; [|reflexivity].
    destruct (differsNumber _ _); cbn; [|reflexivity].
    destruct (max_iterations (config st)) as [| |n]; cbn; try reflexivity.
    destruct (ge n one); reflexivity.
  - intros Hown Hdiff.
    assert (Hpay : system_prompt (changes (config st) (initialConfig st))
                   = system_prompt (config st)).
    { unfold changes; cbn. rewrite Hown, Hdiff. reflexivity. }
    split; [exact Hpay|].
    unfold noKeys. rewrite Hpay, Hown. cbn. eexists. reflexivity.
  - intros Hown Hdiff.
    assert (Hpay : max_iterations (changes (config st) (initialConfig st))
                   = match max_iterations (config st) with
                     | Val n => if ge n one then Val n else Null
                     | _ => Null
                     end).
    { unfold changes; cbn. rewrite Hown, Hdiff. cbn.
      destruct (max_iterations (config st)); reflexivity. }
    split; [exact Hpay|].
    unfold noKeys. rewrite Hpay.
    replace (hasOwnProperty
               match max_iterations (config st) with
               | Val n => if ge n one then Val n else Null
               | _ => Null
               end) with true.
    + rewrite andb_false_r. eexists. reflexivity.
    + destruct (max_iterations (config st)) as [| |n]; try reflexivity.
      destruct (ge n one); reflexivity.
  - intros res c edits Hc. unfold fetchConfig_finish. rewrite Hc.
    unfold bind in Hc. destruct (fetchConfig_try res) as [data|]; [|discriminate].
    destruct (loaded_config_has_keys data c Hc) as [Hp Hn].
    apply edits_keep_keys; assumption.
Qed.

End Facts.

(** The prompt was edited and the number input set to 0: both fields
    go out, the number as null. *)
Lemma save_sends_only_changes_witness :
  nonempty "kb1" = true /\
  snd (handleSaveChanges_start "kb1" Sample.backendUrl Sample.edited)
    = [FetchWith (request PUT "http://localhost:8000/agents/kb1/config" JsonBody)
         {| system_prompt := Val "Be brief."; max_iterations := Null |}].
Proof.
  split; [reflexivity|].
  apply (proj1 (proj2 (proj2 (proj2 (proj2
           (save_sends_only_changes (P:=examplePlatform) "kb1" Sample.backendUrl
              Sample.edited eq_refl)))))).
  reflexivity.
Defined.

End ConfigSave.

Module ErrorBanners.
Import Js Rest ErrorDisplay.

Section Facts.
Context {P : Platform}.

Local Arguments nat_to_string : simpl never.
Local Arguments String.append : simpl never.

Lemma statusError_fallback {A} e fallback :
  @statusError _ A (Throw e) fallback = Throw (mkError "Error" fallback).
Proof. reflexivity. Qed.





Local Arguments get : simpl never.
Local Arguments message_or : simpl never.
Local Arguments message_or_detail : simpl never.
Local Arguments statusError : simpl never.













(** ** The error cell after each modelled handler *)


Lemma scrape_submit_displays res e st :
  UrlScraper.handleSubmit_try res = Throw e ->
  UrlScraper.error (UrlScraper.handleSubmit_finish res st)
    = shown UrlScraper_handleSubmit e.
Proof. intros H. unfold UrlScraper.handleSubmit_finish. rewrite H. reflexivity. Qed.

Lemma existing_json_displays res e st :
  JSONUpload.fetchExistingJson_try res = Throw e ->
  JSONUpload.fetchJsonError (JSONUpload.fetchExistingJson_finish res st)
    = shown JSONUpload_fetchExistingJson e.
Proof. intros H. unfold JSONUpload.fetchExistingJson_finish. rewrite H. reflexivity. Qed.

Lemma json_upload_displays kbId backendUrl c res e st :
  JSONUpload.handleUpload_try res = Throw e ->
  JSONUpload.uploadMessage (fst (JSONUpload.handleUpload_finish kbId backendUrl c res st))
    = option_map (fun t => (JSONUpload.msg_error, JStr t)) (shown JSONUpload_handleUpload e).
Proof.
  intros H. unfold JSONUpload.handleUpload_finish. rewrite H.
  unfold JSONUpload.uploadFailed. cbn.
  destruct (includes _ _), c; reflexivity.
Qed.

Lemma create_displays res e st :
  AgentManager.handleCreateKb_try res = Throw e ->
  AgentManager.error (fst (AgentManager.handleCreateKb_finish res st))
    = shown AgentManager_handleCreateKb e.
Proof. intros H. unfold AgentManager.handleCreateKb_finish. rewrite H. reflexivity. Qed.

Lemma delete_displays selected id res e st :
  AgentManager.handleDeleteKb_try res = Throw e ->
  AgentManager.error (fst (AgentManager.handleDeleteKb_finish selected id res st))
    = shown AgentManager_handleDeleteKb e.
Proof. intros H. unfold AgentManager.handleDeleteKb_finish. rewrite H. reflexivity. Qed.

Lemma agents_displays (res : FetchResult App.AgentList.t) e st :
  App.fetchKbs_try res = Throw e ->
  App.error (App.fetchKbs_finish res st) = shown App_fetchKbs e.
Proof. intros H. unfold App.fetchKbs_finish. rewrite H. reflexivity. Qed.

Lemma config_fetch_displays res e st :
  AgentConfig.fetchConfig_try res = Throw e ->
  AgentConfig.error (AgentConfig.fetchConfig_finish res st)
    = shown AgentConfig_fetchConfig e.
Proof. intros H. unfold AgentConfig.fetchConfig_finish. rewrite H. reflexivity. Qed.

Lemma config_save_displays config res e st :
  AgentConfig.handleSaveChanges_try res = Throw e ->
  AgentConfig.error (fst (AgentConfig.handleSaveChanges_finish config res st))
    = shown AgentConfig_handleSaveChanges e.
Proof. intros H. unfold AgentConfig.handleSaveChanges_finish. rewrite H. reflexivity. Qed.

Lemma history_displays kb now (res : FetchResult ChatInterface.HistoryData) e st :
  ChatInterface.loadHistory_try res = Throw e -> isAbortError e = false ->
  ChatInterface.historyError (ChatInterface.loadHistory_finish kb now res st)
    = shown ChatInterface_loadHistory e.
Proof.
  intros H Ha. unfold ChatInterface.loadHistory_finish. rewrite H. cbn. rewrite Ha.
  reflexivity.
Qed.

Lemma chat_displays pid (res : FetchResult ChatInterface.ChatResponse.t) e w m :
  ChatInterface.handleSendMessage_try res = Throw e -> isAbortError e = false ->
  In m (ChatInterface.messages (ChatInterface.view w)) ->
  ChatInterface.Message.id m = pid ->
  exists m',
    In m' (ChatInterface.messages
             (ChatInterface.view (ChatInterface.handleSendMessage_finish pid res w))) /\
    ChatInterface.Message.messageType m' = ChatInterface.mt_error /\
    Some (ChatInterface.Message.text m') = shown ChatInterface_handleSendMessage e.
Proof.
  intros H Ha Hin Hid. exists (ChatInterface.errored e m).
  unfold ChatInterface.handleSendMessage_finish. rewrite H. cbn. rewrite Ha. cbn.
  repeat split. unfold ChatInterface.updateMessage. apply in_map_iff.
  exists m. rewrite Hid, String.eqb_refl. auto.
Qed.

Lemma clear_displays now (res : FetchResult Json) e st :
  ChatInterface.handleClearHistory_try res = Throw e ->
  ChatInterface.clearHistoryError (ChatInterface.handleClearHistory_finish now res st)
    = shown ChatInterface_handleClearHistory e.
Proof. intros H. unfold ChatInterface.handleClearHistory_finish. rewrite H. reflexivity. Qed.


End Facts.



End ErrorBanners.

(* ================================================================== *)
(** * Further properties of the handlers *)
(* ================================================================== *)

Module TextFacts.
Import Js.

Lemma append_inj_l p s t : p +:+ s = p +:+ t -> s = t.
Proof. apply String.app_inj. Qed.

Lemma to_uint_nonnil n : Nat.to_uint n <> Decimal.Nil.
Proof.
  intros H. pose proof (DecimalNat.Unsigned.of_to n) as Hn. rewrite H in Hn.
  cbn in Hn. subst n. discriminate H.
Qed.

(** Distinct numbers print differently. *)
Lemma nat_to_string_inj a b : nat_to_string a = nat_to_string b -> a = b.
Proof.
  unfold nat_to_string. intros H.
  apply DecimalNat.Unsigned.to_uint_inj.
  pose proof (NilZero.usu _ (to_uint_nonnil a)) as Ha.
  pose proof (NilZero.usu _ (to_uint_nonnil b)) as Hb.
  rewrite H in Ha. congruence.
Qed.

Lemma rev_app_list s1 s2 :
  list_ascii_of_string (String.rev_app s1 s2)
  = rev (list_ascii_of_string s1) ++ list_ascii_of_string s2.
Proof.
  revert s2. induction s1 as [|c s1 IH]; intros s2; cbn; [reflexivity|].
  rewrite IH. cbn. rewrite <- app_assoc. reflexivity.
Qed.

Lemma rev_list s : list_ascii_of_string (String.rev s) = rev (list_ascii_of_string s).
Proof. unfold String.rev. rewrite rev_app_list. cbn. apply app_nil_r. Qed.

Lemma append_list s t :
  list_ascii_of_string (s +:+ t) = list_ascii_of_string s ++ list_ascii_of_string t.
Proof.
  induction s as [|c s IH]; [reflexivity|].
  change (String c s +:+ t) with (String c (s +:+ t)).
  cbn [list_ascii_of_string]. rewrite IH. reflexivity.
Qed.

Lemma list_inj s t : list_ascii_of_string s = list_ascii_of_string t -> s = t.
Proof.
  intros H. rewrite <- (string_of_list_ascii_of_string s), H.
  apply string_of_list_ascii_of_string.
Qed.

Lemma rev_append_char s c :
  String.rev (s +:+ String c EmptyString) = String c (String.rev s).
Proof.
  apply list_inj. change (list_ascii_of_string (String c (String.rev s)))
    with (c :: list_ascii_of_string (String.rev s)).
  rewrite !rev_list, append_list. cbn [list_ascii_of_string].
  rewrite rev_app_distr. reflexivity.
Qed.

Lemma rev_involutive s : String.rev (String.rev s) = s.
Proof. apply list_inj. rewrite !rev_list. apply rev_involutive. Qed.

Lemma endsWith_slash_append s : endsWith (s +:+ "/") "/" = true.
Proof.
  unfold endsWith. rewrite rev_append_char. cbn.
  destruct (String.rev s); reflexivity.
Qed.

Lemma dropLast_append s c : dropLast (s +:+ String c EmptyString) = s.
Proof. unfold dropLast. rewrite rev_append_char. apply rev_involutive. Qed.

Lemma endsWith_slash_inv s :
  endsWith s "/" = true -> s = dropLast s +:+ "/".
Proof.
  unfold endsWith, dropLast. intros H.
  rewrite <- (rev_involutive s) at 1.
  destruct (String.rev s) as [|c r] eqn:Hr; [discriminate|].
  cbn in H. destruct (Ascii.ascii_dec c "/") as [->|Hne].
  - apply list_inj. rewrite rev_list, append_list, rev_list. reflexivity.
  - destruct (Ascii.eqb_spec c "/"); [contradiction|].
    cbn in H. destruct c as [[] [] [] [] [] [] [] []]; cbn in H; try discriminate;
      try (destruct r; discriminate). contradiction.
Qed.

End TextFacts.

(** ** The scrape widget beyond the polling loop *)

Module ScrapeOutcomes.
Import Js UrlScraper.

Section Facts.
Context {P : Platform}.
Variables (kbId backendUrl : string).

Local Abbreviation finish := fetchScrapeStatus_finish.
Local Abbreviation effect := (pollingEffect kbId backendUrl).
Local Arguments get : simpl never.
Local Arguments message_or_detail : simpl never.
Local Arguments bind : simpl never.

Lemma pollStatus_stops pre res post :
  forall st,
    Forall reportsProcessing pre -> ~ reportsProcessing res ->
    pollStatus kbId backendUrl true (pre ++ res :: post) st
      = pollStatus kbId backendUrl true (pre ++ [res]) st /\
    requestsIssued (fst (pollStatus kbId backendUrl true (pre ++ [res]) st))
      = S (length pre) /\
    isPolling (snd (pollStatus kbId backendUrl true (pre ++ [res]) st)) = false.
Proof.
  intros st Hpre Hres. revert st.
  induction Hpre as [|r pre Hr Hpre IH]; intros st; cbn [app pollStatus length].
  - destruct (snd (finish res st)) eqn:Hb.
    { apply ScrapePolling.finish_continues_iff in Hb. contradiction. }
    pose proof (ScrapePolling.finish_stops res st Hb) as Hstop.
    destruct (finish res st) as [[st' effs] b]. cbn in Hb, Hstop. subst b.
    repeat match goal with |- _ /\ _ => split end; [reflexivity|reflexivity|exact Hstop].
  - pose proof (proj2 (ScrapePolling.finish_continues_iff r st) Hr) as Hcont.
    destruct (finish r st) as [[st' effs] b]. cbn in Hcont. subst b.
    destruct (IH st') as (Heq & Hn & Hp). rewrite Heq.
    destruct (pollStatus kbId backendUrl true (pre ++ [res]) st') as [tr st''].
    cbn in *. repeat match goal with |- _ /\ _ => split end;
      [reflexivity|now rewrite Hn|exact Hp].
Qed.

(** X1.  Polling ends with the first answer that does not report
    "processing": whatever the backend would have answered afterwards is
    never asked for, the number of status requests is one more than the
    number of "processing" answers before it, and [isPolling] is off. *)
Theorem polling_ends_at_first_other_answer pre res post st :
  isPolling st = true ->
  Forall reportsProcessing pre ->
  ~ reportsProcessing res ->
  effect (pre ++ res :: post) st = effect (pre ++ [res]) st /\
  requestsIssued (fst (effect (pre ++ res :: post) st)) = S (length pre) /\
  isPolling (snd (effect (pre ++ res :: post) st)) = false.
Proof.
  intros Hpoll Hpre Hres. unfold pollingEffect. rewrite Hpoll.
  destruct (pollStatus_stops pre res post st Hpre Hres) as (Heq & Hn & Hp).
  rewrite Heq. auto.
Qed.

Ltac status_cases :=
  unfold fetchScrapeStatus_finish, statusFailed;
  repeat match goal with
         | |- context [match ?x with _ => _ end] => destruct x eqn:?
         end; cbn in *.

(** A status answer never touches the form: the url, the page count
    and the submitting flag are as before.  The only effect it can leave
    is one timer of 5000 ms, and only when polling stops. *)
Theorem status_answer_leaves_form res st :
  let st' := fst (fst (finish res st)) in
  url st' = url st /\ maxPages st' = maxPages st /\
  isSubmitting st' = isSubmitting st /\
  (snd (fst (finish res st)) = [] \/
   exists cb, snd (fst (finish res st)) = [SetTimeout cb 5000] /\
              snd (finish res st) = false).
Proof.
  cbv zeta. status_cases;
    repeat match goal with |- _ /\ _ => split end; try reflexivity;
    first [left; reflexivity | right; eexists; split; reflexivity].
Qed.

(** X2.  An ok answer whose [status] is none of "processing",
    "completed" and "failed" stops polling silently: no error, no success
    message, no timer, and the status panel keeps the answer. *)
Theorem unknown_status_stops_silently response data s st :
  ok response = true ->
  json response = Return data ->
  get (Some data) "status" = Return s ->
  is_string s "processing" = false ->
  is_string s "completed" = false ->
  is_string s "failed" = false ->
  finish (Resolved response) st
    = (setIsPolling false (setScrapeStatus (Some data) st), [], false).
Proof.
  intros Hok Hjson Hget Hp Hc Hf.
  unfold fetchScrapeStatus_finish, fetchScrapeStatus_try.
  rewrite Hjson. unfold bind at 1. rewrite Hok. cbn [negb].
  rewrite Hget, Hp, Hc, Hf. reflexivity.
Qed.

(** When the submit button is enabled and an agent is selected the
    handler issues exactly the scrape request, clears the error, and the
    button is disabled until the request settles. *)
Theorem enabled_submit_sends st :
  nonempty kbId = true ->
  submitDisabled st = false ->
  snd (handleSubmit_start kbId backendUrl st) = [Fetch (scrapeRequest kbId backendUrl)] /\
  error (fst (handleSubmit_start kbId backendUrl st)) = None /\
  submitDisabled (fst (handleSubmit_start kbId backendUrl st)) = true.
Proof.
  intros Hkb Hdis. unfold submitDisabled in Hdis.
  repeat (apply orb_false_elim in Hdis; destruct Hdis as [Hdis ?]).
  unfold handleSubmit_start. rewrite Hkb.
  repeat match goal with H : _ = false |- _ => rewrite H; clear H end.
  cbn. auto.
Qed.

Lemma accepted_try res :
  accepted res -> exists data, handleSubmit_try res = Return data /\ data <> JNull.
Proof.
  intros (response & data & -> & Hok & Hjson & Hnn).
  exists data. unfold handleSubmit_try. rewrite Hjson. unfold bind.
  rewrite Hok. auto.
Qed.

Lemma get_defined data k : data <> JNull -> exists v, get (Some data) k = Return v.
Proof. destruct data; cbn; eauto. contradiction. Qed.

(** X3.  An accepted scrape request empties the form, sets the page count
    back to 1 and turns polling on; the polling effect of that render
    issues the first status request, and the submit button stays
    disabled. *)
Theorem accepted_submit_starts_polling res st :
  accepted res ->
  let st' := handleSubmit_finish res st in
  url st' = "" /\ maxPages st' = one /\ isSubmitting st' = false /\
  isPolling st' = true /\ successMessage st' <> None /\
  fst (effect [] st') = [Issued (statusRequest kbId backendUrl)] /\
  submitDisabled st' = true.
Proof.
  intros Hacc. destruct (accepted_try res Hacc) as (data & Htry & Hnn).
  destruct (get_defined data "message" Hnn) as [m Hm].
  destruct (get_defined data "submitted_url" Hnn) as [u Hu].
  cbv zeta. unfold handleSubmit_finish. rewrite Htry. unfold bind.
  rewrite Hm, Hu.
  repeat match goal with |- _ /\ _ => split end; try reflexivity.
  discriminate.
Qed.

Lemma try_cases res :
  accepted res \/ (exists e, handleSubmit_try res = Throw e)
  \/ handleSubmit_try res = Return JNull.
Proof.
  destruct res as [e|response]; [right; left; cbn; eauto|].
  unfold handleSubmit_try.
  destruct (json response) as [data|e] eqn:Hjson; [|right; left; cbn; eauto].
  unfold bind at 1. destruct (ok response) eqn:Hok; cbn [negb].
  - destruct data; try (left; exists response; eexists; repeat split;
      [exact Hok | exact Hjson | discriminate]).
    right; right; reflexivity.
  - right; left. unfold message_or_detail, bind.
    repeat match goal with
           | |- context [match ?x with _ => _ end] => destruct x eqn:?
           end; eauto.
Qed.

(** X4.  A scrape request that is not accepted (rejected, not ok, a body
    that does not parse, or the body [null]) shows an error, releases the
    submitting flag and leaves the url, the page count and the polling
    flag as they were. *)
Theorem refused_submit_keeps_form res st :
  ~ accepted res ->
  let st' := handleSubmit_finish res st in
  url st' = url st /\ maxPages st' = maxPages st /\
  isPolling st' = isPolling st /\ isSubmitting st' = false /\
  successMessage st' = successMessage st /\
  exists msg, error st' = Some msg /\ msg <> "".
Proof.
  intros Hacc. cbv zeta. unfold handleSubmit_finish.
  destruct (try_cases res) as [H|[[e He]|Hnull]]; [contradiction| |].
  - rewrite He. cbn. repeat match goal with |- _ /\ _ => split end; try reflexivity.
    eexists; split; [reflexivity|].
    unfold str_or. destruct (message e); cbn; discriminate.
  - rewrite Hnull. cbn. repeat match goal with |- _ /\ _ => split end; try reflexivity.
    eexists; split; [reflexivity|].
    unfold str_or. destruct (type_error_message "message"); cbn; discriminate.
Qed.

End Facts.

Lemma polling_ends_at_first_other_answer_witness :
  requestsIssued
    (fst (pollingEffect (P:=examplePlatform) "kb1" Sample.backendUrl
            ([Sample.processing] ++ Sample.completed :: [Sample.processing])
            (setIsPolling true UrlScraper.initial))) = 2.
Proof.
  apply (polling_ends_at_first_other_answer (P:=examplePlatform) "kb1" Sample.backendUrl
           [Sample.processing] Sample.completed [Sample.processing]).
  - reflexivity.
  - repeat constructor.
    exists (Sample.jsonResponse 200 (JObj [("status", JStr "processing")])),
           (JObj [("status", JStr "processing")]).
    repeat split; reflexivity.
  - intros (response & data & Hres & _ & Hjson & Hget).
    injection Hres as <-. cbn in Hjson. injection Hjson as <-. discriminate Hget.
Defined.

Lemma unknown_status_stops_silently_witness :
  fetchScrapeStatus_finish (P:=examplePlatform)
    (Resolved (Sample.jsonResponse 200 (JObj [("status", JStr "queued")])))
    (setIsPolling true UrlScraper.initial)
  = (setIsPolling false
       (setScrapeStatus (Some (JObj [("status", JStr "queued")]))
          (setIsPolling true UrlScraper.initial)), [], false).
Proof.
  apply (unknown_status_stops_silently (P:=examplePlatform)
           (Sample.jsonResponse 200 (JObj [("status", JStr "queued")]))
           (JObj [("status", JStr "queued")]) (Some (JStr "queued")));
    reflexivity.
Defined.

Lemma enabled_submit_sends_witness :
  snd (handleSubmit_start (P:=examplePlatform) "kb1" Sample.backendUrl
         (setUrl "http://example.com" UrlScraper.initial))
  = [Fetch (scrapeRequest "kb1" Sample.backendUrl)].
Proof.
  apply (enabled_submit_sends (P:=examplePlatform) "kb1" Sample.backendUrl
           (setUrl "http://example.com" UrlScraper.initial)); reflexivity.
Defined.

Lemma accepted_submit_starts_polling_witness :
  isPolling
    (handleSubmit_finish (P:=examplePlatform)
       (Resolved (Sample.jsonResponse 200 (JObj [("message", JStr "Scrape started")])))
       (setUrl "http://example.com" UrlScraper.initial)) = true.
Proof.
  apply (accepted_submit_starts_polling (P:=examplePlatform) "kb1" Sample.backendUrl
           (Resolved (Sample.jsonResponse 200 (JObj [("message", JStr "Scrape started")])))
           (setUrl "http://example.com" UrlScraper.initial)).
  exists (Sample.jsonResponse 200 (JObj [("message", JStr "Scrape started")])),
         (JObj [("message", JStr "Scrape started")]).
  split; [reflexivity|]. split; [reflexivity|]. split; [reflexivity|discriminate].
Defined.

Lemma refused_submit_keeps_form_witness :
  url (handleSubmit_finish (P:=examplePlatform) (Resolved Sample.serverError)
         (setUrl "http://example.com" UrlScraper.initial)) = "http://example.com".
Proof.
  apply (refused_submit_keeps_form (P:=examplePlatform) (Resolved Sample.serverError)
           (setUrl "http://example.com" UrlScraper.initial)).
  intros (response & data & Hres & Hok & _). injection Hres as <-. discriminate Hok.
Defined.

End ScrapeOutcomes.

(** ** The chat widget beyond aborts *)

Module ChatMessages.
Import Js ChatInterface.

Local Arguments nat_to_string : simpl never.
Local Arguments trim : simpl never.

Lemma formatted_lookup kb h i :
  Message.id <$> (imap (formatHistoryItem kb) h !! i)
  = (fun _ => "hist-" +:+ kb +:+ "-" +:+ nat_to_string i) <$> (h !! i).
Proof. rewrite list_lookup_imap. destruct (h !! i); reflexivity. Qed.

(** The messages built from a history answer have pairwise distinct
    ids, one message per history item and in the order of the answer. *)
Theorem history_ids_distinct kb (data : HistoryData) :
  NoDup (map Message.id (imap (formatHistoryItem kb) (history data))) /\
  length (imap (formatHistoryItem kb) (history data)) = length (history data) /\
  map Message.text (imap (formatHistoryItem kb) (history data))
    = map HistoryItem.content (history data).
Proof.
  split; [|split].
  - apply NoDup_alt. intros i j x Hi Hj.
    change (map Message.id ?l) with (Message.id <$> l) in Hi, Hj.
    rewrite list_lookup_fmap, formatted_lookup in Hi, Hj.
    destruct (history data !! i); [|discriminate].
    destruct (history data !! j); [|discriminate].
    cbn in Hi, Hj. rewrite <- Hj in Hi. injection Hi as Hi.
    do 3 apply TextFacts.append_inj_l in Hi.
    apply TextFacts.nat_to_string_inj. exact Hi.
  - apply length_imap.
  - apply list_eq. intros i.
    change (map ?f ?l) with (f <$> l).
    rewrite !list_lookup_fmap, list_lookup_imap.
    destruct (history data !! i); reflexivity.
Qed.

(** X5.  Unless it was aborted, a history load never leaves the message
    list empty: it shows the history, or the welcome message when the
    history is empty, or one error message.  The ids of the list it leaves
    are pairwise distinct, and a history that is not empty is shown item by
    item, in the order of the answer. *)
Theorem history_load_shows_something kb now (res : FetchResult HistoryData) st :
  (forall e, loadHistory_try res = Throw e -> isAbortError e = false) ->
  let st' := loadHistory_finish kb now res st in
  messages st' <> [] /\
  NoDup (map Message.id (messages st')) /\
  isHistoryLoading st' = false /\
  (forall data,
      loadHistory_try res = Return data -> history data <> [] ->
      length (messages st') = length (history data) /\
      map Message.text (messages st') = map HistoryItem.content (history data)).
Proof.
  intros Hna. cbv zeta. unfold loadHistory_finish.
  destruct (loadHistory_try res) as [data|e] eqn:Htry.
  - destruct (history_ids_distinct kb data) as (Hnodup & Hlen & Htext).
    destruct (history data) as [|item rest] eqn:Hh.
    + cbn. split; [discriminate|]. split; [apply NoDup_singleton|].
      split; [reflexivity|]. intros data' [= <-]. congruence.
    + cbn [imap]. cbn [messages setIsHistoryLoading setMessages isHistoryLoading].
      split; [discriminate|]. split; [exact Hnodup|]. split; [reflexivity|].
      intros data' [= <-] _. rewrite Hh. split; [exact Hlen|exact Htext].
  - rewrite (Hna e eq_refl). cbn. split; [discriminate|].
    split; [apply NoDup_singleton|]. split; [reflexivity|].
    intros data' Hd. discriminate Hd.
Qed.


Lemma updateMessage_absent id f prev :
  Forall (fun m => Message.id m <> id) prev -> updateMessage id f prev = prev.
Proof.
  unfold updateMessage. induction 1 as [|m prev Hm _ IH]; cbn; [reflexivity|].
  rewrite IH. apply String.eqb_neq in Hm. rewrite Hm. reflexivity.
Qed.

Lemma updateMessage_lookup id f prev i m :
  prev !! i = Some m -> Message.id m <> id -> updateMessage id f prev !! i = Some m.
Proof.
  intros Hi Hm. unfold updateMessage.
  change (map ?g ?l) with (g <$> l). rewrite list_lookup_fmap, Hi. cbn.
  apply String.eqb_neq in Hm. rewrite Hm. reflexivity.
Qed.

Lemma updateMessage_keeps {A} (proj : Message.t -> A) id f prev :
  (forall m, proj (f m) = proj m) ->
  map proj (updateMessage id f prev) = map proj prev.
Proof.
  intros Hf. unfold updateMessage. rewrite map_map. apply map_ext.
  intros m. destruct (String.eqb _ _); auto.
Qed.

Lemma updateMessage_app id f l1 l2 :
  updateMessage id f (l1 ++ l2) = updateMessage id f l1 ++ updateMessage id f l2.
Proof. apply map_app. Qed.

Lemma chat_finish_flags pid (res : FetchResult ChatResponse.t) w :
  userInput (view (handleSendMessage_finish pid res w)) = userInput (view w) /\
  isLoading (view (handleSendMessage_finish pid res w)) = false /\
  abortControllerRef (handleSendMessage_finish pid res w) = None.
Proof.
  unfold handleSendMessage_finish.
  destruct (handleSendMessage_try res) as [data|e];
    [|destruct (isAbortError e)]; cbn; auto.
Qed.

(** X6.  When a chat request settles, with an answer, an error or an
    abort, the message list keeps its length, its ids and its senders;
    every message whose id is not the placeholder's is untouched, and so is
    the input box.  The loading flag is released and the controller cell
    emptied whichever request it was that settled. *)
Theorem chat_settlement_rewrites_placeholder_only pid
  (res : FetchResult ChatResponse.t) w :
  let w' := handleSendMessage_finish pid res w in
  map Message.id (messages (view w')) = map Message.id (messages (view w)) /\
  map Message.sender (messages (view w')) = map Message.sender (messages (view w)) /\
  (forall i m, messages (view w) !! i = Some m -> Message.id m <> pid ->
               messages (view w') !! i = Some m) /\
  userInput (view w') = userInput (view w) /\
  isLoading (view w') = false /\
  abortControllerRef w' = None.
Proof.
  cbv zeta. unfold handleSendMessage_finish.
  destruct (handleSendMessage_try res) as [data|e];
    [|destruct (isAbortError e)]; cbn;
    repeat match goal with |- _ /\ _ => split end;
    auto using updateMessage_lookup;
    apply updateMessage_keeps; reflexivity.
Qed.

Lemma placeholder_is_not_history kb i now' :
  "hist-" +:+ kb +:+ "-" +:+ nat_to_string i <> placeholderId now'.
Proof. unfold placeholderId. intros H. discriminate H. Qed.

Lemma placeholder_is_not_user now now' :
  "user-" +:+ nat_to_string now <> placeholderId now'.
Proof. unfold placeholderId. intros H. discriminate H. Qed.

Lemma formatted_not_placeholder kb now' h :
  Forall (fun m => Message.id m <> placeholderId now') (imap (formatHistoryItem kb) h).
Proof.
  apply Forall_lookup. intros i m Hi.
  rewrite list_lookup_imap in Hi. destruct (h !! i); [|discriminate].
  injection Hi as <-. apply placeholder_is_not_history.
Qed.

(** X7.  A message sent while the history of the agent is still loading
    is lost: when the history arrives it replaces the list, the question
    and its placeholder included, and the answer of the chat request then
    finds no placeholder and changes nothing. *)
Theorem message_sent_during_history_load_is_lost kb url text now now' t
  (response : Response HistoryData) data (answer : FetchResult ChatResponse.t) :
  nonempty kb = true ->
  nonempty (trim text) = true ->
  ok response = true ->
  json response = Return data ->
  history data <> [] ->
  let w1 := step (Send text false now now') (mounted kb url) in
  let w2 := step (HistorySettled 0 kb t (Resolved response)) w1 in
  let w3 := step (ChatSettled 1 (placeholderId now') answer) w2 in
  map Message.text (messages (view w1)) = [trim text; ""] /\
  messages (view w2) = imap (formatHistoryItem kb) (history data) /\
  messages (view w3) = messages (view w2).
Proof.
  intros Hkb Htext Hok Hjson Hne. cbv zeta.
  destruct kb as [|ch kb]; [discriminate|]. clear Hkb.
  unfold mounted, historyEffect. cbn -[handleSendMessage_start loadHistory_finish
    handleSendMessage_finish imap formatHistoryItem].
  unfold handleSendMessage_start. rewrite Htext.
  cbn -[loadHistory_finish handleSendMessage_finish imap formatHistoryItem].
  split; [reflexivity|].
  unfold settled. rewrite !decide_False by apply not_elem_of_empty.
  unfold loadHistory_finish, loadHistory_try. rewrite Hok, Hjson.
  cbn -[handleSendMessage_finish imap formatHistoryItem].
  destruct (imap (formatHistoryItem (String ch kb)) (history data)) as [|m l] eqn:Himap.
  { apply (f_equal length) in Himap. rewrite length_imap in Himap.
    destruct (history data); [contradiction|discriminate]. }
  cbn -[handleSendMessage_finish].
  split; [reflexivity|].
  pose proof (formatted_not_placeholder (String ch kb) now' (history data)) as Hall.
  rewrite Himap in Hall.
  unfold handleSendMessage_finish.
  destruct (handleSendMessage_try answer) as [d|e];
    [|destruct (isAbortError e)]; cbn -[updateMessage]; auto using updateMessage_absent.
Qed.

(** X8.  A message sent with the send button enabled is answered in
    place: the handler issues one POST to the chat endpoint with a signal
    that is not aborted, and when the response is ok the list is the
    previous one followed by the trimmed question and the answer, the
    placeholder having become the answer.  An older message is rewritten
    too only if it carries the same placeholder id. *)
Theorem enabled_send_is_answered w now now' (response : Response ChatResponse.t) data :
  allocated w ->
  sendDisabled (view w) = false ->
  ok response = true ->
  json response = Return data ->
  let sent := handleSendMessage_start (userInput (view w)) (isLoading (view w)) now now' w in
  let w2 := step (ChatSettled (nextController w) (placeholderId now') (Resolved response))
                 (fst sent) in
  (exists aborts,
      snd sent = aborts ++
        [Fetch {| method := POST; target := chatUrl (backendUrl w) (kbId w);
                  body := JsonBody; signal := Some (nextController w) |}] /\
      forall eff, In eff aborts -> exists c, eff = AbortCall c /\ c <> nextController w) /\
  sendDisabled (view (fst sent)) = true /\
  messages (view w2)
    = updateMessage (placeholderId now') (answered data) (messages (view w))
      ++ [ {| Message.id := "user-" +:+ nat_to_string now; Message.sender := user;
              Message.text := trim (userInput (view w)); Message.isLoading := None;
              Message.messageType := mt_user |};
           {| Message.id := placeholderId now'; Message.sender := ai;
              Message.text := str_or (ChatResponse.content data) "No answer provided";
              Message.isLoading := Some false;
              Message.messageType :=
                match ChatResponse.type data with
                | Some r_handoff => mt_handoff
                | Some r_answer => mt_answer
                | None => mt_ai
                end |} ] /\
  userInput (view w2) = "" /\ isLoading (view w2) = false.
Proof.
  intros (Ha & Hh & Hr) Hdis Hok Hjson. cbv zeta.
  unfold sendDisabled in Hdis.
  apply orb_false_elim in Hdis as [Hdis Hclr].
  apply orb_false_elim in Hdis as [Hload Htrim].
  apply negb_false_iff in Htrim.
  unfold handleSendMessage_start. rewrite Htrim, Hload. cbn [negb orb].
  destruct w as [k u v r h a n].
  cbn -[updateMessage nat_to_string trim placeholderId handleSendMessage_finish
        settled chatUrl abortOngoing] in *.
  assert (Hfresh : forall c0, n ∉ ({[c0]} ∪ a) \/ ~ c0 < n).
  { intros c0. destruct (decide (c0 < n)) as [Hlt|]; [left|right; assumption].
    intros Hin. apply elem_of_union in Hin as [Hin|Hin].
    - apply elem_of_singleton in Hin. lia.
    - apply Ha in Hin. lia. }
  assert (Hn : n ∉ a) by (intros Hin; apply Ha in Hin; lia).
  assert (Hanswer : forall a' r',
    n ∉ a' ->
    messages (view
      (handleSendMessage_finish (placeholderId now')
         (settled
            {| kbId := k; backendUrl := u;
               view := setIsLoading true (setUserInput ""
                 (setMessages (messages v ++
                    [ {| Message.id := "user-" +:+ nat_to_string now; Message.sender := user;
                         Message.text := trim (userInput v); Message.isLoading := None;
                         Message.messageType := mt_user |};
                      {| Message.id := placeholderId now'; Message.sender := ai;
                         Message.text := ""; Message.isLoading := Some true;
                         Message.messageType := mt_ai |} ]) v));
               abortControllerRef := r'; historyAbortController := h;
               aborted := a'; nextController := S n |} n (Resolved response))
         {| kbId := k; backendUrl := u;
            view := setIsLoading true (setUserInput ""
              (setMessages (messages v ++
                 [ {| Message.id := "user-" +:+ nat_to_string now; Message.sender := user;
                      Message.text := trim (userInput v); Message.isLoading := None;
                      Message.messageType := mt_user |};
                   {| Message.id := placeholderId now'; Message.sender := ai;
                      Message.text := ""; Message.isLoading := Some true;
                      Message.messageType := mt_ai |} ]) v));
            abortControllerRef := r'; historyAbortController := h;
            aborted := a'; nextController := S n |}))
    = updateMessage (placeholderId now') (answered data) (messages v)
      ++ [ {| Message.id := "user-" +:+ nat_to_string now; Message.sender := user;
              Message.text := trim (userInput v); Message.isLoading := None;
              Message.messageType := mt_user |};
           {| Message.id := placeholderId now'; Message.sender := ai;
              Message.text := str_or (ChatResponse.content data) "No answer provided";
              Message.isLoading := Some false;
              Message.messageType :=
                match ChatResponse.type data with
                | Some r_handoff => mt_handoff
                | Some r_answer => mt_answer
                | None => mt_ai
                end |} ]).
  { intros a' r' Hf. unfold settled. cbn [aborted]. rewrite decide_False by exact Hf.
    unfold handleSendMessage_finish, handleSendMessage_try. rewrite Hok, Hjson.
    cbn [negb withView setRef view messages setIsLoading setUserInput setMessages].
    rewrite updateMessage_app. f_equal. unfold updateMessage. cbn [map Message.id].
    rewrite (proj2 (String.eqb_neq _ _) (placeholder_is_not_user now now')).
    rewrite String.eqb_refl. reflexivity. }
  unfold abortOngoing. destruct r as [c0|];
    cbn -[updateMessage nat_to_string trim placeholderId handleSendMessage_finish settled chatUrl].
  - specialize (Hr c0 eq_refl). destruct (Hfresh c0) as [Hf|Hf]; [|contradiction].
    split; [|split; [|split]].
    + exists [AbortCall c0]. split; [reflexivity|].
      intros eff [<-|[]]. exists c0. split; [reflexivity|lia].
    + reflexivity.
    + apply Hanswer, Hf.
    + split; [rewrite (proj1 (chat_finish_flags _ _ _))|apply chat_finish_flags];
        reflexivity.
  - split; [|split; [|split]].
    + exists []. split; [reflexivity|]. intros eff [].
    + reflexivity.
    + apply Hanswer, Hn.
    + split; [rewrite (proj1 (chat_finish_flags _ _ _))|apply chat_finish_flags];
        reflexivity.
Qed.

Lemma history_load_shows_something_witness :
  messages
    (loadHistory_finish "kb1" 5
       (Resolved {| status := 200; text := Return ""; json := Return {| history := [] |} |})
       initial) <> [].
Proof.
  apply (history_load_shows_something "kb1" 5
           (Resolved {| status := 200; text := Return "";
                        json := Return {| history := [] |} |}) initial).
  intros e H. discriminate H.
Defined.

Lemma chat_settlement_rewrites_placeholder_only_witness :
  messages
    (view (handleSendMessage_finish (placeholderId 7)
             (Rejected (mkError "TypeError" "Failed to fetch")) Sample.chatting)) !! 0
  = Some (welcomeMessage 1000).
Proof.
  apply (proj1 (proj2 (proj2
           (chat_settlement_rewrites_placeholder_only (placeholderId 7)
              (Rejected (mkError "TypeError" "Failed to fetch")) Sample.chatting)))
           0 (welcomeMessage 1000)).
  - reflexivity.
  - intros H. vm_compute in H. discriminate H.
Defined.

Lemma message_sent_during_history_load_is_lost_witness :
  messages
    (view (step (ChatSettled 1 (placeholderId 11)
                   (Resolved {| status := 200; text := Return "";
                                json := Return {| ChatResponse.type := Some r_answer;
                                                  ChatResponse.content := "42" |} |}))
             (step (HistorySettled 0 "kb1" 12
                      (Resolved {| status := 200; text := Return "";
                                   json := Return {| history :=
                                     [ {| HistoryItem.type := h_human;
                                          HistoryItem.content := "earlier" |} ] |} |}))
                (step (Send "hi" false 10 11) (mounted "kb1" Sample.backendUrl)))))
  = messages
      (view (step (HistorySettled 0 "kb1" 12
                     (Resolved {| status := 200; text := Return "";
                                  json := Return {| history :=
                                    [ {| HistoryItem.type := h_human;
                                         HistoryItem.content := "earlier" |} ] |} |}))
               (step (Send "hi" false 10 11) (mounted "kb1" Sample.backendUrl)))).
Proof.
  apply (message_sent_during_history_load_is_lost "kb1" Sample.backendUrl "hi" 10 11 12
           {| status := 200; text := Return "";
              json := Return {| history :=
                [ {| HistoryItem.type := h_human; HistoryItem.content := "earlier" |} ] |} |}
           {| history := [ {| HistoryItem.type := h_human;
                              HistoryItem.content := "earlier" |} ] |}).
  - reflexivity.
  - reflexivity.
  - reflexivity.
  - reflexivity.
  - discriminate.
Defined.

Lemma enabled_send_is_answered_witness :
  userInput
    (view (step (ChatSettled 1 (placeholderId 11)
                   (Resolved {| status := 200; text := Return "";
                                json := Return {| ChatResponse.type := None;
                                                  ChatResponse.content := "42" |} |}))
             (fst (handleSendMessage_start "hi" false 10 11
                     (withView (setUserInput "hi") (mounted "kb1" Sample.backendUrl))))))
  = "".
Proof.
  apply (enabled_send_is_answered
           (withView (setUserInput "hi") (mounted "kb1" Sample.backendUrl)) 10 11
           {| status := 200; text := Return "";
              json := Return {| ChatResponse.type := None; ChatResponse.content := "42" |} |}
           {| ChatResponse.type := None; ChatResponse.content := "42" |}).
  - unfold allocated. cbn. split; [|split]; [|lia|].
    + intros c Hc. apply not_elem_of_empty in Hc. contradiction.
    + intros c Hc. discriminate Hc.
  - reflexivity.
  - reflexivity.
  - reflexivity.
Defined.

End ChatMessages.

Module ChatControls.
Import Js ChatInterface.

Local Arguments nat_to_string : simpl never.
Local Arguments trim : simpl never.

Lemma findIndex_none {A} (p : A -> bool) l :
  Forall (fun x => p x = false) l -> findIndex p l = None.
Proof. induction 1 as [|x l Hx _ IH]; cbn; [reflexivity|]. rewrite Hx, IH. reflexivity. Qed.

Lemma findIndex_first {A} (p : A -> bool) l1 m l2 :
  Forall (fun x => p x = false) l1 -> p m = true ->
  findIndex p (l1 ++ m :: l2) = Some (length l1).
Proof.
  intros Hl1 Hm. induction Hl1 as [|x l1 Hx _ IH]; cbn.
  - rewrite Hm. reflexivity.
  - rewrite Hx, IH. reflexivity.
Qed.

(** X9.  Regenerate does nothing while a request is loading or when the
    list holds no user message.  Otherwise it puts the text of the last
    user message into the input box and schedules a send; that send is the
    handler of the render in which the button was clicked, so it reads the
    input box as it was before: with a blank box nothing is sent. *)
Theorem regenerate_sends_stale_input st :
  (isLoading st = true \/ Forall (fun m => isUserMessage m = false) (messages st) ->
   handleRegenerateResponse st = (st, [])) /\
  (forall pre m post,
      isLoading st = false ->
      messages st = pre ++ m :: post ->
      isUserMessage m = true ->
      Forall (fun x => isUserMessage x = false) post ->
      handleRegenerateResponse st
        = (setUserInput (Message.text m) st, [SendLater (userInput st) false]) /\
      (nonempty (trim (userInput st)) = false ->
       forall now now' w,
         handleSendMessage_start (userInput st) false now now' w = (w, []))).
Proof.
  split.
  - intros [Hload|Hnone]; unfold handleRegenerateResponse.
    + rewrite Hload. reflexivity.
    + destruct (isLoading st); [reflexivity|].
      rewrite findIndex_none; [reflexivity|]. apply Forall_rev, Hnone.
  - intros pre m post Hload Hmsgs Hm Hpost. split.
    + unfold handleRegenerateResponse. rewrite Hload, Hmsgs.
      rewrite rev_app_distr. cbn [rev]. rewrite <- app_assoc. cbn [app].
      rewrite findIndex_first by (try apply Forall_rev; assumption).
      rewrite length_rev, length_app. cbn [length].
      replace (length pre + S (length post) - 1 - length post) with (length pre) by lia.
      rewrite list_lookup_middle by reflexivity. reflexivity.
    + intros Hblank now now' w. unfold handleSendMessage_start.
      rewrite Hblank. reflexivity.
Qed.

(** X10.  The loading flag of the history is shared by overlapping loads:
    after an agent change the previous load, aborted, still runs its
    [finally] and turns the flag off although the load for the new agent
    is in flight and not aborted; the clear-history button is then enabled
    over an empty list. *)
Theorem aborted_history_load_releases_flag kb url w now
  (res : FetchResult HistoryData) :
  allocated w ->
  nonempty kb = true ->
  let w1 := fst (propsChanged kb url w) in
  let w2 := step (HistorySettled (historyAbortController w) (kbId w) now res) w1 in
  isHistoryLoading (view w1) = true /\
  isHistoryLoading (view w2) = false /\
  messages (view w2) = [] /\
  (historyAbortController w2 ∉ aborted w2) /\
  clearDisabled kb (view w2) = isClearingHistory (view w).
Proof.
  intros (Ha & Hh & Hr) Hkb. cbv zeta.
  destruct w as [k u v r h a n]; destruct kb as [|ch kb]; [discriminate|].
  unfold propsChanged, historyCleanup, historyEffect, abortOngoing. cbn in Ha, Hh, Hr.
  destruct r as [c0|]; cbn -[loadHistory_finish settled];
    (split; [reflexivity|]);
    unfold settled; cbn [aborted];
    (rewrite decide_True by
       (repeat first [apply elem_of_union_l, elem_of_singleton; reflexivity
                     | apply elem_of_union_r]));
    cbn; (split; [reflexivity|]); (split; [reflexivity|]);
    (split; [|unfold clearDisabled; cbn; destruct (isClearingHistory v); reflexivity]);
    intros Hin; repeat (apply elem_of_union in Hin as [Hin|Hin]);
    try (apply elem_of_singleton in Hin); try (apply Ha in Hin);
    try (specialize (Hr _ eq_refl)); lia.
Qed.

Lemma chat_finish_history pid (res : FetchResult ChatResponse.t) w :
  historyAbortController (handleSendMessage_finish pid res w) = historyAbortController w.
Proof.
  unfold handleSendMessage_finish.
  destruct (handleSendMessage_try res) as [d|e];
    [|destruct (negb (isAbortError e))]; reflexivity.
Qed.

Lemma no_abort_when_cell_empty kb url w c :
  abortControllerRef w = None ->
  historyAbortController w <> c ->
  ~ In (AbortCall c) (snd (propsChanged kb url w)).
Proof.
  intros Hcell Hhist. destruct w as [k u v r h s n]. cbn in Hcell, Hhist. subst r.
  unfold propsChanged, historyCleanup, historyEffect, abortOngoing. cbn.
  destruct (negb (nonempty kb)); cbn; intros [Hin|Hin]; try congruence;
    try contradiction.
  destruct Hin as [Hin|[]]. discriminate.
Qed.

Lemma regenerate_last st pre m post :
  isLoading st = false ->
  messages st = pre ++ m :: post ->
  isUserMessage m = true ->
  Forall (fun x => isUserMessage x = false) post ->
  handleRegenerateResponse st
    = (setUserInput (Message.text m) st, [SendLater (userInput st) false]).
Proof.
  intros Hload Hmsgs Hm Hpost. unfold handleRegenerateResponse. rewrite Hload, Hmsgs.
  rewrite rev_app_distr. cbn [rev]. rewrite <- app_assoc. cbn [app].
  rewrite findIndex_first by (try apply Forall_rev; assumption).
  rewrite length_rev, length_app. cbn [length].
  replace (length pre + S (length post) - 1 - length post) with (length pre) by lia.
  rewrite list_lookup_middle by reflexivity. reflexivity.
Qed.

Lemma send_passes u now now' w :
  nonempty (trim u) = true ->
  handleSendMessage_start u false now now' w
  = (let w1 := fst (abortOngoing w) in
     {| kbId := kbId w1; backendUrl := backendUrl w1;
        view := setIsLoading true (setUserInput ""
                  (setMessages
                     (messages (view w1) ++
                      [ {| Message.id := "user-" +:+ nat_to_string now;
                           Message.sender := user; Message.text := trim u;
                           Message.isLoading := None; Message.messageType := mt_user |};
                        {| Message.id := placeholderId now'; Message.sender := ai;
                           Message.text := ""; Message.isLoading := Some true;
                           Message.messageType := mt_ai |} ]) (view w1)));
        abortControllerRef := Some (nextController w1);
        historyAbortController := historyAbortController w1;
        aborted := aborted w1; nextController := S (nextController w1) |},
     snd (abortOngoing w) ++
     [Fetch {| method := POST; target := chatUrl (backendUrl w) (kbId w);
               body := JsonBody; signal := Some (nextController (fst (abortOngoing w))) |}]).
Proof.
  intros Hu. unfold handleSendMessage_start. rewrite Hu. cbn [negb orb].
  destruct (abortOngoing w) as [w1 aborts]. reflexivity.
Qed.

(** X11.  Regenerate, clicked while the input box holds an unsent text
    and the list has a user message, sends that unsent text and not the
    last question.  The click puts the last question into the box and sets
    a timer; the timer runs the send handler of the render of the click,
    which closed over the unsent text.  So the list grows by a user message
    with the trimmed unsent text and a loading placeholder, one chat request
    goes out with a new signal, the box is emptied (the question put there
    by the click is dropped) and [isLoading] is on. *)
Theorem regenerate_sends_unsent_text w pre m post now now' :
  isLoading (view w) = false ->
  abortControllerRef w = None ->
  messages (view w) = pre ++ m :: post ->
  isUserMessage m = true ->
  Forall (fun x => isUserMessage x = false) post ->
  nonempty (trim (userInput (view w))) = true ->
  let clicked := handleRegenerateResponse (view w) in
  let w1 := withView (fun _ => fst clicked) w in
  let fired :=
    handleSendMessage_start (userInput (view w)) (isLoading (view w)) now now' w1 in
  snd clicked = [SendLater (userInput (view w)) (isLoading (view w))] /\
  userInput (view w1) = Message.text m /\
  messages (view w1) = messages (view w) /\
  snd fired = [Fetch {| method := POST; target := chatUrl (backendUrl w) (kbId w);
                        body := JsonBody; signal := Some (nextController w) |}] /\
  messages (view (fst fired))
    = messages (view w) ++
      [ {| Message.id := "user-" +:+ nat_to_string now; Message.sender := user;
           Message.text := trim (userInput (view w)); Message.isLoading := None;
           Message.messageType := mt_user |};
        {| Message.id := placeholderId now'; Message.sender := ai; Message.text := "";
           Message.isLoading := Some true; Message.messageType := mt_ai |} ] /\
  userInput (view (fst fired)) = "" /\
  isLoading (view (fst fired)) = true /\
  abortControllerRef (fst fired) = Some (nextController w).
Proof.
  intros Hload Hcell Hmsgs Hm Hpost Hbox. cbv zeta.
  rewrite (regenerate_last (view w) pre m post Hload Hmsgs Hm Hpost).
  destruct w as [k u v r h s n]. cbn in Hload, Hcell, Hmsgs, Hbox.
  subst r. unfold withView.
  cbn [fst snd view kbId backendUrl abortControllerRef historyAbortController
       aborted nextController userInput setUserInput isLoading messages].
  rewrite !Hload.
  rewrite (send_passes (userInput v) now now' _ Hbox).
  cbn [fst snd abortOngoing abortControllerRef kbId backendUrl view
       historyAbortController aborted nextController app].
  repeat (split; [reflexivity|]). reflexivity.
Qed.

Lemma send_signal_fresh u l now now' w r :
  allocated w ->
  In (Fetch r) (snd (handleSendMessage_start u l now now' w)) ->
  exists c, signal r = Some c /\
            (c ∉ aborted (fst (handleSendMessage_start u l now now' w))) /\
            abortControllerRef (fst (handleSendMessage_start u l now now' w)) = Some c.
Proof.
  intros (Ha & Hh & Hr). unfold handleSendMessage_start.
  destruct (_ || _); [intros []|].
  destruct w as [k b v ref h s n]. unfold abortOngoing. cbn in *.
  destruct ref as [c0|]; cbn; intros Hin.
  - destruct Hin as [Hin|[Hin|[]]]; [discriminate|]. injection Hin as <-.
    exists n. cbn. repeat split.
    specialize (Hr c0 eq_refl). intros Hin. apply elem_of_union in Hin as [Hin|Hin].
    + apply elem_of_singleton in Hin. lia.
    + apply Ha in Hin. lia.
  - destruct Hin as [Hin|[]]. injection Hin as <-.
    exists n. cbn. repeat split. intros Hin. apply Ha in Hin. lia.
Qed.

Lemma history_signal_fresh kb url w r :
  allocated w ->
  In (Fetch r) (snd (propsChanged kb url w)) ->
  exists c, signal r = Some c /\
            (c ∉ aborted (fst (propsChanged kb url w))) /\
            historyAbortController (fst (propsChanged kb url w)) = c.
Proof.
  intros (Ha & Hh & Hr).
  destruct w as [k b v ref h s n]. cbn in *.
  unfold propsChanged, historyCleanup, historyEffect, abortOngoing. cbn.
  destruct (negb (nonempty kb)); cbn.
  { intros [Hin|[]]. discriminate. }
  destruct ref as [c0|]; cbn; intros Hin.
  - destruct Hin as [Hin|[Hin|[Hin|[]]]]; try discriminate. injection Hin as <-.
    exists n. cbn. repeat split.
    specialize (Hr c0 eq_refl). intros Hin.
    repeat (apply elem_of_union in Hin as [Hin|Hin]);
      try (apply elem_of_singleton in Hin); try (apply Ha in Hin); lia.
  - destruct Hin as [Hin|[Hin|[]]]; try discriminate. injection Hin as <-.
    exists n. cbn. repeat split. intros Hin.
    repeat (apply elem_of_union in Hin as [Hin|Hin]);
      try (apply elem_of_singleton in Hin); try (apply Ha in Hin); lia.
Qed.

(** X12.  Whatever happened since the component was mounted, a request
    it issues carries the signal of a controller created for it and not
    aborted: the chat POST that of the controller stored in the cell, the
    history GET that of the controller of the live effect. *)
Theorem requests_carry_live_signals kb0 url0 evs :
  let w := run evs (mounted kb0 url0) in
  (forall u l now now' r,
      In (Fetch r) (snd (handleSendMessage_start u l now now' w)) ->
      exists c, signal r = Some c /\
                (c ∉ aborted (fst (handleSendMessage_start u l now now' w))) /\
                abortControllerRef (fst (handleSendMessage_start u l now now' w)) = Some c) /\
  (forall kb url r,
      In (Fetch r) (snd (propsChanged kb url w)) ->
      exists c, signal r = Some c /\
                (c ∉ aborted (fst (propsChanged kb url w))) /\
                historyAbortController (fst (propsChanged kb url w)) = c).
Proof.
  cbv zeta.
  pose proof (ChatRequests.run_allocated evs _ (ChatRequests.mounted_allocated kb0 url0)) as Hw.
  split; intros.
  - apply send_signal_fresh; assumption.
  - apply history_signal_fresh; assumption.
Qed.

(** X13.  One trailing slash of the backend URL is dropped before the
    path is appended, so a base with or without it gives the same history
    and chat endpoints; only one slash is dropped. *)
Theorem trailing_slash_is_dropped u kb :
  historyUrl (u +:+ "/") kb = u +:+ "/agents/" +:+ kb +:+ "/history" /\
  chatUrl (u +:+ "/") kb = u +:+ "/agents/" +:+ kb +:+ "/chat" /\
  cleanBackendUrl ((u +:+ "/") +:+ "/") = u +:+ "/" /\
  (endsWith u "/" = false ->
   historyUrl (u +:+ "/") kb = historyUrl u kb /\ chatUrl (u +:+ "/") kb = chatUrl u kb).
Proof.
  assert (Hclean : forall s, cleanBackendUrl (s +:+ "/") = s).
  { intros s. unfold cleanBackendUrl.
    rewrite TextFacts.endsWith_slash_append. apply TextFacts.dropLast_append. }
  unfold historyUrl, chatUrl.
  split; [|split; [|split]].
  - rewrite Hclean. reflexivity.
  - rewrite Hclean. reflexivity.
  - apply Hclean.
  - intros Hno. rewrite Hclean. unfold cleanBackendUrl. rewrite Hno. auto.
Qed.

(** With the clear-history button enabled, a confirmed click issues
    one DELETE of the history and disables both the clear and the send
    button until it settles; a declined confirmation issues nothing and
    changes nothing but the clear-history error, which it resets. *)
Theorem enabled_clear_button kb url st :
  clearDisabled kb st = false ->
  (snd (handleClearHistory_start kb url true st)
     = [Fetch (request DELETE (historyUrl url kb) NoBody)] /\
   clearDisabled kb (fst (handleClearHistory_start kb url true st)) = true /\
   sendDisabled (fst (handleClearHistory_start kb url true st)) = true /\
   messages (fst (handleClearHistory_start kb url true st)) = messages st) /\
  handleClearHistory_start kb url false st = (setClearHistoryError None st, []).
Proof.
  unfold clearDisabled. intros Hdis.
  apply orb_false_elim in Hdis as [Hdis Hhist].
  apply orb_false_elim in Hdis as [Hkb Hclr].
  unfold handleClearHistory_start. rewrite Hkb, Hclr. cbn -[historyUrl].
  split; [split; [reflexivity|split; [|split]]|].
  - reflexivity.
  - unfold sendDisabled. cbn. apply orb_true_r.
  - reflexivity.
  - destruct st; cbn in *. subst. reflexivity.
Qed.

Lemma regenerate_sends_stale_input_witness :
  handleRegenerateResponse
    (setMessages
       [ {| Message.id := "user-1"; Message.sender := user; Message.text := "Hi";
            Message.isLoading := None; Message.messageType := mt_user |};
         welcomeMessage 2 ] initial)
  = (setUserInput "Hi"
       (setMessages
          [ {| Message.id := "user-1"; Message.sender := user; Message.text := "Hi";
               Message.isLoading := None; Message.messageType := mt_user |};
            welcomeMessage 2 ] initial),
     [SendLater "" false]).
Proof.
  refine (proj1 (proj2 (regenerate_sends_stale_input _) []
           {| Message.id := "user-1"; Message.sender := user; Message.text := "Hi";
              Message.isLoading := None; Message.messageType := mt_user |}
           [welcomeMessage 2] _ _ _ _)).
  - reflexivity.
  - reflexivity.
  - reflexivity.
  - repeat constructor.
Defined.

Lemma requests_carry_live_signals_witness :
  exists c,
    signal {| method := POST; target := chatUrl Sample.backendUrl "kb1";
              body := JsonBody; signal := Some 1 |} = Some c /\
    (c ∉ aborted (fst (handleSendMessage_start "hi" false 1 2
                         (run [] (mounted "kb1" Sample.backendUrl))))) /\
    abortControllerRef (fst (handleSendMessage_start "hi" false 1 2
                               (run [] (mounted "kb1" Sample.backendUrl)))) = Some c.
Proof.
  apply (proj1 (requests_carry_live_signals "kb1" Sample.backendUrl [])
           "hi" false 1 2
           {| method := POST; target := chatUrl Sample.backendUrl "kb1";
              body := JsonBody; signal := Some 1 |}).
  left. reflexivity.
Defined.

Lemma trailing_slash_is_dropped_witness :
  historyUrl ("http://localhost:8000" +:+ "/") "kb1" = historyUrl "http://localhost:8000" "kb1".
Proof.
  apply (proj2 (proj2 (proj2 (trailing_slash_is_dropped "http://localhost:8000" "kb1")))).
  reflexivity.
Defined.

Lemma aborted_history_load_releases_flag_witness :
  isHistoryLoading
    (view (step (HistorySettled 0 "kb1" 5 Sample.abortedFetch)
             (fst (propsChanged "kb2" Sample.backendUrl Sample.chatting)))) = false.
Proof.
  apply (aborted_history_load_releases_flag "kb2" Sample.backendUrl Sample.chatting 5
           Sample.abortedFetch).
  - unfold allocated. cbn. split; [|split]; [|lia|].
    + intros c Hc. apply not_elem_of_empty in Hc. contradiction.
    + intros c [= <-]. lia.
  - reflexivity.
Defined.

Lemma regenerate_sends_unsent_text_witness :
  map Message.text
    (messages (view (fst (handleSendMessage_start "draft" false 20 21
       (withView (fun _ => fst (handleRegenerateResponse (view Sample.drafting)))
          Sample.drafting)))))
  = ["hi"; "42"; "draft"; ""].
Proof.
  pose proof (regenerate_sends_unsent_text Sample.drafting []
           {| Message.id := "user-10"; Message.sender := user; Message.text := "hi";
              Message.isLoading := None; Message.messageType := mt_user |}
           [ {| Message.id := placeholderId 11; Message.sender := ai; Message.text := "42";
                Message.isLoading := Some false; Message.messageType := mt_answer |} ]
           20 21 eq_refl eq_refl eq_refl eq_refl) as H.
  cbv zeta in H.
  destruct H as (_ & _ & _ & _ & Hmsgs & _); [repeat constructor|reflexivity|].
  change (userInput (view Sample.drafting)) with "draft" in Hmsgs.
  change (isLoading (view Sample.drafting)) with false in Hmsgs.
  rewrite Hmsgs. reflexivity.
Defined.

Lemma enabled_clear_button_witness :
  snd (handleClearHistory_start "kb1" Sample.backendUrl true initial)
  = [Fetch (request DELETE (historyUrl Sample.backendUrl "kb1") NoBody)].
Proof.
  apply (enabled_clear_button "kb1" Sample.backendUrl initial). reflexivity.
Defined.

End ChatControls.

(** ** The JSON widget beyond the button guard *)

Module JsonUploads.
Import Js JSONUpload.

Section Facts.
Context {P : Platform}.
Variables (kbId backendUrl : string).

Local Abbreviation upload := (handleUpload_start kbId backendUrl).
Local Abbreviation settle := (handleUpload_finish kbId backendUrl).
Local Abbreviation refresh := (fetchExistingJson_start kbId backendUrl).
Local Arguments trim : simpl never.

(** X14.  With the Upload button enabled the handler issues exactly the
    POST of the text: the text parses, so the [catch] is not reached
    before the request, the status becomes "uploading" and the button is
    disabled. *)
Theorem enabled_upload_sends st :
  reachable kbId backendUrl st ->
  uploadDisabled st = false ->
  snd (upload st) = [Fetch (request POST (jsonUrl kbId backendUrl) JsonBody)] /\
  uploadStatus (fst (upload st)) = uploading /\
  uploadMessage (fst (upload st)) = None /\
  uploadDisabled (fst (upload st)) = true.
Proof.
  intros Hreach Hdis.
  pose proof (JsonTextarea.reachable_consistent kbId backendUrl st Hreach) as Hcons.
  unfold handleUpload_start. unfold uploadDisabled in Hdis. rewrite Hdis.
  apply orb_false_elim in Hdis as [Hdis Hup].
  apply orb_false_elim in Hdis as [Hvalid Hblank].
  apply negb_false_iff in Hvalid.
  destruct (Hcons Hvalid) as [Hb|[v Hv]]; [congruence|].
  rewrite Hv. cbn. unfold uploadDisabled. cbn. rewrite orb_true_r. auto.
Qed.

(** X15.  An upload started from the idle state always ends idle with a
    message shown, never "uploading", "success" or "error".  On success
    the textarea is emptied and the stored JSON is requested again; on
    failure the text is kept, nothing is requested and the button is
    enabled again. *)
Theorem upload_settles_idle st res :
  nonempty kbId = true ->
  uploadStatus st = idle ->
  uploadDisabled st = false ->
  let st2 := fst (settle idle res (fst (upload st))) in
  let effects := snd (settle idle res (fst (upload st))) in
  uploadStatus st2 = idle /\
  uploadMessage st2 <> None /\
  match handleUpload_try res with
  | Return _ =>
      jsonData st2 = "" /\ isFetchingJson st2 = true /\
      effects = [Fetch (request GET (jsonUrl kbId backendUrl) NoBody)]
  | Throw _ =>
      jsonData st2 = jsonData st /\ effects = [] /\ uploadDisabled st2 = false
  end.
Proof.
  intros Hkb Hidle Hdis. cbv zeta.
  destruct (JsonTextarea.upload_start_text kbId backendUrl st) as [Htext Hvalid].
  unfold uploadDisabled in Hdis.
  apply orb_false_elim in Hdis as [Hdis _].
  apply orb_false_elim in Hdis as [Hv Hblank].
  unfold handleUpload_finish.
  destruct (handleUpload_try res) as [shown|e].
  - unfold fetchExistingJson_start. rewrite Hkb. cbn.
    split; [reflexivity|]. split; [discriminate|]. auto.
  - cbn [fst snd].
    destruct (JsonTextarea.uploadFailed_text idle e (fst (upload st))) as [Ht Hvl].
    assert (Hst : uploadStatus (uploadFailed idle e (fst (upload st))) = idle).
    { unfold uploadFailed. destruct (includes _ _); reflexivity. }
    split; [exact Hst|]. split.
    + unfold uploadFailed. destruct (includes _ _); discriminate.
    + split; [congruence|]. split; [reflexivity|].
      unfold uploadDisabled. rewrite Hst, Ht, Hvl, Htext, Hvalid, Hv, Hblank. reflexivity.
Qed.

(** X16.  Loading the stored JSON replaces the list: an array body
    becomes the list, any other body gives the empty list, and a failure
    empties the list and sets the error.  The fetching flag is released in
    every case, the error is clear exactly after a success, and the
    textarea is not touched. *)
Theorem stored_json_is_replaced res st :
  nonempty kbId = true ->
  let st2 := fetchExistingJson_finish res (fst (refresh st)) in
  snd (refresh st) = [Fetch (request GET (jsonUrl kbId backendUrl) NoBody)] /\
  isFetchingJson (fst (refresh st)) = true /\
  isFetchingJson st2 = false /\
  jsonData st2 = jsonData st /\ uploadStatus st2 = uploadStatus st /\
  match fetchExistingJson_try res with
  | Return (JArr items) => existingJsonContent st2 = items /\ fetchJsonError st2 = None
  | Return _ => existingJsonContent st2 = [] /\ fetchJsonError st2 = None
  | Throw err =>
      existingJsonContent st2 = [] /\
      fetchJsonError st2 = Some ("Failed to fetch existing JSON: " +:+ message err)
  end.
Proof.
  intros Hkb. cbv zeta. unfold fetchExistingJson_start, fetchExistingJson_finish.
  rewrite Hkb. cbn [negb fst snd].
  destruct (fetchExistingJson_try res) as [[]|e]; cbn; auto 10.
Qed.

End Facts.

Lemma enabled_upload_sends_witness :
  snd (handleUpload_start (P:=examplePlatform) "kb1" Sample.backendUrl
         (step (P:=examplePlatform) "kb1" Sample.backendUrl (JsonChange "{}")
            JSONUpload.initial))
  = [Fetch (request POST (jsonUrl "kb1" Sample.backendUrl) JsonBody)].
Proof.
  apply (enabled_upload_sends (P:=examplePlatform) "kb1" Sample.backendUrl
           (step (P:=examplePlatform) "kb1" Sample.backendUrl (JsonChange "{}")
              JSONUpload.initial)).
  - repeat constructor.
  - reflexivity.
Defined.

Lemma upload_settles_idle_witness :
  uploadStatus
    (fst (handleUpload_finish (P:=examplePlatform) "kb1" Sample.backendUrl idle
            Sample.uploaded
            (fst (handleUpload_start (P:=examplePlatform) "kb1" Sample.backendUrl
                    (handleJsonChange (P:=examplePlatform) "{}" JSONUpload.initial)))))
  = idle.
Proof.
  apply (upload_settles_idle (P:=examplePlatform) "kb1" Sample.backendUrl
           (handleJsonChange (P:=examplePlatform) "{}" JSONUpload.initial)
           Sample.uploaded); reflexivity.
Defined.

Lemma stored_json_is_replaced_witness :
  isFetchingJson
    (fetchExistingJson_finish (P:=examplePlatform)
       (Resolved (Sample.jsonResponse 200 (JArr [JNum 1])))
       (fst (fetchExistingJson_start "kb1" Sample.backendUrl JSONUpload.initial)))
  = false.
Proof.
  apply (stored_json_is_replaced (P:=examplePlatform) "kb1" Sample.backendUrl
           (Resolved (Sample.jsonResponse 200 (JArr [JNum 1]))) JSONUpload.initial).
  reflexivity.
Defined.

End JsonUploads.

(** ** Creating, deleting and listing agents *)

Module AgentLifecycle.
Import Js.

Lemma assoc_set_field k k' v fields :
  assoc k (set_field k' v fields)
  = if String.eqb k k' then Some v else assoc k fields.
Proof.
  induction fields as [|[k0 v0] rest IH]; cbn.
  - destruct (String.eqb k k'); reflexivity.
  - destruct (String.eqb k' k0) eqn:Hk0; cbn.
    + apply String.eqb_eq in Hk0. subst k0. destruct (String.eqb k k'); reflexivity.
    + destruct (String.eqb k k0) eqn:Hk.
      * apply String.eqb_eq in Hk. subst k0.
        rewrite String.eqb_sym, Hk0. reflexivity.
      * exact IH.
Qed.

Section Facts.
Context {P : Platform}.
Variable backendUrl : string.

Local Abbreviation create_start := (AgentManager.handleCreateKb_start backendUrl).
Local Abbreviation create_finish := AgentManager.handleCreateKb_finish.
Local Abbreviation delete_finish := AgentManager.handleDeleteKb_finish.
Local Arguments trim : simpl never.
Local Arguments get : simpl never.

(** X17.  The record of a created agent is the response body with its
    [summary] replaced by [message], or by "(Agent created)" when the body
    has no truthy [message]; every other field is passed on as received.
    The main view appends the record and selects its [kb_id], and the
    create form is closed and emptied. *)
Theorem created_agent_is_selected (response : Response Json) fields st appState :
  ok response = true ->
  json response = Return (JObj fields) ->
  exists newKb,
    AgentManager.handleCreateKb_try (Resolved response) = Return newKb /\
    assoc "summary" newKb = Some (or_default (assoc "message" fields) (JStr "(Agent created)")) /\
    (forall k, k <> "summary" -> assoc k newKb = assoc k fields) /\
    create_finish (Resolved response) st
      = (AgentManager.setCreateLoading false
           (AgentManager.setCreatingAgent false (AgentManager.setNewKbName "" st)),
         [AgentManager.onKbCreated newKb]) /\
    App.kbs (App.handleKbCreated newKb appState) = App.kbs appState ++ [newKb] /\
    App.selectedKbId (App.handleKbCreated newKb appState) = assoc "kb_id" fields.
Proof.
  intros Hok Hjson.
  exists (set_field "summary" (or_default (assoc "message" fields) (JStr "(Agent created)"))
            fields).
  assert (Htry : AgentManager.handleCreateKb_try (Resolved response)
                 = Return (set_field "summary"
                             (or_default (assoc "message" fields) (JStr "(Agent created)"))
                             fields)).
  { unfold AgentManager.handleCreateKb_try. rewrite Hok, Hjson. reflexivity. }
  split; [exact Htry|]. split; [|split; [|split; [|split]]].
  - rewrite assoc_set_field. reflexivity.
  - intros k Hk. rewrite assoc_set_field.
    apply String.eqb_neq in Hk. rewrite Hk. reflexivity.
  - unfold AgentManager.handleCreateKb_finish. rewrite Htry. reflexivity.
  - reflexivity.
  - unfold App.handleKbCreated. cbn. rewrite assoc_set_field. reflexivity.
Qed.

(** With the Create Agent button enabled the handler issues the
    POST and the button is disabled until it settles.  When the request
    fails the form stays open with the name as typed, no callback is
    called, and the button is enabled again. *)
Theorem create_form_survives_failure st (res : FetchResult Json) e :
  AgentManager.createDisabled st = false ->
  AgentManager.handleCreateKb_try res = Throw e ->
  let st1 := fst (create_start st) in
  let st2 := fst (create_finish res st1) in
  snd (create_start st) = [AgentManager.Fetch (request POST (backendUrl +:+ "/agents") JsonBody)] /\
  AgentManager.createDisabled st1 = true /\
  snd (create_finish res st1) = [] /\
  AgentManager.newKbName st2 = AgentManager.newKbName st /\
  AgentManager.creatingAgent st2 = AgentManager.creatingAgent st /\
  AgentManager.error st2 = Some (str_or (message e) "Failed to create agent") /\
  AgentManager.createDisabled st2 = false.
Proof.
  intros Hdis Htry. cbv zeta.
  unfold AgentManager.createDisabled in Hdis.
  apply orb_false_elim in Hdis as [Hload Hname].
  unfold AgentManager.handleCreateKb_start, AgentManager.handleCreateKb_finish.
  rewrite Hname, Htry. cbn.
  unfold AgentManager.createDisabled. cbn. rewrite Hname. auto 10.
Qed.


(** X19.  Loading the agent list never changes the selection.  A
    successful answer replaces the list, by the empty list when the body
    has no [kbs]; a failure keeps the previous list and sets the error.  The
    loading flag is released in both cases. *)
Theorem agent_list_load_keeps_selection (res : FetchResult App.AgentList.t) st :
  let st2 := App.fetchKbs_finish res (fst (App.fetchKbs_start backendUrl st)) in
  App.selectedKbId st2 = App.selectedKbId st /\
  App.isLoading st2 = false /\
  match App.fetchKbs_try res with
  | Return data =>
      App.kbs st2 = match App.AgentList.kbs data with Some l => l | None => [] end /\
      App.error st2 = None
  | Throw err =>
      App.kbs st2 = App.kbs st /\
      App.error st2 = Some ("Failed to fetch agents: " +:+ message err)
  end.
Proof.
  cbv zeta. unfold App.fetchKbs_finish, App.fetchKbs_start.
  destruct (App.fetchKbs_try res) as [data|err]; cbn; auto.
Qed.

End Facts.

Lemma created_agent_is_selected_witness :
  exists newKb,
    AgentManager.handleCreateKb_try (P:=examplePlatform)
      (Resolved (Sample.jsonResponse 200 (JObj [("kb_id", JStr "kb2"); ("name", JStr "Desk")])))
      = Return newKb /\
    assoc "summary" newKb = Some (JStr "(Agent created)").
Proof.
  destruct (created_agent_is_selected (P:=examplePlatform)
              (Sample.jsonResponse 200 (JObj [("kb_id", JStr "kb2"); ("name", JStr "Desk")]))
              [("kb_id", JStr "kb2"); ("name", JStr "Desk")]
              AgentManager.initial App.initial eq_refl eq_refl)
    as (newKb & Htry & Hsummary & _).
  exists newKb. split; [exact Htry|exact Hsummary].
Defined.

Lemma create_form_survives_failure_witness :
  AgentManager.newKbName
    (fst (AgentManager.handleCreateKb_finish (P:=examplePlatform)
            (Resolved Sample.serverError)
            (fst (AgentManager.handleCreateKb_start Sample.backendUrl
                    (AgentManager.setNewKbName "Desk" AgentManager.initial)))))
  = "Desk".
Proof.
  apply (create_form_survives_failure (P:=examplePlatform) Sample.backendUrl
           (AgentManager.setNewKbName "Desk" AgentManager.initial)
           (Resolved Sample.serverError)
           (mkError "Error" "database unavailable")); reflexivity.
Defined.


End AgentLifecycle.

(** ** The configuration editor beyond the payload *)

Module ConfigLifecycle.
Import Js AgentConfig.

Lemma differsString_same f : differsString f f = false.
Proof. destruct f; cbn; auto. rewrite String.eqb_refl. reflexivity. Qed.

Lemma differsNumber_same f : f <> Val NaN -> differsNumber f f = false.
Proof.
  destruct f as [| |[q|]]; cbn; auto; [|congruence].
  intros _. rewrite (proj2 (Qeq_bool_iff q q) (Qeq_refl q)). reflexivity.
Qed.

Lemma changes_same c : max_iterations c <> Val NaN -> noKeys (changes c c) = true.
Proof.
  intros Hn. unfold changes, noKeys. cbn.
  rewrite differsString_same, differsNumber_same, !andb_false_r; [reflexivity|].
  destruct (max_iterations c); cbn; congruence.
Qed.

Section Facts.
Context {P : Platform}.
Variables (kbId backendUrl : string).

Local Abbreviation save := (handleSaveChanges_start kbId backendUrl).

Lemma fullConfig_finite data c :
  fullConfig data = Return c -> max_iterations c <> Val NaN.
Proof.
  unfold fullConfig, bind.
  destruct (get (Some data) "system_prompt"); [|discriminate].
  destruct (get (Some data) "max_iterations") as [[[]|]|]; intros [= <-]; discriminate.
Qed.

(** X20.  Right after the configuration was loaded, whatever the answer
    was, Save issues no request: both copies of the configuration are the
    loaded one, or both are empty after a failure, so no change is found. *)
Theorem save_after_load_sends_nothing (res : FetchResult Json) st :
  let st' := fetchConfig_finish res st in
  config st' = initialConfig st' /\
  isLoading st' = false /\
  snd (save st') = [].
Proof.
  cbv zeta. unfold fetchConfig_finish, handleSaveChanges_start.
  destruct (bind (fetchConfig_try res) fullConfig) as [c|err] eqn:Hc; cbn.
  - assert (Hfin : max_iterations c <> Val NaN).
    { unfold bind in Hc. destruct (fetchConfig_try res); [|discriminate].
      eapply fullConfig_finite, Hc. }
    rewrite (changes_same c Hfin).
    destruct (negb (nonempty kbId)); cbn; auto.
  - destruct (negb (nonempty kbId)); cbn; auto.
Qed.

(** X21.  A save that succeeds records the configuration it sent from as
    the saved one and shows the success flag with a 3 s timer, so saving
    again without an edit sends nothing.  A save that fails records
    nothing: the same payload is sent when Save is pressed again. *)
Theorem save_outcomes (res : FetchResult Json) st :
  nonempty kbId = true ->
  max_iterations (config st) <> Val NaN ->
  noKeys (changes (config st) (initialConfig st)) = false ->
  let done := handleSaveChanges_finish (config st) res (fst (save st)) in
  isSaving (fst (save st)) = true /\
  isSaving (fst done) = false /\
  match handleSaveChanges_try res with
  | Return _ =>
      saveSuccess (fst done) = true /\ snd done = [SetTimeout 3000] /\
      error (fst done) = None /\
      snd (save (fst done)) = []
  | Throw err =>
      saveSuccess (fst done) = false /\ snd done = [] /\
      error (fst done) = Some ("Failed to save configuration: " +:+ message err) /\
      snd (save (fst done)) = snd (save st)
  end.
Proof.
  intros Hkb Hfin Hchg. cbv zeta.
  unfold handleSaveChanges_finish, handleSaveChanges_start.
  rewrite Hkb, Hchg. cbn [negb fst snd].
  destruct (handleSaveChanges_try res) as [[]|err]; cbn.
  - rewrite (changes_same _ Hfin). auto 10.
  - rewrite Hchg. auto 10.
Qed.

(** X22.  An iteration count below 1 that differs from the loaded one is
    sent as [null], yet after the save succeeded the count as typed is what
    the editor holds as saved: the next Save sends nothing although the
    backend was given [null]. *)
Theorem low_count_is_sent_as_null (res : FetchResult Json) st q :
  nonempty kbId = true ->
  max_iterations (config st) = Val (Fin q) ->
  ge (Fin q) one = false ->
  differsNumber (Val (Fin q)) (orNull (max_iterations (initialConfig st))) = true ->
  handleSaveChanges_try res = Return tt ->
  let done := handleSaveChanges_finish (config st) res (fst (save st)) in
  (exists payload,
      snd (save st) = [FetchWith (request PUT (configUrl kbId backendUrl) JsonBody) payload] /\
      max_iterations payload = Null) /\
  max_iterations (initialConfig (fst done)) = Val (Fin q) /\
  snd (save (fst done)) = [].
Proof.
  intros Hkb Hcur Hlow Hdiff Htry. cbv zeta.
  assert (Hpay : max_iterations (changes (config st) (initialConfig st)) = Null).
  { unfold changes. cbn. rewrite Hcur. cbn [orNull hasOwnProperty andb].
    rewrite Hdiff, Hlow. reflexivity. }
  assert (Hkeys : noKeys (changes (config st) (initialConfig st)) = false).
  { unfold noKeys. rewrite Hpay. cbn. apply andb_false_r. }
  unfold handleSaveChanges_finish, handleSaveChanges_start.
  rewrite Hkb, Hkeys, Htry. cbn [negb fst snd].
  split; [eexists; split; [reflexivity|exact Hpay]|].
  split; [exact Hcur|]. cbn.
  rewrite changes_same; [reflexivity|]. rewrite Hcur. discriminate.
Qed.

(** X23.  A save answered after the agent was changed marks the form of
    the other agent.  The editor stays mounted when another agent is
    selected, and a save in flight is not cancelled.  When the
    configuration of the new agent has loaded and the save of the previous
    agent then succeeds, the handler records the configuration it closed
    over, the previous agent's, as the saved one: the form shows the new
    agent's configuration with the success flag on, and the next Save
    sends to the new agent the fields in which its configuration differs
    from the previous agent's, although nothing was edited. *)
Theorem late_save_answer_marks_other_agent kbB (resA resB : FetchResult Json) cB st :
  nonempty kbId = true ->
  nonempty kbB = true ->
  isSaving st = false ->
  noKeys (changes (config st) (initialConfig st)) = false ->
  bind (fetchConfig_try resB) fullConfig = Return cB ->
  handleSaveChanges_try resA = Return tt ->
  noKeys (changes cB (config st)) = false ->
  let st1 := fst (save st) in
  let st2 := fst (fetchConfig_start kbB backendUrl st1) in
  let st3 := fetchConfig_finish resB st2 in
  let st4 := fst (handleSaveChanges_finish (config st) resA st3) in
  snd (save st)
    = [FetchWith (request PUT (configUrl kbId backendUrl) JsonBody)
         (changes (config st) (initialConfig st))] /\
  snd (fetchConfig_start kbB backendUrl st1)
    = [Fetch (request GET (configUrl kbB backendUrl) NoBody)] /\
  isSaving st3 = true /\
  config st3 = cB /\
  initialConfig st3 = cB /\
  config st4 = cB /\
  initialConfig st4 = config st /\
  saveSuccess st4 = true /\
  isSaving st4 = false /\
  isLoading st4 = false /\
  snd (handleSaveChanges_start kbB backendUrl st4)
    = [FetchWith (request PUT (configUrl kbB backendUrl) JsonBody)
         (changes cB (config st))].
Proof.
  intros HkbA HkbB Hidle Hkeys Hload Hsaved Hdiff. cbv zeta.
  assert (Hs : save st
               = (setSaveSuccess false (setError None (setIsSaving true st)),
                  [FetchWith (request PUT (configUrl kbId backendUrl) JsonBody)
                     (changes (config st) (initialConfig st))])).
  { unfold handleSaveChanges_start. rewrite HkbA, Hkeys. reflexivity. }
  rewrite Hs. clear Hs. cbn [fst snd].
  unfold fetchConfig_start. rewrite HkbB. cbn [negb fst snd].
  unfold fetchConfig_finish. rewrite Hload.
  unfold handleSaveChanges_finish. rewrite Hsaved. cbn [fst snd].
  do 10 (split; [reflexivity|]).
  unfold handleSaveChanges_start. rewrite HkbB. cbn -[changes noKeys].
  rewrite Hdiff. reflexivity.
Qed.

End Facts.

Lemma save_outcomes_witness :
  isSaving
    (fst (handleSaveChanges_finish (P:=examplePlatform) (config Sample.edited) Sample.cleared
            (fst (handleSaveChanges_start "kb1" Sample.backendUrl Sample.edited))))
  = false.
Proof.
  apply (save_outcomes (P:=examplePlatform) "kb1" Sample.backendUrl Sample.cleared
           Sample.edited).
  - reflexivity.
  - discriminate.
  - reflexivity.
Defined.

Lemma low_count_is_sent_as_null_witness :
  snd (handleSaveChanges_start "kb1" Sample.backendUrl
         (fst (handleSaveChanges_finish (P:=examplePlatform) (config Sample.edited)
                 Sample.cleared
                 (fst (handleSaveChanges_start "kb1" Sample.backendUrl Sample.edited)))))
  = [].
Proof.
  apply (low_count_is_sent_as_null (P:=examplePlatform) "kb1" Sample.backendUrl
           Sample.cleared Sample.edited 0%Q); reflexivity.
Defined.

Lemma late_save_answer_marks_other_agent_witness :
  initialConfig
    (fst (handleSaveChanges_finish (P:=examplePlatform) (config Sample.edited)
            Sample.cleared
            (fetchConfig_finish (P:=examplePlatform) Sample.otherConfig
               (fst (fetchConfig_start "kb2" Sample.backendUrl
                       (fst (handleSaveChanges_start "kb1" Sample.backendUrl
                               Sample.edited)))))))
  = config Sample.edited.
Proof.
  refine (proj1 (proj2 (proj2 (proj2 (proj2 (proj2 (proj2
           (late_save_answer_marks_other_agent (P:=examplePlatform) "kb1"
              Sample.backendUrl "kb2" Sample.cleared Sample.otherConfig
              {| system_prompt := Val "Be formal."; max_iterations := Val (Fin 3%Q) |}
              Sample.edited _ _ _ _ _ _ _)))))))); reflexivity.
Defined.

End ConfigLifecycle.

(** ** The knowledge base viewer and its drawer *)

Module KnowledgeContent.
Import Js.

Section Facts.
Context {P : Platform}.
Variables (kbId backendUrl : string).

Local Arguments trim : simpl never.
Local Arguments get : simpl never.

Local Abbreviation cleanup_start := (KnowledgeBaseViewer.handleCleanupKb_start kbId backendUrl).
Local Abbreviation cleanup_finish := (KnowledgeBaseViewer.handleCleanupKb_finish kbId backendUrl).
Local Abbreviation content_start := (KnowledgeBaseViewer.fetchContent_start kbId backendUrl).
Local Abbreviation content_finish := KnowledgeBaseViewer.fetchContent_finish.

(** X24.  With the Cleanup button enabled, declining the confirmation
    changes nothing; confirming issues the cleanup POST and disables the
    button.  On success the content is requested again, then the 3 s timer
    of the success note is set, and the button stays disabled while the
    content loads; on failure the cleanup error is set and nothing is
    requested.  The list itself is never changed by the cleanup handler. *)
Theorem cleanup_then_reload (res : FetchResult Json) st :
  KnowledgeBaseViewer.cleanupDisabled kbId st = false ->
  let st1 := fst (cleanup_start true st) in
  let done := cleanup_finish res st1 in
  cleanup_start false st = (st, []) /\
  snd (cleanup_start true st) = [KnowledgeBaseViewer.Fetch
                                   (KnowledgeBaseViewer.cleanupRequest kbId backendUrl)] /\
  KnowledgeBaseViewer.cleanupDisabled kbId st1 = true /\
  KnowledgeBaseViewer.content (fst done) = KnowledgeBaseViewer.content st /\
  KnowledgeBaseViewer.isCleaning (fst done) = false /\
  match KnowledgeBaseViewer.handleCleanupKb_try res with
  | Return _ =>
      snd done = [KnowledgeBaseViewer.Fetch
                    (KnowledgeBaseViewer.contentRequest kbId backendUrl);
                  KnowledgeBaseViewer.SetTimeout 3000] /\
      KnowledgeBaseViewer.showCleanupSuccess (fst done) = true /\
      KnowledgeBaseViewer.cleanupError (fst done) = None /\
      KnowledgeBaseViewer.cleanupDisabled kbId (fst done) = true
  | Throw err =>
      snd done = [] /\
      KnowledgeBaseViewer.showCleanupSuccess (fst done) = false /\
      KnowledgeBaseViewer.cleanupError (fst done)
        = Some (KnowledgeBaseViewer.handleCleanupKb_error err) /\
      KnowledgeBaseViewer.cleanupDisabled kbId (fst done) = false
  end.
Proof.
  unfold KnowledgeBaseViewer.cleanupDisabled. intros Hdis. cbv zeta.
  apply orb_false_elim in Hdis as [Hdis Hload].
  apply orb_false_elim in Hdis as [Hkb Hclean].
  unfold KnowledgeBaseViewer.handleCleanupKb_start,
    KnowledgeBaseViewer.handleCleanupKb_finish,
    KnowledgeBaseViewer.fetchContent_start.
  rewrite Hkb. cbn [negb orb fst snd].
  destruct (KnowledgeBaseViewer.handleCleanupKb_try res) as [[]|err]; cbn;
    rewrite ?Hkb, ?Hload; cbn; auto 12.
Qed.

(** X25.  Loading the content keeps the previous list and count when the
    request fails, and also when the body is [null]; an object body
    replaces both, a missing or falsy [content] by the empty list and a
    missing or falsy [total_count] by 0.  The loading flag is released in
    every case. *)
Theorem content_load_keeps_list_on_failure (res : FetchResult Json) st :
  nonempty kbId = true ->
  let st2 := content_finish res (fst (content_start st)) in
  KnowledgeBaseViewer.isLoading (fst (content_start st)) = true /\
  KnowledgeBaseViewer.isLoading st2 = false /\
  (forall err,
      KnowledgeBaseViewer.fetchContent_try res = Throw err ->
      KnowledgeBaseViewer.content st2 = KnowledgeBaseViewer.content st /\
      KnowledgeBaseViewer.totalCount st2 = KnowledgeBaseViewer.totalCount st /\
      KnowledgeBaseViewer.error st2 = Some (KnowledgeBaseViewer.fetchContent_error err)) /\
  (KnowledgeBaseViewer.fetchContent_try res = Return JNull ->
      KnowledgeBaseViewer.content st2 = KnowledgeBaseViewer.content st /\
      KnowledgeBaseViewer.error st2
        = Some ("Failed to fetch knowledge base content: " +:+ type_error_message "content")) /\
  (forall fields,
      KnowledgeBaseViewer.fetchContent_try res = Return (JObj fields) ->
      KnowledgeBaseViewer.content st2 = or_default (assoc "content" fields) (JArr []) /\
      KnowledgeBaseViewer.totalCount st2
        = or_default (assoc "total_count" fields) (JNum 0%Q) /\
      KnowledgeBaseViewer.error st2 = None).
Proof.
  intros Hkb. cbv zeta.
  unfold KnowledgeBaseViewer.fetchContent_start, KnowledgeBaseViewer.fetchContent_finish.
  rewrite Hkb. cbn [negb fst].
  split; [reflexivity|]. split; [reflexivity|].
  split; [|split].
  - intros err ->. cbn. auto.
  - intros ->. cbn. auto.
  - intros fields ->. cbn. auto.
Qed.

Local Abbreviation save_start := (AddKbDrawer.handleSaveToKb_start (Some kbId) backendUrl).

(** X26.  With the Save button of the drawer enabled the handler posts
    the trimmed text.  On success the drawer sets the success note and a
    1.5 s timer whose callback calls [onClose], by which the viewer closes
    the drawer and requests the content again; on failure the drawer shows
    the error, keeps the text, sets no timer, and Save is enabled again. *)
Theorem saved_knowledge_reloads_content {A} (res : FetchResult A) d v :
  AddKbDrawer.saveDisabled (Some kbId) d = false ->
  let d1 := fst (save_start d) in
  let done := AddKbDrawer.handleSaveToKb_finish res d1 in
  snd (save_start d)
    = [AddKbDrawer.Fetch
         (request POST (backendUrl +:+ "/agents/" +:+ kbId +:+ "/human-knowledge") JsonBody)
         (trim (AddKbDrawer.kbEditText d))] /\
  AddKbDrawer.saveDisabled (Some kbId) d1 = true /\
  AddKbDrawer.kbEditText (fst done) = AddKbDrawer.kbEditText d /\
  match AddKbDrawer.handleSaveToKb_try res with
  | Return _ =>
      snd done = [AddKbDrawer.SetTimeout 1500] /\
      AddKbDrawer.showKbSaveSuccess (fst done) = true /\
      AddKbDrawer.kbSaveError (fst done) = None /\
      snd (AddKbDrawer.timerFired (fst done)) = [AddKbDrawer.onClose] /\
      AddKbDrawer.showKbSaveSuccess (fst (AddKbDrawer.timerFired (fst done))) = false /\
      KnowledgeBaseViewer.isKbDrawerOpen
        (fst (KnowledgeBaseViewer.handleCloseKbDrawer kbId backendUrl v)) = false /\
      snd (KnowledgeBaseViewer.handleCloseKbDrawer kbId backendUrl v)
        = [KnowledgeBaseViewer.Fetch (KnowledgeBaseViewer.contentRequest kbId backendUrl)]
  | Throw err =>
      snd done = [] /\
      AddKbDrawer.showKbSaveSuccess (fst done) = false /\
      AddKbDrawer.kbSaveError (fst done) = Some (AddKbDrawer.handleSaveToKb_error err) /\
      AddKbDrawer.saveDisabled (Some kbId) (fst done) = false
  end.
Proof.
  unfold AddKbDrawer.saveDisabled. intros Hdis. cbv zeta.
  apply orb_false_elim in Hdis as [Hdis Hkb].
  apply orb_false_elim in Hdis as [Htext Hsaving].
  unfold AddKbDrawer.handleSaveToKb_start, AddKbDrawer.handleSaveToKb_finish.
  rewrite Hkb, Htext. cbn [orb fst snd AddKbDrawer.kbIdText].
  cbn in Hkb. apply negb_false_iff in Hkb.
  destruct (AddKbDrawer.handleSaveToKb_try res) as [[]|err]; cbn;
    unfold KnowledgeBaseViewer.handleCloseKbDrawer, KnowledgeBaseViewer.fetchContent_start;
    rewrite ?Htext, ?Hkb; cbn; auto 12.
Qed.

End Facts.

Lemma cleanup_then_reload_witness :
  KnowledgeBaseViewer.isCleaning
    (fst (KnowledgeBaseViewer.handleCleanupKb_finish (P:=examplePlatform) "kb1"
            Sample.backendUrl Sample.cleared
            (fst (KnowledgeBaseViewer.handleCleanupKb_start "kb1" Sample.backendUrl true
                    KnowledgeBaseViewer.initial)))) = false.
Proof.
  apply (cleanup_then_reload (P:=examplePlatform) "kb1" Sample.backendUrl Sample.cleared
           KnowledgeBaseViewer.initial).
  reflexivity.
Defined.

Lemma content_load_keeps_list_on_failure_witness :
  KnowledgeBaseViewer.isLoading
    (KnowledgeBaseViewer.fetchContent_finish (P:=examplePlatform)
       (Resolved Sample.serverError)
       (fst (KnowledgeBaseViewer.fetchContent_start "kb1" Sample.backendUrl
               KnowledgeBaseViewer.initial))) = false.
Proof.
  apply (content_load_keeps_list_on_failure (P:=examplePlatform) "kb1" Sample.backendUrl
           (Resolved Sample.serverError) KnowledgeBaseViewer.initial).
  reflexivity.
Defined.

Lemma saved_knowledge_reloads_content_witness :
  AddKbDrawer.kbEditText
    (fst (AddKbDrawer.handleSaveToKb_finish Sample.cleared
            (fst (AddKbDrawer.handleSaveToKb_start (Some "kb1") Sample.backendUrl
                    (AddKbDrawer.setKbEditText " opening hours " AddKbDrawer.initial)))))
  = " opening hours ".
Proof.
  apply (saved_knowledge_reloads_content "kb1" Sample.backendUrl
           Sample.cleared
           (AddKbDrawer.setKbEditText " opening hours " AddKbDrawer.initial)
           KnowledgeBaseViewer.initial).
  reflexivity.
Defined.

End KnowledgeContent.

(** ** The file upload *)

Module FileUploads.
Import Js FileUpload.

Section Facts.
Context {P : Platform}.
Variables (kbId backendUrl : string).

Local Abbreviation upload := (handleUpload_start kbId backendUrl).
Local Arguments get : simpl never.

Lemma parts_of_files (files : list File) :
  map fst (map (fun file : File => ("file", file)) files) = repeat "file" (length files) /\
  map snd (map (fun file : File => ("file", file)) files) = files.
Proof.
  induction files as [|f files [IH1 IH2]]; cbn; [auto|].
  rewrite IH1, IH2. auto.
Qed.

(** X27.  Without a selection, [null] or an empty list, Upload shows
    "Please select files first." and issues nothing.  With files it issues
    one POST whose form data holds one part per selected file, each named
    "file", in the order of the selection. *)
Theorem upload_sends_one_part_per_file st :
  (selectedFiles st = None \/ selectedFiles st = Some [] ->
   snd (upload st) = [] /\
   uploadStatus (fst (upload st)) = (st_error, JStr "Please select files first.") /\
   uploading (fst (upload st)) = uploading st) /\
  (forall files,
      selectedFiles st = Some files -> files <> [] ->
      exists parts,
        snd (upload st)
          = [FetchForm (request POST (backendUrl +:+ "/agents/" +:+ kbId +:+ "/upload")
                          FormDataBody) parts] /\
        map fst parts = repeat "file" (length files) /\
        map snd parts = files /\
        uploading (fst (upload st)) = true).
Proof.
  split.
  - intros [H|H]; unfold handleUpload_start; rewrite H; auto.
  - intros files Hsel Hne. unfold handleUpload_start. rewrite Hsel.
    destruct files as [|f files]; [contradiction|].
    eexists. split; [reflexivity|].
    destruct (parts_of_files (f :: files)) as [H1 H2]. auto.
Qed.

(** X28.  When an upload settles the uploading flag is released.  After
    a success the selection is cleared, so a second click issues nothing;
    after a failure the selection is kept, so a second click sends the
    same files again. *)
Theorem upload_keeps_selection_on_failure (res : FetchResult Json) st :
  let st2 := handleUpload_finish res (fst (upload st)) in
  uploading st2 = false /\
  (fst (uploadStatus st2) = st_success /\ selectedFiles st2 = None /\
   snd (upload st2) = []
   \/
   fst (uploadStatus st2) = st_error /\ selectedFiles st2 = selectedFiles st /\
   snd (upload st2) = snd (upload st)).
Proof.
  cbv zeta.
  assert (Hsel : selectedFiles (fst (upload st)) = selectedFiles st).
  { unfold handleUpload_start. destruct st as [[[|f fs]|] u s]; reflexivity. }
  unfold handleUpload_finish.
  destruct (bind (handleUpload_try res) _) as [shown|error]; cbn [uploading setUploading].
  - split; [reflexivity|]. left. cbn. auto.
  - split; [reflexivity|]. right. cbn [fst uploadStatus setUploading setUploadStatus].
    split; [reflexivity|]. split; [exact Hsel|].
    clear Hsel. destruct st as [[[|f fs]|] u s]; reflexivity.
Qed.

End Facts.

Lemma upload_sends_one_part_per_file_witness :
  exists parts,
    snd (handleUpload_start "kb1" Sample.backendUrl
           (handleFileChange (Some ["a.pdf"; "b.pdf"]) FileUpload.initial))
      = [FetchForm (request POST (Sample.backendUrl +:+ "/agents/" +:+ "kb1" +:+ "/upload")
                      FormDataBody) parts] /\
    map fst parts = repeat "file" 2.
Proof.
  destruct (proj2 (upload_sends_one_part_per_file "kb1" Sample.backendUrl
                     (handleFileChange (Some ["a.pdf"; "b.pdf"]) FileUpload.initial))
              ["a.pdf"; "b.pdf"] eq_refl ltac:(discriminate))
    as (parts & Hreq & Hnames & _).
  exists parts. split; [exact Hreq|exact Hnames].
Defined.

End FileUploads.

(** ** The human-agent desk *)

Module HandoffDesk.
Import Js HumanAgentDesk.

Section Facts.
Context {P : Platform}.
Variable backendUrl : string.
Variable sortNewestFirst : list Json -> Completion (list Json).
Variable not_a_function_message : string -> string.

Local Arguments trim : simpl never.
Local Arguments get : simpl never.

Local Abbreviation send_start := (handleSendResponse_start backendUrl).
Local Abbreviation posted := (handleSendResponse_posted backendUrl).
Local Abbreviation historyLoaded :=
  (handleSendResponse_historyLoaded backendUrl not_a_function_message).
Local Abbreviation finish := (handleSendResponse_finish sortNewestFirst not_a_function_message).

(** X29.  A response sent with the send button enabled goes to the
    human-chat endpoint of the selected conversation.  When the POST
    succeeds the history of that conversation is requested, and only when
    that has settled the conversation list; when that has settled too the
    text is cleared and the success note shown for 3 s, whatever the two
    refreshes answered.  A failure of the history refresh is never
    displayed: its error is reset when the list refresh starts, and only
    the emptied history remains. *)
Theorem response_then_refreshes {A} kbId (post : FetchResult A)
  (hist convs : FetchResult Json) st :
  selected st = Some kbId ->
  sendDisabled st = false ->
  handleSendResponse_try post = Return tt ->
  let st1 := fst (send_start st) in
  let st2 := fst (posted kbId post st1) in
  let st3 := fst (historyLoaded hist st2) in
  let st4 := fst (finish convs st3) in
  snd (send_start st) = [Fetch (responseRequest backendUrl kbId)] /\
  sendDisabled st1 = true /\
  snd (posted kbId post st1) = [Fetch (historyRequest backendUrl kbId)] /\
  snd (historyLoaded hist st2) = [Fetch (conversationsRequest backendUrl)] /\
  error st3 = None /\
  snd (finish convs st3) = [SetTimeout 3000] /\
  responseText st4 = "" /\ showSuccess st4 = true /\ isSending st4 = false /\
  conversationHistory st4
    = match bind (fetch_try hist) (mappedHistory not_a_function_message) with
      | Return history => history
      | Throw _ => []
      end /\
  error st4
    = match bind (fetch_try convs)
              (fetchedConversations sortNewestFirst not_a_function_message) with
      | Return _ => None
      | Throw err => Some (fetchConversations_error err)
      end.
Proof.
  intros Hsel Hdis Hpost. cbv zeta.
  unfold sendDisabled in Hdis. apply orb_false_elim in Hdis as [Hsending Htext].
  unfold handleSendResponse_start, handleSendResponse_posted,
    handleSendResponse_historyLoaded, handleSendResponse_finish.
  rewrite Hsel, Htext, Hpost. cbn [fst snd].
  unfold fetchConversations_start, fetchConversationHistory_start,
    fetchConversationHistory_finish, fetchConversations_finish. cbn [fst snd].
  destruct (bind (fetch_try hist) _) as [history|herr];
    destruct (bind (fetch_try convs) _) as [sorted|cerr]; cbn; auto 15.
Qed.

(** A response whose POST fails is not lost: the error is shown,
    the text stays in the box, nothing is refreshed and the send button is
    enabled again.  A 400 is reported as "Message cannot be empty"
    whatever the body says. *)
Theorem failed_response_keeps_text {A} kbId (post : FetchResult A) err st :
  selected st = Some kbId ->
  sendDisabled st = false ->
  handleSendResponse_try post = Throw err ->
  let done := posted kbId post (fst (send_start st)) in
  snd done = [] /\
  responseText (fst done) = responseText st /\
  error (fst done) = Some (handleSendResponse_error err) /\
  showSuccess (fst done) = showSuccess st /\
  sendDisabled (fst done) = false /\
  (forall response, post = Resolved response -> status response = 400 ->
                    error (fst done) = Some "Message cannot be empty").
Proof.
  intros Hsel Hdis Hpost. cbv zeta.
  unfold sendDisabled in Hdis. apply orb_false_elim in Hdis as [Hsending Htext].
  unfold handleSendResponse_start, handleSendResponse_posted.
  rewrite Hsel, Htext, Hpost. cbn.
  unfold sendDisabled. cbn. rewrite Htext.
  repeat match goal with |- _ /\ _ => split end; auto.
  intros response -> H400. unfold handleSendResponse_try in Hpost.
  unfold ok in Hpost. rewrite H400 in Hpost. cbn in Hpost.
  injection Hpost as <-. reflexivity.
Qed.

Lemma toMessage_defined apiMsg :
  apiMsg <> JNull ->
  exists t c ts,
    get (Some apiMsg) "type" = Return t /\
    get (Some apiMsg) "content" = Return c /\
    get (Some apiMsg) "timestamp" = Return ts /\
    toMessage apiMsg
      = Return {| sender := if is_string t "human" then Some (JStr "user") else t;
                  text := c; timestamp := ts |}.
Proof.
  intros Hnn. unfold toMessage.
  destruct apiMsg; try contradiction; cbn; eauto 10.
Qed.

Lemma toMessage_null : exists e, toMessage JNull = Throw e.
Proof. cbn. eauto. Qed.

(** X30.  The history of the desk is mapped item by item: when no item
    is [null] there is one message per item, in order, with the item's
    [content] and [timestamp], and with its [type] as sender except that
    "human" becomes "user".  A single [null] item makes the whole mapping
    throw, and the load then shows an error over an empty history. *)
Theorem desk_history_is_mapped_in_order items :
  (Forall (fun item => item <> JNull) items ->
   exists msgs,
     mapMessages items = Return msgs /\
     length msgs = length items /\
     forall i item m,
       items !! i = Some item -> msgs !! i = Some m ->
       get (Some item) "content" = Return (text m) /\
       get (Some item) "timestamp" = Return (timestamp m) /\
       exists t, get (Some item) "type" = Return t /\
                 sender m = if is_string t "human" then Some (JStr "user") else t) /\
  (In JNull items ->
   (exists e, mapMessages items = Throw e) /\
   forall response st,
     ok response = true ->
     json response = Return (JObj [("history", JArr items)]) ->
     conversationHistory
       (fetchConversationHistory_finish not_a_function_message (Resolved response) st) = [] /\
     error (fetchConversationHistory_finish not_a_function_message (Resolved response) st)
       <> None).
Proof.
  split.
  - induction 1 as [|item items Hitem _ IH].
    + exists []. split; [reflexivity|]. split; [reflexivity|].
      intros i item m Hi. rewrite lookup_nil in Hi. discriminate.
    + destruct IH as (msgs & Hmap & Hlen & Hith).
      destruct (toMessage_defined item Hitem) as (t & c & ts & Ht & Hc & Hts & Hto).
      exists ({| sender := if is_string t "human" then Some (JStr "user") else t;
                 text := c; timestamp := ts |} :: msgs).
      split; [cbn [mapMessages]; rewrite Hto, Hmap; reflexivity|].
      split; [cbn; congruence|].
      intros [|i] item' m Hi Hm; cbn in Hi, Hm.
      * injection Hi as <-. injection Hm as <-. cbn. eauto.
      * eapply Hith; eassumption.
  - intros Hin.
    assert (Hthrow : exists e, mapMessages items = Throw e).
    { induction items as [|item items IH]; [contradiction|].
      cbn [mapMessages]. destruct Hin as [->|Hin].
      - destruct toMessage_null as [e He]. rewrite He. cbn. eauto.
      - destruct (toMessage item); cbn; [|eauto].
        destruct (IH Hin) as [e He]. rewrite He. cbn. eauto. }
    split; [exact Hthrow|].
    intros response st Hok Hjson. destruct Hthrow as [e He].
    unfold fetchConversationHistory_finish, fetch_try, mappedHistory.
    rewrite Hok, Hjson. unfold get. cbn -[mapMessages]. rewrite He. cbn.
    split; [reflexivity|discriminate].
Qed.

End Facts.

Lemma response_then_refreshes_witness :
  responseText
    (fst (handleSendResponse_finish (P:=examplePlatform) (fun l => Return l) (fun k => k)
            (Resolved Sample.serverError)
            (fst (handleSendResponse_historyLoaded (P:=examplePlatform) Sample.backendUrl
                    (fun k => k) (Resolved Sample.serverError)
                    (fst (handleSendResponse_posted Sample.backendUrl "kb1" Sample.cleared
                            (fst (handleSendResponse_start Sample.backendUrl
                                    (setResponseText "On my way"
                                       (handleSelectConversation "kb1"
                                          HumanAgentDesk.initial))))))))))
  = "".
Proof.
  apply (response_then_refreshes (P:=examplePlatform) Sample.backendUrl
           (fun l => Return l) (fun k => k) "kb1" Sample.cleared
           (Resolved Sample.serverError) (Resolved Sample.serverError)
           (setResponseText "On my way"
              (handleSelectConversation "kb1" HumanAgentDesk.initial))); reflexivity.
Defined.

Lemma failed_response_keeps_text_witness :
  responseText
    (fst (handleSendResponse_posted Sample.backendUrl "kb1" (Resolved Sample.serverError)
            (fst (handleSendResponse_start Sample.backendUrl
                    (setResponseText "On my way"
                       (handleSelectConversation "kb1" HumanAgentDesk.initial))))))
  = "On my way".
Proof.
  apply (failed_response_keeps_text Sample.backendUrl "kb1" (Resolved Sample.serverError)
           (mkError "Error" "HTTP error! status: 500")
           (setResponseText "On my way"
              (handleSelectConversation "kb1" HumanAgentDesk.initial))); reflexivity.
Defined.

Lemma desk_history_is_mapped_in_order_witness :
  exists msgs,
    mapMessages (P:=examplePlatform)
      [JObj [("type", JStr "human"); ("content", JStr "Hello")]] = Return msgs /\
    length msgs = 1.
Proof.
  destruct (proj1 (desk_history_is_mapped_in_order (P:=examplePlatform) (fun k => k)
                     [JObj [("type", JStr "human"); ("content", JStr "Hello")]])
              ltac:(repeat constructor; discriminate))
    as (msgs & Hmap & Hlen & _).
  exists msgs. split; [exact Hmap|exact Hlen].
Defined.

End HandoffDesk.

(** ** Requests that outlive an agent change *)

Module StaleRequests.
Import Js.

(** C1.  The status requests of the URL scraper overlap when the agent
    changes while polling.  A scrape for kb1 was accepted and its first
    status request is in flight; the parent renders the widget for kb2.
    The cleanup of the effect finds no timer to clear and the new run
    polls at once: the request for kb2 is issued before the request for
    kb1 has settled, and both are awaited.  When the request for kb1 is
    then answered "processing" its run, although cleaned up, sets its
    timer and polls kb1 again.  The requests are not in sequence. *)
Theorem agent_change_overlaps_polling :
  let c0 := UrlScraper.mount "kb1" Sample.backendUrl UrlScraper.initial in
  let c1 := UrlScraper.renders (P:=examplePlatform) Sample.agentChangedWhilePolling c0 in
  let c2 := UrlScraper.renders (P:=examplePlatform) Sample.oldAgentPolledOn c0 in
  UrlScraper.isPolling (UrlScraper.cells c1) = true /\
  UrlScraper.kbIdProp c1 = "kb2" /\
  UrlScraper.trace c1
    = [ UrlScraper.Issued (UrlScraper.statusRequest "kb1" Sample.backendUrl);
        UrlScraper.Issued (UrlScraper.statusRequest "kb2" Sample.backendUrl) ] /\
  UrlScraper.awaiting c1 = [1; 2] /\
  UrlScraper.timers c1 = [] /\
  ~ UrlScraper.Sequenced (UrlScraper.trace c1) /\
  UrlScraper.trace c2
    = [ UrlScraper.Issued (UrlScraper.statusRequest "kb1" Sample.backendUrl);
        UrlScraper.Issued (UrlScraper.statusRequest "kb2" Sample.backendUrl);
        UrlScraper.Settled Sample.processing;
        UrlScraper.Scheduled 2000;
        UrlScraper.Issued (UrlScraper.statusRequest "kb1" Sample.backendUrl) ] /\
  UrlScraper.awaiting c2 = [2; 1] /\
  UrlScraper.kbIdProp c2 = "kb2".
Proof.
  cbv zeta.
  split; [reflexivity|]. split; [reflexivity|]. split; [reflexivity|].
  split; [reflexivity|]. split; [reflexivity|].
  split; [intros H; inversion H|].
  split; [reflexivity|]. split; reflexivity.
Qed.

(** C2.  The answer to a clear-history request of the previous agent
    replaces the list of the new agent.  With the history of kb1 loaded the
    Clear button is enabled and a confirmed click issues DELETE
    /agents/kb1/history, a request without a signal.  Agent kb2 is selected
    before the answer: the history request and the cell are aborted, the
    DELETE is not.  The history of kb2 loads and is shown; then the DELETE
    is answered ok and the list of kb2 is replaced by the welcome message. *)
Theorem clear_answer_replaces_new_agents_list :
  let loaded := ChatInterface.step (ChatInterface.HistorySettled 0 "kb1" 1 Sample.noHistory)
                  (ChatInterface.mounted "kb1" Sample.backendUrl) in
  let before := ChatInterface.run Sample.agentChangedDuringClear
                  (ChatInterface.mounted "kb1" Sample.backendUrl) in
  let after := ChatInterface.step (ChatInterface.ClearSettled 3 Sample.cleared) before in
  ChatInterface.clearDisabled "kb1" (ChatInterface.view loaded) = false /\
  snd (ChatInterface.handleClearHistory_start "kb1" Sample.backendUrl true
         (ChatInterface.view loaded))
    = [ ChatInterface.Fetch
          {| method := DELETE;
             target := ChatInterface.historyUrl Sample.backendUrl "kb1";
             body := NoBody; signal := None |} ] /\
  snd (ChatInterface.propsChanged "kb2" Sample.backendUrl
         (ChatInterface.run Sample.clearConfirmed
            (ChatInterface.mounted "kb1" Sample.backendUrl)))
    = [ ChatInterface.AbortCall 0;
        ChatInterface.Fetch
          {| method := GET;
             target := ChatInterface.historyUrl Sample.backendUrl "kb2";
             body := NoBody; signal := Some 1 |} ] /\
  ChatInterface.kbId before = "kb2" /\
  ChatInterface.messages (ChatInterface.view before)
    = [ {| ChatInterface.Message.id := "hist-kb2-0";
           ChatInterface.Message.sender := ChatInterface.user;
           ChatInterface.Message.text := "earlier";
           ChatInterface.Message.isLoading := None;
           ChatInterface.Message.messageType := ChatInterface.mt_user |} ] /\
  ChatInterface.kbId after = "kb2" /\
  ChatInterface.messages (ChatInterface.view after) = [ChatInterface.welcomeMessage 3].
Proof.
  cbv zeta.
  split; [reflexivity|]. split; [reflexivity|]. split; [reflexivity|].
  split; [reflexivity|]. split; [reflexivity|]. split; reflexivity.
Qed.

End StaleRequests.
